(** * IPSuite [configuration_generation/packmol.py]: a shallow embedding

    The node renders an input script for the external packing solver, runs
    the solver and stamps the resulting structure.  The embedding keeps the
    Python data as it is in the source: text is [string], numbers are a
    tagged union of [int] and binary64 [float], exceptions are values of an
    error monad and every outside effect (files, subprocesses, logging) is
    an event appended to a trace. *)

From Stdlib Require Import ZArith NArith List String Ascii Bool Lia Floats.
Import ListNotations.

Open Scope string_scope.
Open Scope Z_scope.

(* ================================================================== *)
(** ** Python text helpers *)
(* ================================================================== *)

Definition nl : string := String (ascii_of_nat 10) EmptyString.

Fixpoint spaces (n : nat) : string :=
  match n with
  | O => EmptyString
  | S k => String " " (spaces k)
  end.

(** [sep.join(l)] *)
Fixpoint py_join (sep : string) (l : list string) : string :=
  match l with
  | [] => EmptyString
  | [x] => x
  | x :: rest => x ++ sep ++ py_join sep rest
  end.

(** [s.replace(c, "")] for a one-character pattern. *)
Fixpoint remove_char (c : ascii) (s : string) : string :=
  match s with
  | EmptyString => EmptyString
  | String a rest =>
      if Ascii.eqb a c then remove_char c rest else String a (remove_char c rest)
  end.

(** [sub in s] *)
Fixpoint contains (sub s : string) : bool :=
  if String.prefix sub s then true
  else match s with
       | EmptyString => false
       | String _ rest => contains sub rest
       end.

Definition is_digit (c : ascii) : bool :=
  let n := nat_of_ascii c in (Nat.leb 48 n && Nat.leb n 57)%bool.

Definition digit_char (d : N) : ascii := ascii_of_N (48 + d).

Fixpoint dec_digits (fuel : nat) (n : N) (acc : string) : string :=
  match fuel with
  | O => acc
  | S f =>
      let acc' := String (digit_char (n mod 10)) acc in
      if (n / 10 =? 0)%N then acc' else dec_digits f (n / 10)%N acc'
  end.

(** Decimal digits of a natural number, most significant first. *)
Definition str_N (n : N) : string :=
  dec_digits (S (N.to_nat (N.log2 n))) n EmptyString.

(** [str(z)] for a Python [int]. *)
Definition str_Z (z : Z) : string :=
  if z <? 0 then String "-" (str_N (Z.abs_N z)) else str_N (Z.to_N z).

(** The digits of [n] left-padded with zeros to [width] characters. *)
Fixpoint zeros (n : nat) : string :=
  match n with
  | O => EmptyString
  | S k => String "0" (zeros k)
  end.

Definition zfill (width : nat) (s : string) : string :=
  zeros (width - String.length s) ++ s.

(* ================================================================== *)
(** ** Exceptions and the error monad *)
(* ================================================================== *)

Inductive exc_kind : Type :=
  | ValueError
  | TypeError
  | IndexError
  | OverflowError
  | OSError
  | CalledProcessError.

(** A raised exception; [str(e)] is its message. *)
Record exc : Type := Exc { exc_type : exc_kind; exc_msg : string }.

Definition str_exc (e : exc) : string := exc_msg e.

Inductive result (A : Type) : Type :=
  | Ok (a : A)
  | Raise (e : exc).
Arguments Ok {A} a.
Arguments Raise {A} e.

Definition rbind {A B} (r : result A) (k : A -> result B) : result B :=
  match r with
  | Ok a => k a
  | Raise e => Raise e
  end.

(** [try: body  except Exception as e: handler(e)]; every exception of
    the model is an [Exception]. *)
Definition try_except {A} (body : result A) (handler : exc -> result A)
  : result A :=
  match body with
  | Ok a => Ok a
  | Raise e => handler e
  end.

Fixpoint rmap {A B} (f : A -> result B) (l : list A) : result (list B) :=
  match l with
  | [] => Ok []
  | x :: rest =>
      rbind (f x) (fun y => rbind (rmap f rest) (fun ys => Ok (y :: ys)))
  end.

(* ================================================================== *)
(** ** Python numbers: [int] and binary64 [float] *)
(* ================================================================== *)

Inductive pynum : Type :=
  | PyInt (z : Z)
  | PyFloat (f : float).

(** [float(z)]: round to nearest even; Python raises instead of
    producing an infinity. *)
Definition float_of_int (z : Z) : result float :=
  match binary_normalize prec emax z 0 false with
  | S754_infinity _ =>
      Raise (Exc OverflowError "int too large to convert to float")
  | sf => Ok (SF2Prim sf)
  end.

(** [a * b] *)
Definition py_mul (a b : pynum) : result pynum :=
  match a, b with
  | PyInt x, PyInt y => Ok (PyInt (x * y))
  | PyInt x, PyFloat g =>
      rbind (float_of_int x) (fun f => Ok (PyFloat (PrimFloat.mul f g)))
  | PyFloat f, PyInt y =>
      rbind (float_of_int y) (fun g => Ok (PyFloat (PrimFloat.mul f g)))
  | PyFloat f, PyFloat g => Ok (PyFloat (PrimFloat.mul f g))
  end.

(** [a - b] *)
Definition py_sub (a b : pynum) : result pynum :=
  match a, b with
  | PyInt x, PyInt y => Ok (PyInt (x - y))
  | PyInt x, PyFloat g =>
      rbind (float_of_int x) (fun f => Ok (PyFloat (PrimFloat.sub f g)))
  | PyFloat f, PyInt y =>
      rbind (float_of_int y) (fun g => Ok (PyFloat (PrimFloat.sub f g)))
  | PyFloat f, PyFloat g => Ok (PyFloat (PrimFloat.sub f g))
  end.

(** *** [format(x, ".4f")]

    The exact binary value [m * 2^e] is rounded half-to-even to [nd]
    decimals ([nd >= 1]), as CPython's correctly rounded conversion
    does. *)

Definition round_half_even (num e : Z) : Z :=
  if 0 <=? e then num * 2 ^ e
  else
    let d := 2 ^ (- e) in
    let q := num / d in
    let r := num mod d in
    match Z.compare (2 * r) d with
    | Lt => q
    | Gt => q + 1
    | Eq => if Z.even q then q else q + 1
    end.

Definition sign_str (s : bool) : string := if s then "-" else "".

Definition format_f_spec (nd : nat) (x : spec_float) : string :=
  let scale := 10 ^ Z.of_nat nd in
  match x with
  | S754_nan => "nan"
  | S754_infinity s => sign_str s ++ "inf"
  | S754_zero s => sign_str s ++ "0." ++ zeros nd
  | S754_finite s m e =>
      let n := round_half_even (Z.pos m * scale) e in
      sign_str s ++ str_N (Z.to_N (n / scale)) ++ "."
        ++ zfill nd (str_N (Z.to_N (n mod scale)))
  end.

Definition format_f (nd : nat) (f : float) : string :=
  format_f_spec nd (Prim2SF f).

(** The binary64 value a number is formatted from. *)
Definition as_spec (x : pynum) : spec_float :=
  match x with
  | PyInt z => binary_normalize prec emax z 0 false
  | PyFloat f => Prim2SF f
  end.

(** [f"{x:.4f}"]; an [int] is converted to [float] first. *)
Definition fmt4 (x : pynum) : result string :=
  match x with
  | PyInt _ =>
      match as_spec x with
      | S754_infinity _ =>
          Raise (Exc OverflowError "int too large to convert to float")
      | sf => Ok (format_f_spec 4 sf)
      end
  | PyFloat _ => Ok (format_f_spec 4 (as_spec x))
  end.

(** *** [repr(float)]: the shortest digit string that reads back as the
    same float, printed positionally or with an exponent. *)

(** Compare [a * 10^k] with [b * 2^e]. *)
Definition cmp_dec_bin (a k b e : Z) : comparison :=
  Z.compare (a * 10 ^ Z.max k 0 * 2 ^ Z.max (- e) 0)
            (b * 2 ^ Z.max e 0 * 10 ^ Z.max (- k) 0).

(** The least [t] at or above the start with [m * 2^e < 10^t]. *)
Fixpoint find_decpt (fuel : nat) (m e t : Z) : Z :=
  match fuel with
  | O => t
  | S f =>
      match cmp_dec_bin 1 t m e with
      | Gt => t
      | _ => find_decpt f m e (t + 1)
      end
  end.

(** A start just below the decimal exponent of [m * 2^e]: with
    [l = floor (log2 (m * 2^e))], the exponent is at least
    [floor (l * log10 2)]. *)
Definition decpt_guess (m e : Z) : Z :=
  (Z.log2 m + e) * 30103 / 100000 - 2.

(** Does [d * 10^k] read back as the float [m * 2^e]? *)
Definition reads_back (m e d k : Z) : bool :=
  let lo := if ((m =? 2 ^ 52) && (-1074 <? e))%bool then 4 * m - 1
            else 4 * m - 2 in
  let hi := 4 * m + 2 in
  (match cmp_dec_bin d k lo (e - 2) with
   | Gt => true | Eq => Z.even m | Lt => false end)
  &&
  (match cmp_dec_bin d k hi (e - 2) with
   | Lt => true | Eq => Z.even m | Gt => false end).

(** The candidate with [n] significant digits, if one reads back. *)
Definition candidate (m e decpt n : Z) : option Z :=
  let k := decpt - n in
  let d0 := (m * 2 ^ Z.max e 0 * 10 ^ Z.max (- k) 0)
              / (2 ^ Z.max (- e) 0 * 10 ^ Z.max k 0) in
  let d1 := d0 + 1 in
  let '(near, far) :=
    match cmp_dec_bin (d0 + d1) k (2 * m) e with
    | Gt => (d0, d1)
    | Lt => (d1, d0)
    | Eq => if Z.even d0 then (d0, d1) else (d1, d0)
    end in
  if reads_back m e near k then Some near
  else if reads_back m e far k then Some far
  else None.

Fixpoint shortest (fuel : nat) (m e decpt n : Z) : Z * Z :=
  match fuel with
  | O => (m, n)
  | S f =>
      match candidate m e decpt n with
      | Some d => (d, n)
      | None => shortest f m e decpt (n + 1)
      end
  end.

Definition repr_layout (ds : string) (decpt : Z) : string :=
  let n := Z.of_nat (String.length ds) in
  if ((decpt <=? -4) || (16 <? decpt))%bool then
    let mant := match ds with
                | EmptyString => EmptyString
                | String c EmptyString => String c EmptyString
                | String c rest => String c ("." ++ rest)
                end in
    let ex := decpt - 1 in
    mant ++ "e" ++ (if ex <? 0 then "-" else "+")
         ++ zfill 2 (str_N (Z.abs_N ex))
  else if decpt <=? 0 then "0." ++ zeros (Z.to_nat (- decpt)) ++ ds
  else if decpt <? n then
    substring 0 (Z.to_nat decpt) ds ++ "."
      ++ substring (Z.to_nat decpt) (Z.to_nat (n - decpt)) ds
  else ds ++ zeros (Z.to_nat (decpt - n)) ++ ".0".

Definition repr_spec (x : spec_float) : string :=
  match x with
  | S754_nan => "nan"
  | S754_infinity s => sign_str s ++ "inf"
  | S754_zero s => sign_str s ++ "0.0"
  | S754_finite s m e =>
      let decpt := find_decpt 8 (Z.pos m) e (decpt_guess (Z.pos m) e) in
      let '(d, n) := shortest 17 (Z.pos m) e decpt 1 in
      if d =? 10 ^ n then sign_str s ++ repr_layout "1" (decpt + 1)
      else sign_str s ++ repr_layout (str_N (Z.to_N d)) decpt
  end.

Definition repr_float (f : float) : string := repr_spec (Prim2SF f).

(** [f"{x}"], that is [str(x)] *)
Definition py_str (x : pynum) : string :=
  match x with
  | PyInt z => str_Z z
  | PyFloat f => repr_float f
  end.

(** *** [int(s)] on text

    Surrounding whitespace is dropped, one sign is allowed, and the digits
    may be grouped by single underscores.  (Text is ASCII here; CPython's
    cap on the number of digits is not part of the model.) *)

Definition is_space (c : ascii) : bool :=
  let n := nat_of_ascii c in
  ((Nat.leb 9 n && Nat.leb n 13) || (Nat.leb 28 n && Nat.leb n 32))%bool.

Fixpoint lstrip (s : string) : string :=
  match s with
  | EmptyString => EmptyString
  | String c rest => if is_space c then lstrip rest else s
  end.

Fixpoint rstrip (s : string) : string :=
  match s with
  | EmptyString => EmptyString
  | String c rest =>
      match rstrip rest with
      | EmptyString => if is_space c then EmptyString else String c EmptyString
      | r => String c r
      end
  end.

Definition digit_val (c : ascii) : Z := Z.of_nat (nat_of_ascii c) - 48.

Fixpoint parse_digits (s : string) (prev_digit : bool) (acc : Z) : option Z :=
  match s with
  | EmptyString => if prev_digit then Some acc else None
  | String c rest =>
      if is_digit c then parse_digits rest true (10 * acc + digit_val c)
      else if (Ascii.eqb c "_" && prev_digit)%bool
           then parse_digits rest false acc
           else None
  end.

Definition py_int (s : string) : result Z :=
  let bad := Raise (Exc ValueError
               ("invalid literal for int() with base 10: '" ++ s ++ "'")) in
  match rstrip (lstrip s) with
  | String "-" rest =>
      match parse_digits rest false 0 with
      | Some v => Ok (- v)
      | None => bad
      end
  | String "+" rest =>
      match parse_digits rest false 0 with
      | Some v => Ok v
      | None => bad
      end
  | body =>
      match parse_digits body false 0 with
      | Some v => Ok v
      | None => bad
      end
  end.

(* ================================================================== *)
(** ** The version probe: [get_packmol_version] *)
(* ================================================================== *)

(** The longest run of digits at the head of [s], and what follows. *)
Fixpoint span_digits (s : string) : string * string :=
  match s with
  | EmptyString => (EmptyString, EmptyString)
  | String c rest =>
      if is_digit c
      then let '(d, r) := span_digits rest in (String c d, r)
      else (EmptyString, s)
  end.

Fixpoint drop_prefix (p s : string) : option string :=
  match p with
  | EmptyString => Some s
  | String a p' =>
      match s with
      | EmptyString => None
      | String b s' => if Ascii.eqb a b then drop_prefix p' s' else None
      end
  end.

Definition is_empty (s : string) : bool :=
  match s with EmptyString => true | _ => false end.

(** A match of [Version (\d+\.\d+\.\d+)] anchored at the head of [s];
    the value is group 1.  Each [\d+] is greedy and is followed by a
    character that is not a digit, so the longest run is the only one that
    can match. *)
Definition match_version_at (s : string) : option string :=
  match drop_prefix "Version " s with
  | None => None
  | Some r0 =>
      let '(d1, r1) := span_digits r0 in
      match r1 with
      | String "." r1' =>
          let '(d2, r2) := span_digits r1' in
          match r2 with
          | String "." r2' =>
              let '(d3, _) := span_digits r2' in
              if (is_empty d1 || is_empty d2 || is_empty d3)%bool then None
              else Some (d1 ++ "." ++ d2 ++ "." ++ d3)
          | _ => None
          end
      | _ => None
      end
  end.

(** [re.search(r"Version (\d+\.\d+\.\d+)", s)]: the leftmost match. *)
Fixpoint re_search_version (s : string) : option string :=
  match match_version_at s with
  | Some v => Some v
  | None =>
      match s with
      | EmptyString => None
      | String _ rest => re_search_version rest
      end
  end.

(** What launching [packmol] without arguments does: [Popen] itself may
    raise (no such binary), or the process prints [stdout] line by line
    until it exits or is terminated after the one-second join; reading the
    pipe may end in an exception. *)
Inductive popen_outcome : Type :=
  | PopenRaises (e : exc)
  | PopenRuns (stdout : list string) (failure : option exc).

(** The reader thread: keep lines up to the first one that mentions
    "Version"; an exception while reading becomes a last entry. *)
Fixpoint read_output (stdout : list string) (failure : option exc)
  : list string :=
  match stdout with
  | [] =>
      match failure with
      | Some e => ["Error: " ++ str_exc e]
      | None => []
      end
  | line :: rest =>
      if contains "Version" line then [line]
      else line :: read_output rest failure
  end.

(** The body of the [try] block. *)
Definition probe_body (p : popen_outcome) : result string :=
  match p with
  | PopenRaises e => Raise e
  | PopenRuns stdout failure =>
      let output_lines := read_output stdout failure in
      let full_output := py_join "" output_lines in
      match re_search_version full_output with
      | Some v => Ok v
      | None =>
          Raise (Exc ValueError
                   ("Could not find version in packmol output: "
                      ++ full_output))
      end
  end.

Definition get_packmol_version (p : popen_outcome) : result string :=
  try_except (probe_body p)
             (fun e => Ok ("An error occurred: " ++ str_exc e)).

(* ================================================================== *)
(** ** Structures, the node and the outside world *)
(* ================================================================== *)

(** [self.box]: unset, one number, or a sequence of numbers. *)
Inductive box_value : Type :=
  | BoxNone
  | BoxScalar (x : pynum)
  | BoxList (l : list pynum).

(** An [ase.Atoms] object, as far as the node touches it.  The value
    assigned to [cell] is stored as it was given. *)
Record Atoms : Type := mkAtoms {
  symbols : list string;
  positions : list (float * float * float);
  atoms_cell : box_value;
  atoms_pbc : bool * bool * bool
}.

Definition set_cell (b : box_value) (a : Atoms) : Atoms :=
  mkAtoms (symbols a) (positions a) b (atoms_pbc a).

(** [atoms.pbc = flag] sets all three axes. *)
Definition set_pbc (flag : bool) (a : Atoms) : Atoms :=
  mkAtoms (symbols a) (positions a) (atoms_cell a) (flag, flag, flag).

Record Packmol : Type := mkPackmol {
  data : list (list Atoms);
  data_ids : option (list Z);
  count : list Z;
  tolerance : pynum;
  box : box_value;
  density : option pynum;
  structures : string;
  pbc : bool
}.

(** [MultiPackmol(Packmol)]; the class pins [data_ids] to [None]. *)
Record MultiPackmol : Type := mkMultiPackmol {
  base : Packmol;
  n_configurations : Z;
  seed : Z
}.

(** One call [np.random.choice(a, size, replace, p)] and what it
    returned. *)
Record draw : Type := mkDraw {
  draw_a : Z;
  draw_size : Z;
  draw_replace : bool;
  draw_p : option (list pynum);
  draw_out : list Z
}.

Inductive event : Type :=
  | EvMkdir (path : string)
  | EvWriteXYZ (path : string) (a : Atoms)
  | EvPopen (argv : list string)
  | EvLog (level msg : string)
  | EvWriteText (path content : string)
  | EvCheckCall (cmd cwd : string)
  | EvRead (path : string)
  | EvSeed (s : Z)
  | EvChoice (d : draw).

(** NumPy's global generator: [np.random.seed] and
    [np.random.choice(a, size, replace, p)], with what NumPy documents
    about a draw with replacement and without weights ([p=None], the
    uniform distribution over [0 .. a-1]): [size] values, each one of
    [0 .. a-1]. *)
Record NumPyRandom : Type := mkNumPyRandom {
  rng_state : Type;
  np_seed : Z -> result rng_state;
  np_choice : rng_state -> Z -> Z -> bool -> option (list pynum)
              -> result (list Z) * rng_state;
  np_choice_spec :
    forall g a size out g',
      np_choice g a size true None = (Ok out, g') ->
      0 <= size
      /\ List.length out = Z.to_nat size
      /\ Forall (fun k => 0 <= k < a) out
}.

(** Everything the node calls that lives outside [packmol.py]: the
    solver binary, the density helper [get_box_from_density] of
    [ipsuite.utils.ase_sim], and [ase.io.read].  The answers of the
    solver and of the reader may depend on all that happened before. *)
Record Env : Type := mkEnv {
  banner : popen_outcome;
  get_box_from_density :
    list (list Atoms) -> list Z -> pynum -> result box_value;
  solver_exit : list event -> Z;
  ase_io_read : list event -> string -> result Atoms
}.

(** The mutable part of a run. *)
Record State (R : Type) : Type := mkState {
  self_box : box_value;
  self_atoms : list Atoms;
  trace : list event;
  rng : R
}.
Arguments mkState {R}.
Arguments self_box {R}.
Arguments self_atoms {R}.
Arguments trace {R}.
Arguments rng {R}.

(** State and exceptions: an exception keeps the state reached. *)
Definition M (R A : Type) : Type := State R -> result A * State R.

Definition ret {R A} (a : A) : M R A := fun s => (Ok a, s).

Definition bind {R A B} (m : M R A) (k : A -> M R B) : M R B :=
  fun s =>
    match m s with
    | (Ok a, s') => k a s'
    | (Raise e, s') => (Raise e, s')
    end.

Definition lift {R A} (r : result A) : M R A := fun s => (r, s).

Definition emit {R} (ev : event) : M R unit :=
  fun s => (Ok tt, mkState (self_box s) (self_atoms s) (trace s ++ [ev]) (rng s)).

Definition get_box {R} : M R box_value := fun s => (Ok (self_box s), s).

Definition set_box {R} (b : box_value) : M R unit :=
  fun s => (Ok tt, mkState b (self_atoms s) (trace s) (rng s)).

Definition set_atoms {R} (l : list Atoms) : M R unit :=
  fun s => (Ok tt, mkState (self_box s) l (trace s) (rng s)).

Definition append_atoms {R} (a : Atoms) : M R unit :=
  fun s => (Ok tt, mkState (self_box s) (self_atoms s ++ [a]) (trace s) (rng s)).

Definition get_trace {R} : M R (list event) := fun s => (Ok (trace s), s).

Declare Scope monad_scope.
Delimit Scope monad_scope with monad.
Notation "x <- c ;; k" := (bind c (fun x => k))
  (at level 61, c at next level, right associativity) : monad_scope.
Notation "c ;;; k" := (bind c (fun _ => k))
  (at level 61, right associativity) : monad_scope.

(** [for i, x in enumerate(l): body(i, x)] starting the count at [i]. *)
Fixpoint for_enumerate {R A} (i : Z) (l : list A) (body : Z -> A -> M R unit)
  : M R unit :=
  match l with
  | [] => ret tt
  | x :: rest => bind (body i x) (fun _ => for_enumerate (i + 1) rest body)
  end.

(** [l[i]] with Python's negative indices. *)
Definition py_index {A} (l : list A) (i : Z) : result A :=
  let n := Z.of_nat (List.length l) in
  let j := if i <? 0 then i + n else i in
  if ((0 <=? j) && (j <? n))%bool then
    match nth_error l (Z.to_nat j) with
    | Some x => Ok x
    | None => Raise (Exc IndexError "list index out of range")
    end
  else Raise (Exc IndexError "list index out of range").

(** Iterating over [self.box]. *)
Definition iter_box (b : box_value) : result (list pynum) :=
  match b with
  | BoxList l => Ok l
  | BoxNone => Raise (Exc TypeError "'NoneType' object is not iterable")
  | BoxScalar (PyInt _) => Raise (Exc TypeError "'int' object is not iterable")
  | BoxScalar (PyFloat _) =>
      Raise (Exc TypeError "'float' object is not iterable")
  end.

(** [[f"{x:.4f}" for x in scaled_box]] *)
Definition box_fields (scaled_box : box_value) : result (list string) :=
  rbind (iter_box scaled_box) (rmap fmt4).

(** [" ".join([f"{x:.4f}" for x in scaled_box])] *)
Definition box_str (scaled_box : box_value) : result string :=
  rbind (box_fields scaled_box) (fun strs => Ok (py_join " " strs)).

(** [x - 2 * self.tolerance] *)
Definition shrink_axis (tol x : pynum) : result pynum :=
  rbind (py_mul (PyInt 2) tol) (py_sub x).

(** [[x - 2 * self.tolerance for x in self.box]] *)
Definition shrink_box (b : box_value) (tol : pynum) : result box_value :=
  rbind (iter_box b) (fun l =>
  rbind (rmap (shrink_axis tol) l) (fun scaled => Ok (BoxList scaled))).

(** [str(self.box)] inside the log line. *)
Definition box_repr (b : box_value) : string :=
  match b with
  | BoxNone => "None"
  | BoxScalar x => py_str x
  | BoxList l => "[" ++ py_join ", " (map py_str l) ++ "]"
  end.

(* ================================================================== *)
(** ** [Packmol._post_init_] *)
(* ================================================================== *)

Definition box_is_none (b : box_value) : bool :=
  match b with BoxNone => true | _ => false end.

Definition is_none {A} (o : option A) : bool :=
  match o with None => true | Some _ => false end.

Definition with_box (self : Packmol) (b : box_value) : Packmol :=
  mkPackmol (data self) (data_ids self) (count self) (tolerance self) b
            (density self) (structures self) (pbc self).

Definition _post_init_ (self : Packmol) : result Packmol :=
  if (box_is_none (box self) && is_none (density self))%bool then
    Raise (Exc ValueError "Either box or density must be set.")
  else if negb (Nat.eqb (List.length (data self)) (List.length (count self)))
  then Raise (Exc ValueError "The number of data and count must be the same.")
  else if match data_ids self with
          | Some ids =>
              negb (Nat.eqb (List.length (data self)) (List.length ids))
          | None => false
          end
  then
    Raise (Exc ValueError "The number of data and data_ids must be the same.")
  else
    match box self with
    | BoxScalar x => Ok (with_box self (BoxList [x; x; x]))
    | _ => Ok self
    end.

(* ================================================================== *)
(** ** [Packmol.run] *)
(* ================================================================== *)

Open Scope monad_scope.

Definition raise {R A} (e : exc) : M R A := fun s => (Raise e, s).

(** Lines 116-118: one coordinate file per species. *)
Definition write_inputs {R} (self : Packmol) : M R unit :=
  for_enumerate 0 (data self) (fun idx atoms =>
    a <- lift (match data_ids self with
               | None => py_index atoms (-1)
               | Some ids => rbind (py_index ids idx) (py_index atoms)
               end) ;;
    emit (EvWriteXYZ (structures self ++ "/" ++ str_Z idx ++ ".xyz") a)).

(** Lines 120-121 and 171-174. *)
Definition _get_box_from_molar_volume {R} (env : Env) (self : Packmol)
  : M R unit :=
  match density self with
  | Some d =>
      b <- lift (get_box_from_density env (data self) (count self) d) ;;
      set_box b ;;;
      emit (EvLog "info" ("estimated box size: " ++ box_repr b))
  | None => ret tt
  end.

(** Lines 129-132: probe, log, and read the version as one integer. *)
Definition probe_version {R} (env : Env) : M R Z :=
  emit (EvPopen ["packmol"]) ;;;
  v <- lift (get_packmol_version (banner env)) ;;
  emit (EvLog "info" ("Packmol version: " ++ v)) ;;;
  lift (py_int (remove_char "." v)).

Definition too_old_warning : string :=
  "Packmol version is too old to use periodic boundary conditions.         "
  ++ "       The box size will be scaled by tolerance to avoid overlapping"
  ++ " atoms.".

(** Lines 134-151: the text added to the head and the box the structure
    blocks are placed in. *)
Definition pbc_branch {R} (self : Packmol) (packmol_version : Z)
  : M R (string * box_value) :=
  b <- get_box ;;
  if (pbc self && (20150 <=? packmol_version))%bool then
    s <- lift (box_str b) ;;
    ret (nl ++ spaces 12 ++ "pbc " ++ s ++ nl ++ spaces 12, b)
  else if (pbc self && (packmol_version <? 20150))%bool then
    scaled <- lift (shrink_box b (tolerance self)) ;;
    emit (EvLog "warning" too_old_warning) ;;;
    ret (EmptyString, scaled)
  else ret (EmptyString, b).

(** One [structure ... end structure] block; [indent] is the column of
    the template in the source. *)
Definition structure_block (indent : nat) (name number : string)
    (scaled_box : box_value) : result string :=
  rbind (box_str scaled_box) (fun s =>
    Ok (nl ++ spaces indent ++ "structure " ++ name
        ++ nl ++ spaces (indent + 4) ++ "number " ++ number
        ++ nl ++ spaces (indent + 4) ++ "inside box 0 0 0 " ++ s
        ++ nl ++ spaces indent ++ "end structure"
        ++ nl ++ spaces indent)).

(** Lines 153-159. *)
Fixpoint species_blocks (idx : Z) (counts : list Z) (scaled_box : box_value)
    (file : string) : result string :=
  match counts with
  | [] => Ok file
  | c :: rest =>
      rbind (structure_block 12 (str_Z idx ++ ".xyz") (str_Z c) scaled_box)
            (fun blk => species_blocks (idx + 1) rest scaled_box (file ++ blk))
  end.

Definition file_header (self : Packmol) : string :=
  nl ++ spaces 8 ++ "tolerance " ++ py_str (tolerance self)
  ++ nl ++ spaces 8 ++ "filetype xyz"
  ++ nl ++ spaces 8 ++ "output mixture.xyz"
  ++ nl ++ spaces 8.

(** [subprocess.check_call(cmd, shell=True, cwd=...)] *)
Definition check_call {R} (env : Env) (cmd cwd : string) : M R unit :=
  t <- get_trace ;;
  emit (EvCheckCall cmd cwd) ;;;
  let status := solver_exit env t in
  if status =? 0 then ret tt
  else raise (Exc CalledProcessError
                ("Command '" ++ cmd ++ "' returned non-zero exit status "
                   ++ str_Z status ++ ".")).

(** Lines 165-168 and 280-283: read the result and stamp it. *)
Definition load_result {R} (env : Env) (self : Packmol) (path : string)
  : M R Atoms :=
  emit (EvRead path) ;;;
  t <- get_trace ;;
  atoms <- lift (ase_io_read env t path) ;;
  if pbc self then
    b <- get_box ;;
    ret (set_pbc true (set_cell b atoms))
  else ret atoms.

Definition run {R} (env : Env) (self : Packmol) : M R unit :=
  emit (EvMkdir (structures self)) ;;;
  write_inputs self ;;;
  _get_box_from_molar_volume env self ;;;
  let file := file_header self in
  packmol_version <- probe_version env ;;
  br <- pbc_branch self packmol_version ;;
  file <- lift (species_blocks 0 (count self) (snd br) (file ++ fst br)) ;;
  emit (EvWriteText (structures self ++ "/packmole.inp") file) ;;;
  check_call env "packmol < packmole.inp" (structures self) ;;;
  atoms <- load_result env self (structures self ++ "/mixture.xyz") ;;
  set_atoms [atoms].

Definition init_state {R} (self : Packmol) (g : R) : State R :=
  mkState (box self) [] [] g.

(* ================================================================== *)
(** ** [MultiPackmol.run] *)
(* ================================================================== *)

Definition seed_rng (np : NumPyRandom) (s : Z) : M (rng_state np) unit :=
  fun st =>
    match np_seed np s with
    | Ok g => (Ok tt, mkState (self_box st) (self_atoms st)
                              (trace st ++ [EvSeed s]) g)
    | Raise e => (Raise e, st)
    end.

(** [np.random.choice(a, size)]: [replace=True] and [p=None] by default. *)
Definition random_choice (np : NumPyRandom) (a size : Z)
  : M (rng_state np) (list Z) :=
  fun st =>
    let '(r, g) := np_choice np (rng st) a size true None in
    match r with
    | Ok l => (Ok l, mkState (self_box st) (self_atoms st)
                             (trace st ++ [EvChoice (mkDraw a size true None l)])
                             g)
    | Raise e => (Raise e, mkState (self_box st) (self_atoms st) (trace st) g)
    end.

Definition multi_file_head (self : Packmol) : string :=
  nl ++ spaces 8 ++ "tolerance " ++ py_str (tolerance self)
  ++ nl ++ spaces 8 ++ "filetype xyz"
  ++ nl ++ spaces 8.

(** Lines 252-255: every conformer of every species is written. *)
Definition write_conformers {R} (self : Packmol) : M R unit :=
  for_enumerate 0 (data self) (fun idx atoms_list =>
    for_enumerate 0 atoms_list (fun jdx atoms =>
      emit (EvWriteXYZ (structures self ++ "/" ++ str_Z idx ++ "_"
                          ++ str_Z jdx ++ ".xyz") atoms))).

(** Lines 266-272: one block per drawn index. *)
Fixpoint placement_blocks (jdx : Z) (choices : list Z)
    (scaled_box : box_value) (file : string) : result string :=
  match choices with
  | [] => Ok file
  | kdx :: rest =>
      rbind (structure_block 20 (str_Z jdx ++ "_" ++ str_Z kdx ++ ".xyz")
                             "1" scaled_box)
            (fun blk => placement_blocks jdx rest scaled_box (file ++ blk))
  end.

(** Lines 264-272. *)
Fixpoint species_loop (np : NumPyRandom) (self : Packmol) (jdx : Z)
    (counts : list Z) (scaled_box : box_value) (file : string)
  : M (rng_state np) string :=
  match counts with
  | [] => ret file
  | c :: rest =>
      pool <- lift (py_index (data self) jdx) ;;
      choices <- random_choice np (Z.of_nat (List.length pool)) c ;;
      file' <- lift (placement_blocks jdx choices scaled_box file) ;;
      species_loop np self (jdx + 1) rest scaled_box file'
  end.

(** Lines 258-285: one configuration. *)
Definition configuration (np : NumPyRandom) (env : Env) (self : Packmol)
    (file_head : string) (scaled_box : box_value) (idx : Z)
  : M (rng_state np) unit :=
  let file := file_head ++ (nl ++ spaces 12 ++ "output mixture_" ++ str_Z idx
                              ++ ".xyz" ++ nl ++ spaces 12) in
  file <- species_loop np self 0 (count self) scaled_box file ;;
  emit (EvWriteText (structures self ++ "/packmole_" ++ str_Z idx ++ ".inp")
                    file) ;;;
  check_call env ("packmol < packmole_" ++ str_Z idx ++ ".inp")
             (structures self) ;;;
  atoms <- load_result env self
             (structures self ++ "/mixture_" ++ str_Z idx ++ ".xyz") ;;
  append_atoms atoms.

Fixpoint for_each {R A} (l : list A) (body : A -> M R unit) : M R unit :=
  match l with
  | [] => ret tt
  | x :: rest => bind (body x) (fun _ => for_each rest body)
  end.

(** [range(n)] *)
Definition py_range (n : Z) : list Z :=
  map Z.of_nat (seq 0 (Z.to_nat n)).

Definition multi_run (np : NumPyRandom) (env : Env) (m : MultiPackmol)
  : M (rng_state np) unit :=
  let self := base m in
  seed_rng np (seed m) ;;;
  set_atoms [] ;;;
  _get_box_from_molar_volume env self ;;;
  let file_head := multi_file_head self in
  packmol_version <- probe_version env ;;
  br <- pbc_branch self packmol_version ;;
  let file_head := file_head ++ fst br in
  emit (EvMkdir (structures self)) ;;;
  write_conformers self ;;;
  for_each (py_range (n_configurations m))
           (configuration np env self file_head (snd br)).

Close Scope monad_scope.

(* ================================================================== *)
(** ** Reading a script back, and observing a run *)
(* ================================================================== *)

(** The solver reads its input line by line, each line a keyword and
    blank-separated fields. *)
Fixpoint split_on (sep : ascii) (s : string) : list string :=
  match s with
  | EmptyString => [EmptyString]
  | String c rest =>
      if Ascii.eqb c sep then EmptyString :: split_on sep rest
      else match split_on sep rest with
           | h :: t => String c h :: t
           | [] => [String c EmptyString]
           end
  end.

Definition nl_char : ascii := ascii_of_nat 10.

Definition words (line : string) : list string :=
  filter (fun w => negb (is_empty w)) (split_on " " line).

Definition is_nil {A} (l : list A) : bool :=
  match l with [] => true | _ => false end.

Definition directives (script : string) : list (list string) :=
  filter (fun ws => negb (is_nil ws)) (map words (split_on nl_char script)).

(** A [structure NAME ... end structure] block: the coordinate file, the
    field of [number] and the fields after [inside box]. *)
Record block : Type := mkBlock {
  blk_file : string;
  blk_number : string;
  blk_inside : list string
}.

Fixpoint list_string_eqb (a b : list string) : bool :=
  match a, b with
  | [], [] => true
  | x :: a', y :: b' => (String.eqb x y && list_string_eqb a' b')%bool
  | _, _ => false
  end.

Fixpoint structure_blocks (ds : list (list string)) (cur : option block)
  : list block :=
  match ds with
  | [] => []
  | d :: rest =>
      match cur with
      | None =>
          if String.eqb (hd EmptyString d) "structure"
          then structure_blocks rest
                 (Some (mkBlock (nth 1 d EmptyString) EmptyString []))
          else structure_blocks rest None
      | Some b =>
          if list_string_eqb d ["end"; "structure"]
          then b :: structure_blocks rest None
          else if String.eqb (hd EmptyString d) "number"
          then structure_blocks rest
                 (Some (mkBlock (blk_file b) (nth 1 d EmptyString)
                                (blk_inside b)))
          else if list_string_eqb (firstn 2 d) ["inside"; "box"]
          then structure_blocks rest
                 (Some (mkBlock (blk_file b) (blk_number b) (skipn 2 d)))
          else structure_blocks rest (Some b)
      end
  end.

Definition blocks_of (script : string) : list block :=
  structure_blocks (directives script) None.

(** The lines of a script that start with the keyword [kw]. *)
Definition lines_with (kw : string) (script : string) : list (list string) :=
  filter (fun d => String.eqb (hd EmptyString d) kw) (directives script).

(** The script files written during a run, in order. *)
Fixpoint scripts_written (t : list event) : list (string * string) :=
  match t with
  | [] => []
  | EvWriteText p c :: rest => (p, c) :: scripts_written rest
  | _ :: rest => scripts_written rest
  end.

(** The draws made during a run, in order. *)
Fixpoint draws_made (t : list event) : list draw :=
  match t with
  | [] => []
  | EvChoice d :: rest => d :: draws_made rest
  | _ :: rest => draws_made rest
  end.

(** A node is built from its parameters, [_post_init_] runs as part of
    the construction, and only a node that was built can run. *)
Definition construct_and_run (env : Env) (params : Packmol)
  : result unit * State unit :=
  match _post_init_ params with
  | Raise e => (Raise e, init_state params tt)
  | Ok self => run env self (init_state self tt)
  end.

Definition with_data_ids (self : Packmol) (ids : option (list Z)) : Packmol :=
  mkPackmol (data self) ids (count self) (tolerance self) (box self)
            (density self) (structures self) (pbc self).

Definition multi_construct_and_run (np : NumPyRandom) (env : Env)
    (params : MultiPackmol) (g : rng_state np)
  : result unit * State (rng_state np) :=
  match _post_init_ (with_data_ids (base params) None) with
  | Raise e => (Raise e, init_state (base params) g)
  | Ok self =>
      multi_run np env
        (mkMultiPackmol self (n_configurations params) (seed params))
        (init_state self g)
  end.

(* ================================================================== *)
(** ** Predicates used in the statements *)
(* ================================================================== *)

Fixpoint all_chars (p : ascii -> bool) (s : string) : bool :=
  match s with
  | EmptyString => true
  | String c rest => (p c && all_chars p rest)%bool
  end.

(** Characters that neither end a field nor end a line. *)
Definition tok_char (c : ascii) : bool :=
  (negb (Ascii.eqb c " ") && negb (Ascii.eqb c nl_char))%bool.

(** Characters a rendered number is made of. *)
Definition num_char (c : ascii) : bool :=
  (is_digit c
   || Ascii.eqb c "." || Ascii.eqb c "-" || Ascii.eqb c "+"
   || Ascii.eqb c "e" || Ascii.eqb c "i" || Ascii.eqb c "n"
   || Ascii.eqb c "f" || Ascii.eqb c "a")%bool.

(** One field of a line: not empty, no blank, no line break. *)
Definition token (s : string) : Prop :=
  is_empty s = false /\ all_chars tok_char s = true.

(** [s] is an optional minus sign, digits, a point and exactly [nd]
    digits. *)
Definition fixed_decimals (nd : nat) (s : string) : Prop :=
  exists sign ip fp,
    s = sign_str sign ++ ip ++ "." ++ fp
    /\ is_empty ip = false
    /\ all_chars is_digit ip = true
    /\ all_chars is_digit fp = true
    /\ String.length fp = nd.

Definition is_finite (x : pynum) : bool :=
  match as_spec x with
  | S754_zero _ | S754_finite _ _ _ => true
  | _ => false
  end.

(** [enumerate(l, start=i)] as a list. *)
Fixpoint enumerate_from {A} (i : Z) (l : list A) : list (Z * A) :=
  match l with
  | [] => []
  | x :: rest => (i, x) :: enumerate_from (i + 1) rest
  end.

(** The four lines of one structure block. *)
Definition block_lines (name number : string) (bounds : list string)
  : list (list string) :=
  [ ["structure"; name];
    ["number"; number];
    "inside" :: "box" :: "0" :: "0" :: "0" :: bounds;
    ["end"; "structure"] ].

(** The version as the node reads it: the probed text without its dots,
    as one integer. *)
Definition probed_version (env : Env) : result Z :=
  rbind (get_packmol_version (banner env))
        (fun v => py_int (remove_char "." v)).

(** The box the node works with once a density has been resolved. *)
Definition resolved_box (env : Env) (self : Packmol) : result box_value :=
  match density self with
  | Some d => get_box_from_density env (data self) (count self) d
  | None => Ok (box self)
  end.

(** The draws of one configuration, species after species, from the
    generator state [g]; a failing draw ends the sequence. *)
Fixpoint draw_species (np : NumPyRandom) (g : rng_state np)
    (pools_counts : list (Z * Z))
  : list draw * option (rng_state np) :=
  match pools_counts with
  | [] => ([], Some g)
  | (a, size) :: rest =>
      match np_choice np g a size true None with
      | (Ok out, g') =>
          let '(ds, g'') := draw_species np g' rest in
          (mkDraw a size true None out :: ds, g'')
      | (Raise _, _) => ([], None)
      end
  end.

Fixpoint draw_configurations (np : NumPyRandom) (g : rng_state np) (n : nat)
    (pools_counts : list (Z * Z)) : list draw :=
  match n with
  | O => []
  | S k =>
      match draw_species np g pools_counts with
      | (ds, Some g') => ds ++ draw_configurations np g' k pools_counts
      | (ds, None) => ds
      end
  end.

(** The pool size of every species: [len(self.data[jdx])]. *)
Definition pool_sizes (self : Packmol) : list Z :=
  map (fun pool => Z.of_nat (List.length pool)) (data self).

(** What a draw was asked for: the pool size and the number of
    indices. *)
Definition draw_request (d : draw) : Z * Z := (draw_a d, draw_size d).

(** The lines of the blocks placed for the draws of one configuration;
    [jds] pairs each draw with the index of its species. *)
Definition placement_lines (bounds : list string) (jds : list (Z * draw))
  : list (list string) :=
  flat_map (fun jd =>
    flat_map (fun kdx =>
      block_lines (str_Z (fst jd) ++ "_" ++ str_Z kdx ++ ".xyz")%string
                  "1" bounds)
      (draw_out (snd jd)))
    jds.

(** The script of configuration [idx], given the draws [ds] made for it:
    every species was drawn from its pool with its count, and the script
    is the head, the [output] line and one block per drawn index. *)
Definition config_script (self : Packmol) (br : string * box_value)
    (idx : Z) (ds : list draw) (file : string) : Prop :=
  map draw_request ds = combine (pool_sizes self) (count self)
  /\ List.length ds = List.length (count self)
  /\ exists bounds,
       (Forall (fun d => draw_out d = []) ds
        \/ box_fields (snd br) = Ok bounds)
       /\ directives file
          = (directives (multi_file_head self ++ fst br)
             ++ [ ["output"; ("mixture_" ++ str_Z idx ++ ".xyz")%string] ]
             ++ placement_lines bounds (enumerate_from 0 ds))%list.

Definition script_path (self : Packmol) (idx : Z) : string :=
  structures self ++ "/packmole_" ++ str_Z idx ++ ".inp".

(** What a state keeps when a step writes no script, draws nothing and
    leaves the results alone. *)
Definition silent {R} (s s' : State R) : Prop :=
  self_atoms s' = self_atoms s
  /\ rng s' = rng s
  /\ scripts_written (trace s') = scripts_written (trace s)
  /\ draws_made (trace s') = draws_made (trace s).

Definition calm {R} (s s' : State R) : Prop :=
  self_box s' = self_box s /\ silent s s'.

Definition Calm {R A} (m : M R A) : Prop :=
  forall s r s', m s = (r, s') -> calm s s'.

(** The three ways lines 134-151 can end: the text added to the head and
    the box used for the structure blocks. *)
Definition branch_outcome (self : Packmol) (b : box_value) (v : Z)
    (br : string * box_value) : Prop :=
  (pbc self = true /\ 20150 <= v /\ snd br = b
   /\ exists bounds,
        box_fields b = Ok bounds
        /\ fst br = nl ++ spaces 12 ++ "pbc " ++ py_join " " bounds
                       ++ nl ++ spaces 12)
  \/ (pbc self = true /\ v < 20150
      /\ shrink_box b (tolerance self) = Ok (snd br)
      /\ fst br = EmptyString)
  \/ (pbc self = false /\ snd br = b /\ fst br = EmptyString).

(** The structure a run returns for what the solver wrote. *)
Definition stamped (self : Packmol) (b : box_value) (a : Atoms) : Atoms :=
  if pbc self then set_pbc true (set_cell b a) else a.

Definition quiet_event (ev : event) : bool :=
  match ev with
  | EvWriteText _ _ | EvChoice _ => false
  | _ => true
  end.

(** The bound of a block is the requested box, every axis shrunk by
    twice the tolerance and rendered with [.4f]. *)
Definition inside_shrunk (tol : pynum) (requested : box_value) (blk : block)
  : Prop :=
  exists l scaled bounds,
    requested = BoxList l
    /\ Forall2 (fun x y => shrink_axis tol x = Ok y) l scaled
    /\ Forall2 (fun y b => fmt4 y = Ok b) scaled bounds
    /\ blk_inside blk = "0" :: "0" :: "0" :: bounds.

(** The bound of a block is the requested box itself, rendered with
    [.4f]. *)
Definition inside_unscaled (requested : box_value) (blk : block) : Prop :=
  exists l bounds,
    requested = BoxList l
    /\ Forall2 (fun x b => fmt4 x = Ok b) l bounds
    /\ blk_inside blk = "0" :: "0" :: "0" :: bounds.

(** A line [pbc X Y Z] carrying the requested box rendered with [.4f]. *)
Definition pbc_line_unscaled (requested : box_value) (line : list string)
  : Prop :=
  exists l bounds,
    requested = BoxList l
    /\ Forall2 (fun x b => fmt4 x = Ok b) l bounds
    /\ line = "pbc" :: bounds.

(** A keyword that opens no line of a structure block. *)
Definition foreign_keyword (kw : string) : bool :=
  negb (String.eqb "structure" kw || String.eqb "number" kw
        || String.eqb "inside" kw || String.eqb "end" kw).

(** A recorded draw is a draw with replacement and without weights of
    [size] indices, each one of [0 .. a-1]. *)
Definition draw_ok (d : draw) : Prop :=
  draw_replace d = true
  /\ draw_p d = None
  /\ 0 <= draw_size d
  /\ List.length (draw_out d) = Z.to_nat (draw_size d)
  /\ Forall (fun k => 0 <= k < draw_a d) (draw_out d).

(** A non-empty run of digits. *)
Definition digits (s : string) : Prop :=
  is_empty s = false /\ all_chars is_digit s = true.

(** [s] holds a token [Version X.Y.Z]: what the pattern
    [Version (\d+\.\d+\.\d+)] matches somewhere in [s]. *)
Definition version_token (s : string) : Prop :=
  exists pre X Y Z post,
    s = pre ++ "Version " ++ X ++ "." ++ Y ++ "." ++ Z ++ post
    /\ digits X /\ digits Y /\ digits Z.

(** [v] is three runs of digits joined by dots. *)
Definition dotted_version (v : string) : Prop :=
  exists X Y Z, v = X ++ "." ++ Y ++ "." ++ Z
                /\ digits X /\ digits Y /\ digits Z.

(** The fields are [.4f] renderings of numbers, each with exactly four
    decimals when the number is finite. *)
Definition four_decimal_fields (fields : list string) : Prop :=
  exists ys,
    Forall2 (fun y b => fmt4 y = Ok b
                        /\ (is_finite y = true -> fixed_decimals 4 b))
            ys fields.

(** The blocks expected for the draws of one configuration. *)
Definition placed_blocks (bounds : list string) (jds : list (Z * draw))
  : list block :=
  flat_map (fun jd =>
    map (fun kdx =>
      mkBlock (str_Z (fst jd) ++ "_" ++ str_Z kdx ++ ".xyz")%string "1"
              ("0" :: "0" :: "0" :: bounds))
      (draw_out (snd jd)))
    jds.

(* ================================================================== *)
(** ** Concrete inputs *)
(* ================================================================== *)

Definition water : Atoms :=
  mkAtoms ["O"; "H"; "H"]
          [(0, 0, 0)%float; (1, 0, 0)%float; (0, 1, 0)%float]
          BoxNone (false, false, false).

(** A solver of version 18.0.0 that packs whatever it is given. *)
Definition env_v18 : Env :=
  mkEnv (PopenRuns ["PACKMOL - Packing optimization" ++ nl;
                    "Version 18.0.0" ++ nl] None)
        (fun _ _ _ => Ok (BoxList [PyFloat 12; PyFloat 12; PyFloat 12]))
        (fun _ => 0)
        (fun _ _ => Ok water).

(** The same with a solver of version 20.15.1. *)
Definition env_v20 : Env :=
  mkEnv (PopenRuns ["PACKMOL - Packing optimization" ++ nl;
                    "Version 20.15.1" ++ nl] None)
        (fun _ _ _ => Ok (BoxList [PyFloat 12; PyFloat 12; PyFloat 12]))
        (fun _ => 0)
        (fun _ _ => Ok water).

(** [Packmol(data=[[water], [water, water]], count=[10, 3],
    tolerance=2.0, box=[10, 10, 10], pbc=True)] *)
Definition cube10 : Packmol :=
  mkPackmol [[water]; [water; water]] None [10; 3] (PyFloat 2)
            (BoxList [PyInt 10; PyInt 10; PyInt 10]) None "nodes/packmol" true.

(** A stand-in for NumPy's generator: the state is a counter and the
    [k]-th index of a draw is the counter plus [k], reduced to the pool. *)
Definition counter_choice (g a size : Z) (replace : bool)
    (p : option (list pynum)) : result (list Z) * Z :=
  if ((size <? 0) || ((a <=? 0) && negb (size =? 0)))%bool then
    (Raise (Exc ValueError
              "a must be greater than 0 unless no samples are taken"), g)
  else
    (Ok (map (fun k => (g + Z.of_nat k) mod a) (seq 0 (Z.to_nat size))),
     g + size).

Definition counter_rng : NumPyRandom.
Proof.
  refine (mkNumPyRandom Z
            (fun s => if ((0 <=? s) && (s <? 2 ^ 32))%bool then Ok s
                      else Raise (Exc ValueError
                                    "Seed must be between 0 and 2**32 - 1"))
            counter_choice _).
  intros g a size out g'. unfold counter_choice.
  destruct (size <? 0) eqn:Es; [discriminate|].
  destruct ((a <=? 0) && negb (size =? 0))%bool eqn:Ea; [discriminate|].
  simpl. intros H. injection H as <- _.
  apply Z.ltb_ge in Es. split; [exact Es|]. split.
  - now rewrite length_map, length_seq.
  - apply Forall_forall. intros x Hx.
    apply in_map_iff in Hx as (k & <- & Hk).
    apply in_seq in Hk.
    apply andb_false_iff in Ea as [Ea | Ea].
    + apply Z.leb_gt in Ea. apply Z.mod_pos_bound. exact Ea.
    + apply negb_false_iff, Z.eqb_eq in Ea. subst size. simpl in Hk. lia.
Defined.

(** [MultiPackmol(..., n_configurations=2, seed=42)] on the same data. *)
Definition cube10_multi : MultiPackmol := mkMultiPackmol cube10 2 42.

(** The runs of these nodes. *)
Definition cube10_v18 : result unit * State unit :=
  run env_v18 cube10 (init_state cube10 tt).

Definition cube10_v20 : result unit * State unit :=
  run env_v20 cube10 (init_state cube10 tt).

Definition cube10_multi_v18 : result unit * State Z :=
  multi_run counter_rng env_v18 cube10_multi (init_state cube10 0).

Definition cube10_multi_v20 : result unit * State Z :=
  multi_run counter_rng env_v20 cube10_multi (init_state cube10 0).

(** Another request with the same pool sizes, counts, seed and number
    of configurations, and everything else different. *)
Definition methane : Atoms :=
  mkAtoms ["C"; "H"; "H"; "H"; "H"]
          [(0, 0, 0)%float; (1, 1, 1)%float; (-1, -1, 1)%float;
           (1, -1, -1)%float; (-1, 1, -1)%float]
          BoxNone (false, false, false).

Definition other_multi : MultiPackmol :=
  mkMultiPackmol
    (mkPackmol [[methane]; [methane; water]] None [10; 3] (PyFloat 3)
               (BoxList [PyFloat 12; PyFloat 12; PyFloat 12]) None
               "other/packmol" false)
    2 42.

Definition other_multi_v20 : result unit * State Z :=
  multi_run counter_rng env_v20 other_multi (init_state (base other_multi) 7).

(** Requests with lists of different lengths. *)
Definition short_count : Packmol :=
  mkPackmol [[water]; [water; water]] None [10] (PyFloat 2)
            (BoxList [PyInt 10; PyInt 10; PyInt 10]) None "nodes/packmol" true.

Definition short_ids : Packmol :=
  mkPackmol [[water]; [water; water]] (Some [0]) [10; 3] (PyFloat 2)
            (BoxList [PyInt 10; PyInt 10; PyInt 10]) None "nodes/packmol" true.

(** A request that gives a box and a density. *)
Definition box_and_density : Packmol :=
  mkPackmol [[water]; [water; water]] None [10; 3] (PyFloat 2)
            (BoxList [PyInt 10; PyInt 10; PyInt 10]) (Some (PyInt 997))
            "nodes/packmol" true.

(** A request that gives neither. *)
Definition no_box_no_density : Packmol :=
  mkPackmol [[water]; [water; water]] None [10; 3] (PyFloat 2)
            BoxNone None "nodes/packmol" true.

(** A banner that carries the version, and one that does not. *)
Definition banner_v18_3 : popen_outcome :=
  PopenRuns ["Packmol Version 18.3.0" ++ nl] None.

Definition banner_without_version : popen_outcome :=
  PopenRuns ["PACKMOL - Packing optimization" ++ nl] None.

(** The text of the [n]-th script a run wrote. *)
Definition script_no {R} (n : nat) (run_result : result unit * State R)
  : string :=
  snd (nth n (scripts_written (trace (snd run_result)))
           (EmptyString, EmptyString)).

(* ================================================================== *)
(** ** Further observers of a run *)
(* ================================================================== *)

Definition is_write_text (ev : event) : bool :=
  match ev with EvWriteText _ _ => true | _ => false end.

Definition is_write_xyz (ev : event) : bool :=
  match ev with EvWriteXYZ _ _ => true | _ => false end.

Definition is_check_call (ev : event) : bool :=
  match ev with EvCheckCall _ _ => true | _ => false end.

Definition is_read (ev : event) : bool :=
  match ev with EvRead _ => true | _ => false end.

Definition is_popen (ev : event) : bool :=
  match ev with EvPopen _ => true | _ => false end.

Definition is_choice (ev : event) : bool :=
  match ev with EvChoice _ => true | _ => false end.

(** The coordinate files written during a run, in order. *)
Fixpoint xyz_written (t : list event) : list (string * Atoms) :=
  match t with
  | [] => []
  | EvWriteXYZ p a :: rest => (p, a) :: xyz_written rest
  | _ :: rest => xyz_written rest
  end.

(** A step that records no event of the kind [p]. *)
Definition Quiet {R A} (p : event -> bool) (m : M R A) : Prop :=
  forall s r s', m s = (r, s') -> filter p (trace s') = filter p (trace s).

(** A step that always ends in an exception. *)
Definition Fails {R A} (m : M R A) : Prop :=
  forall s r s', m s = (r, s') -> exists e, r = Raise e.

(** The state [s] with the events [t] recorded after its own. *)
Definition logged {R} (s : State R) (t : list event) : State R :=
  mkState (self_box s) (self_atoms s) (trace s ++ t) (rng s).

(** The number a run of decimal digits stands for, read after [acc]. *)
Fixpoint dec_value (s : string) (acc : Z) : Z :=
  match s with
  | EmptyString => acc
  | String c rest => dec_value rest (10 * acc + digit_val c)
  end.

(** The message of [int(s)] on text that is no number. *)
Definition invalid_literal (s : string) : exc :=
  Exc ValueError ("invalid literal for int() with base 10: '" ++ s ++ "'").

(** What the probe returns when its [try] block raised [e]. *)
Definition probe_error_text (e : exc) : string :=
  "An error occurred: " ++ str_exc e.

(** The two events of lines 129-130: the launch and the log line. *)
Definition probe_log (text : string) : list event :=
  [EvPopen ["packmol"]; EvLog "info" ("Packmol version: " ++ text)].

(** No solver on the path: launching it raises. *)
Definition env_no_solver : Env :=
  mkEnv (PopenRaises
           (Exc OSError "[Errno 2] No such file or directory: 'packmol'"))
        (fun _ _ _ => Ok (BoxList [PyFloat 12; PyFloat 12; PyFloat 12]))
        (fun _ => 0)
        (fun _ _ => Ok water).

(** A solver of version 21.0.0. *)
Definition env_v21 : Env :=
  mkEnv (PopenRuns ["PACKMOL - Packing optimization" ++ nl;
                    "Version 21.0.0" ++ nl] None)
        (fun _ _ _ => Ok (BoxList [PyFloat 12; PyFloat 12; PyFloat 12]))
        (fun _ => 0)
        (fun _ _ => Ok water).

(** Output in which a line mentions the version without giving a
    number, before the line that gives it. *)
Definition lines_before : list string := ["PACKMOL" ++ nl].

Definition line_unknown : string := "Version unknown" ++ nl.

Definition lines_after : list string := ["Version 20.15.1" ++ nl].

(** [l[i]] is [x]: for [i >= 0] the entry at position [i] from the
    front, otherwise the entry at position [-i - 1] from the back. *)
Definition at_index {A} (l : list A) (i : Z) (x : A) : Prop :=
  (0 <= i /\ nth_error l (Z.to_nat i) = Some x)
  \/ (i < 0 /\ nth_error (rev l) (Z.to_nat (- i - 1)) = Some x).

(** Line 117: the structure of species [idx] that is written. *)
Definition selected (self : Packmol) (idx : Z) (pool : list Atoms)
  : result Atoms :=
  match data_ids self with
  | None => py_index pool (-1)
  | Some ids => rbind (py_index ids idx) (py_index pool)
  end.

(** The structure [a] is the one of [pool] that the node uses for
    species [idx]: the last one, or the one at [data_ids[idx]]. *)
Definition chosen (self : Packmol) (idx : Z) (pool : list Atoms) (a : Atoms)
  : Prop :=
  match data_ids self with
  | None => at_index pool (-1) a
  | Some ids => exists i, at_index ids idx i /\ at_index pool i a
  end.

Definition species_path (self : Packmol) (idx : Z) : string :=
  structures self ++ "/" ++ str_Z idx ++ ".xyz".

Definition conformer_path (self : Packmol) (idx jdx : Z) : string :=
  structures self ++ "/" ++ str_Z idx ++ "_" ++ str_Z jdx ++ ".xyz".

Definition xyz_events (files : list (string * Atoms)) : list event :=
  map (fun pa => EvWriteXYZ (fst pa) (snd pa)) files.

(** The log line of [_get_box_from_molar_volume], when a density is
    given. *)
Definition est_log (self : Packmol) (b : box_value) : list event :=
  match density self with
  | Some _ => [EvLog "info" ("estimated box size: " ++ box_repr b)]
  | None => []
  end.

(** The warning of lines 145-149, when it is given. *)
Definition old_warning (self : Packmol) (v : Z) : list event :=
  if (pbc self && (v <? 20150))%bool
  then [EvLog "warning" too_old_warning] else [].

(** The message of [subprocess.check_call] on a non-zero status. *)
Definition called_process_error (cmd : string) (status : Z) : exc :=
  Exc CalledProcessError
      ("Command '" ++ cmd ++ "' returned non-zero exit status "
         ++ str_Z status ++ ".").

(** The coordinate files of the multi-configuration run: every
    structure of every species, [idx_jdx.xyz]. *)
Definition conformer_files (self : Packmol) : list (string * Atoms) :=
  flat_map (fun ip =>
              map (fun ja => (conformer_path self (fst ip) (fst ja), snd ja))
                  (enumerate_from 0 (snd ip)))
           (enumerate_from 0 (data self)).

(** The events before the directory is made in the multi-configuration
    run: the seed, log lines and the probe. *)
Definition prelude_event (ev : event) : bool :=
  match ev with
  | EvSeed _ | EvLog _ _ | EvPopen _ => true
  | _ => false
  end.

(** What one configuration of a completed run did: its draws, its
    script and the structure that was read. *)
Record config_record : Type := mkConfig {
  cfg_draws : list draw;
  cfg_script : string;
  cfg_read : Atoms
}.

Definition solver_command (idx : Z) : string :=
  "packmol < packmole_" ++ str_Z idx ++ ".inp".

Definition mixture_path (self : Packmol) (idx : Z) : string :=
  structures self ++ "/mixture_" ++ str_Z idx ++ ".xyz".

(** The events of configuration [idx], in order. *)
Definition config_events (self : Packmol) (idx : Z) (c : config_record)
  : list event :=
  (map EvChoice (cfg_draws c)
   ++ [EvWriteText (script_path self idx) (cfg_script c);
       EvCheckCall (solver_command idx) (structures self);
       EvRead (mixture_path self idx)])%list.

(** Every call of the solver recorded in [t] exited with status 0; the
    status of a call depends on what happened before it. *)
Definition every_call_succeeded (env : Env) (t : list event) : Prop :=
  forall t1 cmd cwd t2,
    t = (t1 ++ EvCheckCall cmd cwd :: t2)%list -> solver_exit env t1 = 0.

(** A solver of version 20.15.1 that gives up on whatever it is asked
    to pack. *)
Definition env_failing : Env :=
  mkEnv (PopenRuns ["PACKMOL - Packing optimization" ++ nl;
                    "Version 20.15.1" ++ nl] None)
        (fun _ _ _ => Ok (BoxList [PyFloat 12; PyFloat 12; PyFloat 12]))
        (fun _ => 173)
        (fun _ _ => Ok water).

(** The events of a multi-configuration run before its loop. *)
Definition setup_event (ev : event) : bool :=
  match ev with
  | EvSeed _ | EvLog _ _ | EvPopen _ | EvMkdir _ | EvWriteXYZ _ _ => true
  | _ => false
  end.

(** A request with a species that has no structure. *)
Definition no_conformer : Packmol :=
  mkPackmol [[water]; []] None [10; 3] (PyFloat 2)
            (BoxList [PyInt 10; PyInt 10; PyInt 10]) None "nodes/packmol" true.

(** A request whose [data_ids] points past the end of a species. *)
Definition bad_data_id : Packmol :=
  mkPackmol [[water]; [water; water]] (Some [0; 2]) [10; 3] (PyFloat 2)
            (BoxList [PyInt 10; PyInt 10; PyInt 10]) None "nodes/packmol" true.

(** The same request for the multi-configuration node. *)
Definition no_conformer_multi : MultiPackmol := mkMultiPackmol no_conformer 2 42.

(** What the reader returned at every read recorded in [t], in order;
    [before] is what had happened when [t] began. *)
Fixpoint reads_in (env : Env) (before t : list event) : list (result Atoms) :=
  match t with
  | [] => []
  | ev :: rest =>
      match ev with
      | EvRead path =>
          ase_io_read env (before ++ [ev]) path
            :: reads_in env (before ++ [ev]) rest
      | _ => reads_in env (before ++ [ev]) rest
      end
  end.

(** The request [cube10] without periodic boundaries. *)
Definition cube10_open : Packmol :=
  mkPackmol [[water]; [water; water]] None [10; 3] (PyFloat 2)
            (BoxList [PyInt 10; PyInt 10; PyInt 10]) None "nodes/packmol"
            false.

Definition cube10_open_v18 : result unit * State unit :=
  run env_v18 cube10_open (init_state cube10_open tt).

(** The events of a run from its script on. *)
Definition late_event (ev : event) : bool :=
  (is_write_text ev || is_check_call ev || is_read ev)%bool.

(** A request for no configuration at all. *)
Definition cube10_none : MultiPackmol := mkMultiPackmol cube10 0 42.

(** A request whose box has two entries only. *)
Definition flat_box : Packmol :=
  mkPackmol [[water]; [water; water]] None [10; 3] (PyFloat 2)
            (BoxList [PyInt 10; PyInt 10]) None "nodes/packmol" true.

Definition flat_box_v20 : result unit * State unit :=
  run env_v20 flat_box (init_state flat_box tt).

(** A request that gives the box as one number. *)
Definition scalar_box : Packmol :=
  mkPackmol [[water]; [water; water]] None [10; 3] (PyFloat 2)
            (BoxScalar (PyFloat 10)) None "nodes/packmol" true.

(** A solver of version 20.15.1 whose second result cannot be read. *)
Definition env_second_unreadable : Env :=
  mkEnv (PopenRuns ["PACKMOL - Packing optimization" ++ nl;
                    "Version 20.15.1" ++ nl] None)
        (fun _ _ _ => Ok (BoxList [PyFloat 12; PyFloat 12; PyFloat 12]))
        (fun _ => 0)
        (fun _ path =>
           if String.eqb path "nodes/packmol/mixture_1.xyz"
           then Raise (Exc OSError "[Errno 2] No such file or directory")
           else Ok water).

(** [MultiPackmol(..., n_configurations=3, seed=42)] on the data of
    [cube10]. *)
Definition cube10_three : MultiPackmol := mkMultiPackmol cube10 3 42.

Definition cube10_three_run : result unit * State Z :=
  multi_run counter_rng env_second_unreadable cube10_three
            (init_state (base cube10_three) 0).

(* ================================================================== *)
(** * Proofs *)
(* ================================================================== *)

(** ** Text *)

Lemma append_assoc (a b c : string) : (a ++ b) ++ c = a ++ (b ++ c).
Proof.
  induction a as [|x a IH]; simpl; [reflexivity | now rewrite IH].
Qed.

Lemma append_empty_r (a : string) : a ++ "" = a.
Proof.
  induction a as [|x a IH]; simpl; [reflexivity | now rewrite IH].
Qed.

Lemma nl_app (z : string) : nl ++ z = String nl_char z.
Proof. reflexivity. Qed.

Lemma all_chars_app p (a b : string) :
  all_chars p (a ++ b) = (all_chars p a && all_chars p b)%bool.
Proof.
  induction a as [|x a IH]; simpl; [reflexivity|].
  now rewrite IH, andb_assoc.
Qed.

Lemma all_chars_weaken (p q : ascii -> bool) (s : string) :
  (forall c, p c = true -> q c = true) ->
  all_chars p s = true -> all_chars q s = true.
Proof.
  intros Hpq. induction s as [|x s IH]; simpl; [reflexivity|].
  intros H. apply andb_true_iff in H as [Hx Hs].
  now rewrite (Hpq _ Hx), IH.
Qed.

Lemma all_chars_substring p (s : string) :
  all_chars p s = true -> forall n m, all_chars p (substring n m s) = true.
Proof.
  induction s as [|x s IH]; intros H n m.
  - destruct n, m; reflexivity.
  - simpl in H. apply andb_true_iff in H as [Hx Hs].
    destruct n as [|n]; destruct m as [|m]; simpl; auto.
    now rewrite Hx, IH.
Qed.

Lemma all_chars_spaces_nl n :
  all_chars (fun x => negb (Ascii.eqb x nl_char)) (spaces n) = true.
Proof. induction n; simpl; auto. Qed.

Lemma all_chars_zeros n : all_chars is_digit (zeros n) = true.
Proof. induction n; simpl; auto. Qed.

Lemma num_char_tok c : num_char c = true -> tok_char c = true.
Proof.
  destruct c as [[] [] [] [] [] [] [] []]; cbv; intros H;
    first [reflexivity | discriminate H].
Qed.

Lemma digit_num_char c : is_digit c = true -> num_char c = true.
Proof. intros H. unfold num_char. now rewrite H. Qed.

Lemma tok_char_no_space c :
  tok_char c = true -> negb (Ascii.eqb c " ") = true.
Proof. unfold tok_char. intros H. now apply andb_true_iff in H. Qed.

Lemma tok_char_no_nl c :
  tok_char c = true -> negb (Ascii.eqb c nl_char) = true.
Proof. unfold tok_char. intros H. now apply andb_true_iff in H. Qed.

(** *** Splitting *)

Lemma split_on_nonempty sep s : split_on sep s <> [].
Proof.
  destruct s as [|c s]; simpl; [discriminate|].
  destruct (Ascii.eqb c sep); [discriminate|].
  destruct (split_on sep s); discriminate.
Qed.

Lemma split_on_app sep (a b : string) :
  split_on sep (a ++ String sep b) = (split_on sep a ++ split_on sep b)%list.
Proof.
  induction a as [|x a IH]; simpl.
  - now rewrite Ascii.eqb_refl.
  - destruct (Ascii.eqb x sep); [now rewrite IH|].
    rewrite IH. destruct (split_on sep a) as [|h t] eqn:E.
    + now apply split_on_nonempty in E.
    + reflexivity.
Qed.

Lemma split_on_whole sep (s : string) :
  all_chars (fun x => negb (Ascii.eqb x sep)) s = true ->
  split_on sep s = [s].
Proof.
  induction s as [|x s IH]; simpl; [reflexivity|].
  intros H. apply andb_true_iff in H as [Hx Hs].
  apply negb_true_iff in Hx. rewrite Hx, (IH Hs). reflexivity.
Qed.

Lemma words_app_space (a b : string) :
  words (a ++ String " " b) = (words a ++ words b)%list.
Proof. unfold words. now rewrite split_on_app, filter_app. Qed.

Lemma words_spaces n (s : string) : words (spaces n ++ s) = words s.
Proof.
  induction n as [|n IH]; [reflexivity|].
  change (spaces (S n) ++ s) with ("" ++ String " " (spaces n ++ s)).
  now rewrite words_app_space, IH.
Qed.

Lemma words_token (w : string) : token w -> words w = [w].
Proof.
  intros [Hne Hc]. unfold words.
  rewrite split_on_whole.
  - simpl. now rewrite Hne.
  - revert Hc. apply all_chars_weaken, tok_char_no_space.
Qed.

Lemma words_join (l : list string) :
  Forall token l -> words (py_join " " l) = l.
Proof.
  induction l as [|x l IH]; intros H; [reflexivity|].
  inversion H as [|? ? Hx Hl]; subst.
  destruct l as [|y l].
  - simpl. now apply words_token.
  - change (py_join " " (x :: y :: l))
      with (x ++ String " " (py_join " " (y :: l))).
    now rewrite words_app_space, (words_token _ Hx), (IH Hl).
Qed.

Lemma directives_app_nl (a b : string) :
  directives (a ++ String nl_char b) = (directives a ++ directives b)%list.
Proof. unfold directives. now rewrite split_on_app, map_app, filter_app. Qed.

Lemma directives_line (l : string) :
  all_chars (fun x => negb (Ascii.eqb x nl_char)) l = true ->
  directives l = if is_nil (words l) then [] else [words l].
Proof.
  intros H. unfold directives. rewrite (split_on_whole _ _ H). simpl.
  now destruct (words l).
Qed.

Lemma directives_blank n : directives (spaces n) = [].
Proof.
  rewrite directives_line by apply all_chars_spaces_nl.
  rewrite <- (append_empty_r (spaces n)), words_spaces. reflexivity.
Qed.

(** ** Rendered numbers *)

Lemma digit_char_is_digit (d : N) : (d < 10)%N -> is_digit (digit_char d) = true.
Proof.
  intros H.
  assert (d = 0 \/ d = 1 \/ d = 2 \/ d = 3 \/ d = 4 \/ d = 5 \/ d = 6
          \/ d = 7 \/ d = 8 \/ d = 9)%N as Hd by lia.
  repeat (destruct Hd as [-> | Hd]; [reflexivity|]). now subst.
Qed.

Lemma dec_digits_digits fuel : forall n acc,
  all_chars is_digit acc = true ->
  all_chars is_digit (dec_digits fuel n acc) = true.
Proof.
  induction fuel as [|f IH]; intros n acc Hacc; simpl; [assumption|].
  assert (all_chars is_digit (String (digit_char (n mod 10)) acc) = true) as H.
  { simpl. rewrite Hacc, digit_char_is_digit; [reflexivity|].
    apply N.mod_lt. discriminate. }
  destruct (n / 10 =? 0)%N; [exact H | now apply IH].
Qed.

Lemma dec_digits_nonempty fuel : forall n acc,
  is_empty (dec_digits (S fuel) n acc) = false.
Proof.
  induction fuel as [|f IH]; intros n acc.
  - simpl. now destruct (n / 10 =? 0)%N.
  - change (dec_digits (S (S f)) n acc)
      with (let acc' := String (digit_char (n mod 10)) acc in
            if (n / 10 =? 0)%N then acc' else dec_digits (S f) (n / 10) acc').
    simpl. destruct (n / 10 =? 0)%N; [reflexivity | apply IH].
Qed.

Lemma dec_digits_length fuel : forall n acc (k : nat),
  (n < 10 ^ N.of_nat (S k))%N ->
  (String.length (dec_digits fuel n acc) <= String.length acc + S k)%nat.
Proof.
  induction fuel as [|f IH]; intros n acc k Hn; simpl; [lia|].
  destruct (n / 10 =? 0)%N eqn:E; [simpl; lia|].
  apply N.eqb_neq in E.
  destruct k as [|k].
  - exfalso. apply E. apply N.div_small. exact Hn.
  - specialize (IH (n / 10)%N (String (digit_char (n mod 10)) acc) k).
    simpl in IH. 
    assert (n / 10 < 10 ^ N.of_nat (S k))%N as Hq.
    { apply N.Div0.div_lt_upper_bound.
      replace (10 * 10 ^ N.of_nat (S k))%N with (10 ^ N.of_nat (S (S k)))%N;
        [exact Hn|].
      rewrite (Nat2N.inj_succ (S k)), N.pow_succ_r'. reflexivity. }
    specialize (IH Hq). lia.
Qed.

Lemma str_N_digits n : all_chars is_digit (str_N n) = true.
Proof. now apply dec_digits_digits. Qed.

Lemma str_N_nonempty n : is_empty (str_N n) = false.
Proof. apply dec_digits_nonempty. Qed.

Lemma str_N_length n (k : nat) :
  (n < 10 ^ N.of_nat (S k))%N -> (String.length (str_N n) <= S k)%nat.
Proof.
  intros H. unfold str_N.
  now apply (dec_digits_length _ n EmptyString k).
Qed.

Lemma is_empty_app (a b : string) :
  is_empty (a ++ b) = (is_empty a && is_empty b)%bool.
Proof. now destruct a. Qed.

Lemma str_Z_num z : all_chars num_char (str_Z z) = true.
Proof.
  unfold str_Z. destruct (z <? 0); simpl;
    apply (all_chars_weaken is_digit); auto using digit_num_char, str_N_digits.
Qed.

Lemma str_Z_nonempty z : is_empty (str_Z z) = false.
Proof. unfold str_Z. destruct (z <? 0); [reflexivity | apply str_N_nonempty]. Qed.

Lemma token_of_num (s : string) :
  is_empty s = false -> all_chars num_char s = true -> token s.
Proof.
  intros Hne Hc. split; [exact Hne|].
  revert Hc. apply all_chars_weaken, num_char_tok.
Qed.

Lemma str_Z_token z : token (str_Z z).
Proof. apply token_of_num; [apply str_Z_nonempty | apply str_Z_num]. Qed.

Lemma token_app (a b : string) :
  token a -> all_chars tok_char b = true -> token (a ++ b).
Proof.
  intros [Hne Ha] Hb. split.
  - rewrite is_empty_app, Hne. reflexivity.
  - now rewrite all_chars_app, Ha, Hb.
Qed.

Lemma length_app (a b : string) :
  String.length (a ++ b) = (String.length a + String.length b)%nat.
Proof. induction a as [|x a IH]; simpl; [reflexivity | now rewrite IH]. Qed.

Lemma length_zeros n : String.length (zeros n) = n.
Proof. induction n; simpl; auto. Qed.

Lemma zfill_digits w (s : string) :
  all_chars is_digit s = true -> all_chars is_digit (zfill w s) = true.
Proof.
  intros H. unfold zfill. now rewrite all_chars_app, all_chars_zeros, H.
Qed.

Lemma zfill_length w (s : string) :
  (String.length s <= w)%nat -> String.length (zfill w s) = w.
Proof.
  intros H. unfold zfill. rewrite length_app, length_zeros. lia.
Qed.

Lemma sign_str_num s : all_chars num_char (sign_str s) = true.
Proof. now destruct s. Qed.

Lemma digits_num (s : string) :
  all_chars is_digit s = true -> all_chars num_char s = true.
Proof. apply all_chars_weaken, digit_num_char. Qed.

Lemma format_f_spec_num nd x : all_chars num_char (format_f_spec nd x) = true.
Proof.
  destruct x as [s | s | | s m e]; simpl.
  - rewrite all_chars_app, sign_str_num. simpl.
    apply digits_num, all_chars_zeros.
  - rewrite all_chars_app, sign_str_num. reflexivity.
  - reflexivity.
  - rewrite !all_chars_app, sign_str_num. simpl.
    rewrite (digits_num _ (str_N_digits _)).
    rewrite (digits_num _ (zfill_digits _ _ (str_N_digits _))). reflexivity.
Qed.

Lemma format_f_spec_nonempty nd x : is_empty (format_f_spec nd x) = false.
Proof.
  destruct x as [s | s | | s m e]; simpl;
    rewrite ?is_empty_app; try (destruct s; reflexivity); try reflexivity.
  rewrite str_N_nonempty. now destruct s.
Qed.

Lemma format_f_spec_fixed (nd : nat) x :
  match x with S754_zero _ | S754_finite _ _ _ => True | _ => False end ->
  fixed_decimals (S nd) (format_f_spec (S nd) x).
Proof.
  destruct x as [s | s | | s m e]; intros Hx; try contradiction.
  - exists s, "0", (zeros (S nd)). repeat split.
    + apply all_chars_zeros.
    + apply length_zeros.
  - cbv zeta beta iota delta [format_f_spec].
    set (scale := 10 ^ Z.of_nat (S nd)).
    set (n := round_half_even (Z.pos m * scale) e).
    exists s, (str_N (Z.to_N (n / scale))),
      (zfill (S nd) (str_N (Z.to_N (n mod scale)))).
    repeat split.
    + apply str_N_nonempty.
    + apply str_N_digits.
    + apply zfill_digits, str_N_digits.
    + apply zfill_length, str_N_length.
      assert (0 < scale) as Hs by (unfold scale; apply Z.pow_pos_nonneg; lia).
      pose proof (Z.mod_pos_bound n scale Hs) as Hb.
      replace (10 ^ N.of_nat (S nd))%N with (Z.to_N scale).
      * apply Z2N.inj_lt; lia.
      * unfold scale. rewrite Z2N.inj_pow by lia.
        now rewrite <- nat_N_Z, N2Z.id.
Qed.

Lemma fmt4_spec x s : fmt4 x = Ok s -> s = format_f_spec 4 (as_spec x).
Proof.
  unfold fmt4. destruct x as [z | f].
  - generalize (as_spec (PyInt z)). intros sf H.
    destruct sf; try discriminate H; injection H as <-; reflexivity.
  - intros H. injection H as <-. reflexivity.
Qed.

Lemma fmt4_token x s : fmt4 x = Ok s -> token s.
Proof.
  intros H. rewrite (fmt4_spec _ _ H).
  apply token_of_num;
    [apply format_f_spec_nonempty | apply format_f_spec_num].
Qed.

Lemma fmt4_fixed x s :
  fmt4 x = Ok s -> is_finite x = true -> fixed_decimals 4 s.
Proof.
  unfold is_finite. intros H Hf. rewrite (fmt4_spec _ _ H).
  apply format_f_spec_fixed. destruct (as_spec x); auto; discriminate.
Qed.

Lemma repr_layout_num (ds : string) decpt :
  all_chars is_digit ds = true ->
  all_chars num_char (repr_layout ds decpt) = true.
Proof.
  intros Hds. pose proof (digits_num _ Hds) as Hn.
  unfold repr_layout.
  destruct ((decpt <=? -4) || (16 <? decpt))%bool.
  - rewrite !all_chars_app.
    rewrite (digits_num _ (zfill_digits 2 _ (str_N_digits _))).
    assert (all_chars num_char
              match ds with
              | EmptyString => EmptyString
              | String c EmptyString => String c EmptyString
              | String c rest => String c ("." ++ rest)
              end = true) as ->.
    { destruct ds as [|c [|c' r]]; [reflexivity | exact Hn |].
      simpl in Hn |- *. apply andb_true_iff in Hn as [-> ->]. reflexivity. }
    destruct (decpt - 1 <? 0); reflexivity.
  - destruct (decpt <=? 0).
    + simpl. rewrite all_chars_app, Hn, (digits_num _ (all_chars_zeros _)).
      reflexivity.
    + destruct (decpt <? Z.of_nat (String.length ds)).
      * rewrite !all_chars_app.
        rewrite !(digits_num _ (all_chars_substring _ _ Hds _ _)).
        reflexivity.
      * rewrite !all_chars_app, Hn, (digits_num _ (all_chars_zeros _)).
        reflexivity.
Qed.

Lemma repr_layout_nonempty (ds : string) decpt :
  is_empty (repr_layout ds decpt) = false.
Proof.
  unfold repr_layout.
  destruct ((decpt <=? -4) || (16 <? decpt))%bool.
  - rewrite is_empty_app. apply andb_false_intro2. reflexivity.
  - destruct (decpt <=? 0); [reflexivity|].
    destruct (decpt <? Z.of_nat (String.length ds));
      rewrite is_empty_app; apply andb_false_intro2.
    + reflexivity.
    + rewrite is_empty_app. apply andb_false_intro2. reflexivity.
Qed.

Lemma repr_spec_token x : token (repr_spec x).
Proof.
  apply token_of_num.
  - destruct x as [s | s | | s m e]; unfold repr_spec;
      try (destruct s; reflexivity); try reflexivity.
    match goal with
    | |- context [shortest ?a ?b ?c ?d ?n] =>
        destruct (shortest a b c d n) as [d0 n0]
    end.
    destruct (d0 =? 10 ^ n0); rewrite is_empty_app, repr_layout_nonempty;
      apply andb_false_r.
  - destruct x as [s | s | | s m e]; unfold repr_spec;
      try (destruct s; reflexivity); try reflexivity.
    match goal with
    | |- context [shortest ?a ?b ?c ?d ?n] =>
        destruct (shortest a b c d n) as [d0 n0]
    end.
    destruct (d0 =? 10 ^ n0); rewrite all_chars_app, sign_str_num;
      apply repr_layout_num; [reflexivity | apply str_N_digits].
Qed.

Lemma py_str_token x : token (py_str x).
Proof. destruct x; [apply str_Z_token | apply repr_spec_token]. Qed.

Lemma rmap_fmt4_tokens l : forall strs,
  rmap fmt4 l = Ok strs -> Forall token strs.
Proof.
  induction l as [|x l IH]; intros strs H; simpl in H.
  - injection H as <-. constructor.
  - destruct (fmt4 x) as [s|] eqn:Ex; simpl in H; [|discriminate].
    destruct (rmap fmt4 l) as [ss|] eqn:El; simpl in H; [|discriminate].
    injection H as <-. constructor; [eapply fmt4_token; eauto | now apply IH].
Qed.

Lemma rmap_length {A B} (f : A -> result B) l : forall out,
  rmap f l = Ok out -> List.length out = List.length l.
Proof.
  induction l as [|x l IH]; intros out H; simpl in H.
  - now injection H as <-.
  - destruct (f x); simpl in H; [|discriminate].
    destruct (rmap f l); simpl in H; [|discriminate].
    injection H as <-. simpl. now rewrite IH.
Qed.

Lemma rmap_Forall2 {A B} (f : A -> result B) l : forall out,
  rmap f l = Ok out -> Forall2 (fun x y => f x = Ok y) l out.
Proof.
  induction l as [|x l IH]; intros out H; simpl in H.
  - injection H as <-. constructor.
  - destruct (f x) eqn:E; simpl in H; [|discriminate].
    destruct (rmap f l); simpl in H; [|discriminate].
    injection H as <-. constructor; auto.
Qed.

(** ** The text of a script, line by line *)

Lemma token_no_nl (w : string) :
  token w -> all_chars (fun x => negb (Ascii.eqb x nl_char)) w = true.
Proof. intros [_ H]. revert H. apply all_chars_weaken, tok_char_no_nl. Qed.

Lemma join_no_nl (l : list string) :
  Forall token l ->
  all_chars (fun x => negb (Ascii.eqb x nl_char)) (py_join " " l) = true.
Proof.
  induction l as [|x l IH]; intros H; [reflexivity|].
  inversion H as [|? ? Hx Hl]; subst.
  destruct l as [|y l]; [now apply token_no_nl|].
  change (py_join " " (x :: y :: l)) with (x ++ " " ++ py_join " " (y :: l)).
  rewrite !all_chars_app, (token_no_nl _ Hx), (IH Hl). reflexivity.
Qed.

(** A line made of an indent, fixed words and blank-separated fields. *)
Lemma directives_fields (i : nat) (lit : string) (fields : list string) :
  all_chars (fun x => negb (Ascii.eqb x nl_char)) lit = true ->
  is_nil (words lit) = false ->
  Forall token fields ->
  directives (spaces i ++ lit ++ String " " (py_join " " fields))
  = [(words lit ++ fields)%list].
Proof.
  intros Hlit Hw Hf.
  rewrite directives_line.
  - rewrite words_spaces, words_app_space, (words_join _ Hf).
    destruct (words lit); [discriminate | reflexivity].
  - rewrite !all_chars_app, all_chars_spaces_nl, Hlit. simpl.
    apply join_no_nl, Hf.
Qed.

Lemma directives_literal (i : nat) (lit : string) :
  all_chars (fun x => negb (Ascii.eqb x nl_char)) lit = true ->
  is_nil (words lit) = false ->
  directives (spaces i ++ lit) = [words lit].
Proof.
  intros Hlit Hw. rewrite directives_line.
  - rewrite words_spaces. destruct (words lit); [discriminate | reflexivity].
  - now rewrite all_chars_app, all_chars_spaces_nl, Hlit.
Qed.

Lemma box_str_inv sb s :
  box_str sb = Ok s ->
  exists bounds, box_fields sb = Ok bounds /\ s = py_join " " bounds
                 /\ Forall token bounds.
Proof.
  unfold box_str. destruct (box_fields sb) as [bounds|] eqn:E; simpl;
    [|discriminate].
  intros H. injection H as <-. exists bounds. repeat split.
  unfold box_fields in E. destruct (iter_box sb); simpl in E; [|discriminate].
  eapply rmap_fmt4_tokens; eauto.
Qed.

Lemma structure_block_directives indent name number sb blk :
  structure_block indent name number sb = Ok blk ->
  token name -> token number ->
  exists bounds,
    box_fields sb = Ok bounds
    /\ forall file,
         directives (file ++ blk)
         = (directives file ++ block_lines name number bounds)%list.
Proof.
  unfold structure_block. intros H Hname Hnumber.
  destruct (box_str sb) as [s|] eqn:Es; simpl in H; [|discriminate].
  injection H as <-.
  destruct (box_str_inv _ _ Es) as (bounds & Hb & -> & Htok).
  exists bounds. split; [exact Hb|]. intros file.
  assert (forall (a b c d e : string),
            nl ++ a ++ nl ++ b ++ nl ++ c ++ nl ++ d ++ nl ++ e
            = String nl_char (a ++ String nl_char (b ++ String nl_char
                (c ++ String nl_char (d ++ String nl_char e))))) as Hshape
    by reflexivity.
  transitivity
    (directives
       (file ++ nl
          ++ (spaces indent ++ "structure" ++ String " " (py_join " " [name]))
          ++ nl
          ++ (spaces (indent + 4) ++ "number"
                ++ String " " (py_join " " [number]))
          ++ nl
          ++ (spaces (indent + 4) ++ "inside box 0 0 0"
                ++ String " " (py_join " " bounds))
          ++ nl ++ (spaces indent ++ "end structure")
          ++ nl ++ spaces indent)).
  { f_equal. f_equal. unfold nl. simpl. rewrite !append_assoc. simpl.
    reflexivity. }
  rewrite Hshape, !directives_app_nl.
  rewrite !directives_fields, directives_literal, directives_blank;
    auto; try reflexivity.
Qed.

Lemma file_header_directives self :
  directives (file_header self)
  = [ ["tolerance"; py_str (tolerance self)];
      ["filetype"; "xyz"];
      ["output"; "mixture.xyz"] ].
Proof.
  pose proof (py_str_token (tolerance self)) as Htol.
  transitivity
    (directives
       (String nl_char
          ((spaces 8 ++ "tolerance"
              ++ String " " (py_join " " [py_str (tolerance self)]))
           ++ String nl_char
                ((spaces 8 ++ "filetype xyz")
                 ++ String nl_char
                      ((spaces 8 ++ "output mixture.xyz")
                       ++ String nl_char (spaces 8)))))).
  { reflexivity. }
  change (String nl_char ?x) with ("" ++ String nl_char x) at 1.
  rewrite !directives_app_nl.
  rewrite directives_fields, !directives_literal, directives_blank;
    auto; reflexivity.
Qed.

Lemma multi_file_head_directives self :
  directives (multi_file_head self)
  = [ ["tolerance"; py_str (tolerance self)]; ["filetype"; "xyz"] ].
Proof.
  pose proof (py_str_token (tolerance self)) as Htol.
  transitivity
    (directives
       (String nl_char
          ((spaces 8 ++ "tolerance"
              ++ String " " (py_join " " [py_str (tolerance self)]))
           ++ String nl_char
                ((spaces 8 ++ "filetype xyz")
                 ++ String nl_char (spaces 8))))).
  { reflexivity. }
  change (String nl_char ?x) with ("" ++ String nl_char x) at 1.
  rewrite !directives_app_nl.
  rewrite directives_fields, !directives_literal, directives_blank;
    auto; reflexivity.
Qed.

(** The text of the [pbc] request, appended to any head. *)
Lemma pbc_text_directives (file : string) (bounds : list string) :
  Forall token bounds ->
  directives (file ++ nl ++ spaces 12 ++ "pbc " ++ py_join " " bounds
                ++ nl ++ spaces 12)
  = (directives file ++ [ "pbc" :: bounds ])%list.
Proof.
  intros Htok.
  transitivity
    (directives
       (file ++ String nl_char
          ((spaces 12 ++ "pbc" ++ String " " (py_join " " bounds))
           ++ String nl_char (spaces 12)))).
  { reflexivity. }
  rewrite !directives_app_nl, directives_fields, directives_blank;
    auto; reflexivity.
Qed.

(** The [output] line of one configuration. *)
Lemma output_text_directives (file : string) (idx : Z) :
  directives (file ++ nl ++ spaces 12 ++ "output mixture_" ++ str_Z idx
                ++ ".xyz" ++ nl ++ spaces 12)
  = (directives file
     ++ [ ["output"; ("mixture_" ++ str_Z idx ++ ".xyz")%string] ])%list.
Proof.
  assert (token ("mixture_" ++ str_Z idx ++ ".xyz")) as Htok.
  { apply (token_app "mixture_"); [split; reflexivity|].
    rewrite all_chars_app. destruct (str_Z_token idx) as [_ ->]. reflexivity. }
  transitivity
    (directives
       (file ++ String nl_char
          ((spaces 12 ++ "output"
              ++ String " " (py_join " " ["mixture_" ++ str_Z idx ++ ".xyz"]))
           ++ String nl_char (spaces 12)))).
  { do 2 f_equal. unfold nl. simpl. rewrite !append_assoc. reflexivity. }
  rewrite !directives_app_nl, directives_fields, directives_blank;
    auto; reflexivity.
Qed.

Lemma species_file_token idx : token (str_Z idx ++ ".xyz").
Proof. apply token_app; [apply str_Z_token | reflexivity]. Qed.

Lemma conformer_file_token jdx kdx :
  token (str_Z jdx ++ "_" ++ str_Z kdx ++ ".xyz").
Proof.
  apply token_app; [apply str_Z_token|].
  simpl. rewrite all_chars_app. destruct (str_Z_token kdx) as [_ ->].
  reflexivity.
Qed.

(** Lines 153-159, read back. *)
Lemma species_blocks_directives counts : forall idx sb file out,
  species_blocks idx counts sb file = Ok out ->
  exists bounds,
    (counts = [] \/ box_fields sb = Ok bounds)
    /\ directives out
       = (directives file
          ++ flat_map (fun ic => block_lines
                                   (str_Z (fst ic) ++ ".xyz")%string
                                   (str_Z (snd ic)) bounds)
                      (enumerate_from idx counts))%list.
Proof.
  induction counts as [|c counts IH]; intros idx sb file out H;
    cbn [species_blocks] in H.
  - injection H as <-. exists []. split; [now left|].
    simpl. now rewrite app_nil_r.
  - destruct (structure_block 12 (str_Z idx ++ ".xyz") (str_Z c) sb)
      as [blk|] eqn:Eb; cbn [rbind] in H; [|discriminate].
    destruct (structure_block_directives _ _ _ _ _ Eb
                (species_file_token idx) (str_Z_token c))
      as (bounds & Hb & Hd).
    destruct (IH _ _ _ _ H) as (bounds' & Hb' & Hd').
    exists bounds. split; [now right|].
    rewrite Hd', Hd. simpl. rewrite <- app_assoc. f_equal. f_equal.
    destruct Hb' as [-> | Hb']; [reflexivity|].
    rewrite Hb in Hb'. now injection Hb' as <-.
Qed.

(** Lines 266-272, read back. *)
Lemma placement_blocks_directives choices : forall jdx sb file out,
  placement_blocks jdx choices sb file = Ok out ->
  exists bounds,
    (choices = [] \/ box_fields sb = Ok bounds)
    /\ directives out
       = (directives file
          ++ flat_map (fun kdx => block_lines
                                    (str_Z jdx ++ "_" ++ str_Z kdx
                                       ++ ".xyz")%string
                                    "1" bounds)
                      choices)%list.
Proof.
  induction choices as [|k choices IH]; intros jdx sb file out H;
    cbn [placement_blocks] in H.
  - injection H as <-. exists []. split; [now left|].
    simpl. now rewrite app_nil_r.
  - destruct (structure_block 20 (str_Z jdx ++ "_" ++ str_Z k ++ ".xyz") "1" sb)
      as [blk|] eqn:Eb; cbn [rbind] in H; [|discriminate].
    destruct (structure_block_directives _ _ _ _ _ Eb
                (conformer_file_token jdx k) (conj eq_refl eq_refl))
      as (bounds & Hb & Hd).
    destruct (IH _ _ _ _ H) as (bounds' & Hb' & Hd').
    exists bounds. split; [now right|].
    rewrite Hd', Hd. simpl. rewrite <- app_assoc. f_equal. f_equal.
    destruct Hb' as [-> | Hb']; [reflexivity|].
    rewrite Hb in Hb'. now injection Hb' as <-.
Qed.

(** *** Blocks in a list of lines *)

Lemma structure_blocks_block name number bounds rest :
  structure_blocks (block_lines name number bounds ++ rest) None
  = mkBlock name number ("0" :: "0" :: "0" :: bounds)
      :: structure_blocks rest None.
Proof. reflexivity. Qed.

Lemma structure_blocks_flat {A} (fn fc : A -> string) bounds
    (l : list A) (rest : list (list string)) :
  structure_blocks
    (flat_map (fun x => block_lines (fn x) (fc x) bounds) l ++ rest) None
  = (map (fun x => mkBlock (fn x) (fc x) ("0" :: "0" :: "0" :: bounds)) l
     ++ structure_blocks rest None)%list.
Proof.
  induction l as [|x l IH]; [reflexivity|].
  cbn [flat_map map]. rewrite <- app_assoc, structure_blocks_block.
  cbn [app]. now rewrite IH.
Qed.

Lemma placement_lines_cons bounds (j : Z) (d : draw) (rest : list (Z * draw)) :
  placement_lines bounds ((j, d) :: rest)
  = (flat_map (fun kdx => block_lines
                            (str_Z j ++ "_" ++ str_Z kdx ++ ".xyz")%string
                            "1" bounds)
              (draw_out d)
     ++ placement_lines bounds rest)%list.
Proof. reflexivity. Qed.

Lemma placement_lines_empty bounds (ds : list draw) : forall j,
  Forall (fun d => draw_out d = []) ds ->
  placement_lines bounds (enumerate_from j ds) = [].
Proof.
  induction ds as [|d ds IH]; intros j H; [reflexivity|].
  inversion H as [|? ? Hd Hds]; subst.
  unfold placement_lines in *. simpl. rewrite Hd. simpl. now apply IH.
Qed.

Lemma structure_blocks_placement bounds (jds : list (Z * draw))
    (rest : list (list string)) :
  structure_blocks (placement_lines bounds jds ++ rest) None
  = (placed_blocks bounds jds ++ structure_blocks rest None)%list.
Proof.
  induction jds as [|[j d] jds IH]; [reflexivity|].
  rewrite placement_lines_cons, <- app_assoc.
  rewrite (structure_blocks_flat
             (fun kdx => str_Z j ++ "_" ++ str_Z kdx ++ ".xyz")
             (fun _ => "1") bounds (draw_out d)).
  rewrite IH. unfold placed_blocks. cbn [flat_map fst snd].
  now rewrite <- app_assoc.
Qed.

Lemma no_kw_in_block kw name number bounds :
  foreign_keyword kw = true ->
  filter (fun d => String.eqb (hd EmptyString d) kw)
         (block_lines name number bounds) = [].
Proof.
  unfold foreign_keyword. intros H.
  apply negb_true_iff in H.
  apply orb_false_iff in H as [H H4]. apply orb_false_iff in H as [H H3].
  apply orb_false_iff in H as [H1 H2].
  unfold block_lines. cbn [filter hd]. now rewrite H1, H2, H3, H4.
Qed.

Lemma no_kw_in_blocks {A} kw (fn fc : A -> string) bounds (l : list A) :
  foreign_keyword kw = true ->
  filter (fun d => String.eqb (hd EmptyString d) kw)
         (flat_map (fun x => block_lines (fn x) (fc x) bounds) l) = [].
Proof.
  intros H. induction l as [|x l IH]; [reflexivity|].
  cbn [flat_map]. now rewrite filter_app, IH, no_kw_in_block.
Qed.

Lemma no_kw_in_placements kw bounds (jds : list (Z * draw)) :
  foreign_keyword kw = true ->
  filter (fun d => String.eqb (hd EmptyString d) kw)
         (placement_lines bounds jds) = [].
Proof.
  intros H. induction jds as [|[j d] jds IH]; [reflexivity|].
  rewrite placement_lines_cons, filter_app, IH, app_nil_r.
  now apply (no_kw_in_blocks kw
               (fun kdx => str_Z j ++ "_" ++ str_Z kdx ++ ".xyz")
               (fun _ => "1")).
Qed.

Lemma lines_with_app kw (a b : string) :
  lines_with kw (a ++ String nl_char b)
  = (lines_with kw a ++ lines_with kw b)%list.
Proof. unfold lines_with. now rewrite directives_app_nl, filter_app. Qed.

(** ** Steps of a run *)

Lemma bind_inv {R A B} (m : M R A) (k : A -> M R B) s r s' :
  bind m k s = (r, s') ->
  (exists e, m s = (Raise e, s') /\ r = Raise e)
  \/ (exists a s1, m s = (Ok a, s1) /\ k a s1 = (r, s')).
Proof.
  unfold bind. destruct (m s) as [[a | e] s1]; intros H.
  - right. eauto.
  - left. injection H as <- <-. eauto.
Qed.

Lemma scripts_written_app (a b : list event) :
  scripts_written (a ++ b) = (scripts_written a ++ scripts_written b)%list.
Proof.
  induction a as [|ev a IH]; [reflexivity|].
  destruct ev; simpl; rewrite IH; reflexivity.
Qed.

Lemma draws_made_app (a b : list event) :
  draws_made (a ++ b) = (draws_made a ++ draws_made b)%list.
Proof.
  induction a as [|ev a IH]; [reflexivity|].
  destruct ev; simpl; rewrite IH; reflexivity.
Qed.

Lemma silent_refl {R} (s : State R) : silent s s.
Proof. repeat split. Qed.

Lemma silent_trans {R} (s1 s2 s3 : State R) :
  silent s1 s2 -> silent s2 s3 -> silent s1 s3.
Proof.
  intros (A1 & B1 & C1 & D1) (A2 & B2 & C2 & D2).
  repeat split; congruence.
Qed.

Lemma calm_refl {R} (s : State R) : calm s s.
Proof. split; [reflexivity | apply silent_refl]. Qed.

Lemma calm_trans {R} (s1 s2 s3 : State R) :
  calm s1 s2 -> calm s2 s3 -> calm s1 s3.
Proof.
  intros [A1 B1] [A2 B2]. split; [congruence | eapply silent_trans; eauto].
Qed.

Lemma calm_silent {R} (s s' : State R) : calm s s' -> silent s s'.
Proof. now intros [_ H]. Qed.

Lemma Calm_ret {R A} (a : A) : Calm (@ret R A a).
Proof. intros s r s' H. injection H as <- <-. apply calm_refl. Qed.

Lemma Calm_lift {R A} (x : result A) : Calm (@lift R A x).
Proof. intros s r s' H. injection H as <- <-. apply calm_refl. Qed.

Lemma Calm_raise {R A} (e : exc) : Calm (@raise R A e).
Proof. intros s r s' H. injection H as <- <-. apply calm_refl. Qed.

Lemma Calm_get_box {R} : Calm (@get_box R).
Proof. intros s r s' H. injection H as <- <-. apply calm_refl. Qed.

Lemma Calm_get_trace {R} : Calm (@get_trace R).
Proof. intros s r s' H. injection H as <- <-. apply calm_refl. Qed.

Lemma Calm_emit {R} (ev : event) :
  quiet_event ev = true -> Calm (@emit R ev).
Proof.
  intros Hq s r s' H. injection H as <- <-.
  repeat split; simpl.
  - rewrite scripts_written_app. destruct ev; try discriminate;
      simpl; apply app_nil_r.
  - rewrite draws_made_app. destruct ev; try discriminate;
      simpl; apply app_nil_r.
Qed.

Lemma Calm_bind {R A B} (m : M R A) (k : A -> M R B) :
  Calm m -> (forall a, Calm (k a)) -> Calm (bind m k).
Proof.
  intros Hm Hk s r s' H.
  apply bind_inv in H as [(e & H & _) | (a & s1 & H1 & H2)].
  - eapply Hm; eauto.
  - eapply calm_trans; [eapply Hm | eapply Hk]; eauto.
Qed.

Lemma Calm_for_enumerate {R A} (body : Z -> A -> M R unit) (l : list A) :
  (forall i x, Calm (body i x)) -> forall i, Calm (for_enumerate i l body).
Proof.
  intros Hb. induction l as [|x l IH]; intros i; simpl.
  - apply Calm_ret.
  - apply Calm_bind; auto.
Qed.

Create HintDb calm.
#[local] Hint Resolve Calm_ret Calm_lift Calm_raise Calm_get_box
  Calm_get_trace : calm.
#[local] Hint Extern 1 (Calm (emit _)) =>
  apply Calm_emit; reflexivity : calm.

(** Take a step apart along its binds, loops and branches; the leaves
    are closed from the hint database. *)
Ltac calm_steps :=
  repeat first
    [ apply Calm_bind; [|intros ?]
    | apply Calm_for_enumerate; intros ? ?
    | match goal with
      | |- Calm (if ?c then _ else _) => destruct c
      | |- Calm (match ?x with _ => _ end) => destruct x
      end ];
  auto with calm.

Lemma Calm_write_inputs {R} self : Calm (@write_inputs R self).
Proof. unfold write_inputs. calm_steps. Qed.

Lemma Calm_write_conformers {R} self : Calm (@write_conformers R self).
Proof. unfold write_conformers. calm_steps. Qed.

Lemma Calm_probe_version {R} env : Calm (@probe_version R env).
Proof. unfold probe_version. calm_steps. Qed.

Lemma Calm_pbc_branch {R} self v : Calm (@pbc_branch R self v).
Proof. unfold pbc_branch. calm_steps. Qed.

Lemma Calm_check_call {R} env cmd cwd : Calm (@check_call R env cmd cwd).
Proof. unfold check_call. calm_steps. Qed.

Lemma Calm_load_result {R} env self path : Calm (@load_result R env self path).
Proof. unfold load_result. calm_steps. Qed.

Lemma probe_version_ok {R} env (s s' : State R) v :
  probe_version env s = (Ok v, s') -> probed_version env = Ok v.
Proof.
  unfold probe_version, probed_version. intros H.
  apply bind_inv in H as [(e & _ & He) | (? & s1 & _ & H)]; [discriminate|].
  apply bind_inv in H as [(e & _ & He) | (ver & s2 & Hv & H)]; [discriminate|].
  injection Hv as Hv _. rewrite Hv. simpl.
  apply bind_inv in H as [(e & _ & He) | (? & s3 & _ & H)]; [discriminate|].
  now injection H as ->.
Qed.

Lemma pbc_branch_ok {R} self v (s s' : State R) br :
  pbc_branch self v s = (Ok br, s') -> branch_outcome self (self_box s) v br.
Proof.
  unfold pbc_branch, branch_outcome. intros H.
  apply bind_inv in H as [(e & _ & He) | (b & s1 & Hb & H)]; [discriminate|].
  injection Hb as <- <-.
  destruct (pbc self); simpl in H.
  - destruct (20150 <=? v) eqn:Ev.
    + left. apply Z.leb_le in Ev.
      apply bind_inv in H as [(e & _ & He) | (str & s2 & Hs & H)];
        [discriminate|].
      injection Hs as Hs _. injection H as <- _.
      destruct (box_str_inv _ _ Hs) as (bounds & Hf & -> & _).
      simpl. eauto 10.
    + right; left. apply Z.leb_gt in Ev.
      assert ((v <? 20150) = true) as Ev' by now apply Z.ltb_lt.
      rewrite Ev' in H.
      apply bind_inv in H as [(e & _ & He) | (sc & s2 & Hs & H)];
        [discriminate|].
      injection Hs as Hs _.
      apply bind_inv in H as [(e & _ & He) | (? & s3 & _ & H)];
        [discriminate|].
      injection H as <- _. simpl. auto.
  - right; right. injection H as <- _. auto.
Qed.

Lemma get_box_from_molar_volume_inv {R} env self (s s' : State R) r :
  _get_box_from_molar_volume env self s = (r, s') ->
  silent s s'
  /\ ((exists e, r = Raise e /\ self_box s' = self_box s)
      \/ (r = Ok tt
          /\ match density self with
             | Some d =>
                 get_box_from_density env (data self) (count self) d
                 = Ok (self_box s')
             | None => self_box s' = self_box s
             end)).
Proof.
  unfold _get_box_from_molar_volume. destruct (density self) as [d|].
  - intros H.
    apply bind_inv in H as [(e & Hm & ->) | (b & s1 & Hm & H)].
    + injection Hm as _ <-. split; [apply silent_refl | left; eauto].
    + injection Hm as Hm <-.
      apply bind_inv in H as [(e & Hm' & ->) | ([] & s2 & Hm' & H)];
        [discriminate|].
      injection Hm' as <-. injection H as <- <-.
      split; [|right; split; [reflexivity | exact Hm]].
      repeat split; simpl.
      * rewrite scripts_written_app. apply app_nil_r.
      * rewrite draws_made_app. apply app_nil_r.
  - intros H. injection H as <- <-.
    split; [apply silent_refl | right; auto].
Qed.

Lemma load_result_ok {R} env self path (s s' : State R) a :
  load_result env self path s = (Ok a, s') ->
  exists a0, a = stamped self (self_box s) a0.
Proof.
  unfold load_result, stamped. intros H.
  apply bind_inv in H as [(e & _ & He) | (? & s1 & Hm & H)]; [discriminate|].
  injection Hm as _ <-.
  apply bind_inv in H as [(e & _ & He) | (t & s2 & Hm & H)]; [discriminate|].
  injection Hm as _ <-.
  apply bind_inv in H as [(e & _ & He) | (a0 & s3 & Hm & H)]; [discriminate|].
  injection Hm as _ <-. exists a0.
  destruct (pbc self).
  - apply bind_inv in H as [(e & _ & He) | (b & s4 & Hm & H)]; [discriminate|].
    injection Hm as <- <-. now injection H as <- _.
  - now injection H as <- _.
Qed.

(** What a run of the single-configuration node leaves behind. *)
Lemma run_inv {R} env self (s s' : State R) r :
  run env self s = (r, s') ->
  rng s' = rng s
  /\ draws_made (trace s') = draws_made (trace s)
  /\ ((exists e, r = Raise e /\ self_atoms s' = self_atoms s
                 /\ scripts_written (trace s') = scripts_written (trace s))
      \/ exists v br file,
           match density self with
           | Some d =>
               get_box_from_density env (data self) (count self) d
               = Ok (self_box s')
           | None => self_box s' = self_box s
           end
           /\ probed_version env = Ok v
           /\ branch_outcome self (self_box s') v br
           /\ species_blocks 0 (count self) (snd br)
                             (file_header self ++ fst br) = Ok file
           /\ scripts_written (trace s')
              = (scripts_written (trace s)
                 ++ [((structures self ++ "/packmole.inp")%string, file)])%list
           /\ ((exists e, r = Raise e /\ self_atoms s' = self_atoms s)
               \/ (r = Ok tt
                   /\ exists a0,
                        self_atoms s' = [stamped self (self_box s') a0]))).
Proof.
  unfold run. intros H.
  (* mkdir *)
  apply bind_inv in H as [(e & Hm & ->) | (? & s1 & Hm & H)];
    [discriminate|].
  assert (calm s s1) as C1
    by (eapply (Calm_emit (EvMkdir (structures self))); eauto).
  clear Hm.
  (* coordinate files *)
  apply bind_inv in H as [(e & Hm & ->) | (? & s2 & Hm & H)].
  { pose proof (calm_trans _ _ _ C1 (Calm_write_inputs _ _ _ _ Hm))
      as (_ & A & B & C & D).
    repeat split; auto. left. eauto. }
  pose proof (calm_trans _ _ _ C1 (Calm_write_inputs _ _ _ _ Hm)) as C2.
  clear Hm C1.
  (* the box *)
  apply bind_inv in H as [(e & Hm & ->) | ([] & s3 & Hm & H)].
  { destruct (get_box_from_molar_volume_inv _ _ _ _ _ Hm) as [S3 _].
    pose proof (silent_trans _ _ _ (calm_silent _ _ C2) S3)
      as (A & B & C & D).
    repeat split; auto. left. eauto. }
  destruct (get_box_from_molar_volume_inv _ _ _ _ _ Hm)
    as [S3 [(e & He & _) | (_ & Hbox)]]; [discriminate|].
  assert (match density self with
          | Some d =>
              get_box_from_density env (data self) (count self) d
              = Ok (self_box s3)
          | None => self_box s3 = self_box s
          end) as Hbox3.
  { destruct (density self); [exact Hbox|].
    destruct C2 as [C2 _]. congruence. }
  pose proof (silent_trans _ _ _ (calm_silent _ _ C2) S3) as S.
  clear Hm C2 S3 Hbox.
  (* the version *)
  apply bind_inv in H as [(e & Hm & ->) | (v & s4 & Hm & H)].
  { pose proof (silent_trans _ _ _ S
                  (calm_silent _ _ (Calm_probe_version _ _ _ _ Hm)))
      as (A & B & C & D).
    repeat split; auto. left. eauto. }
  pose proof (Calm_probe_version _ _ _ _ Hm) as [B4 S4].
  pose proof (probe_version_ok _ _ _ _ Hm) as Hv.
  pose proof (silent_trans _ _ _ S S4) as S'. clear Hm S S4.
  (* the branch *)
  apply bind_inv in H as [(e & Hm & ->) | (br & s5 & Hm & H)].
  { pose proof (silent_trans _ _ _ S'
                  (calm_silent _ _ (Calm_pbc_branch _ _ _ _ _ Hm)))
      as (A & B & C & D).
    repeat split; auto. left. eauto. }
  pose proof (Calm_pbc_branch _ _ _ _ _ Hm) as [B5 S5].
  pose proof (pbc_branch_ok _ _ _ _ _ Hm) as Hbr.
  pose proof (silent_trans _ _ _ S' S5) as S. clear Hm S' S5.
  (* the blocks *)
  apply bind_inv in H as [(e & Hm & ->) | (file & s6 & Hm & H)].
  { injection Hm as _ <-. destruct S as (A & B & C & D).
    repeat split; auto. left. eauto. }
  injection Hm as Hfile <-.
  (* the script *)
  apply bind_inv in H as [(e & Hm & ->) | (? & s7' & Hm & H)];
    [discriminate|].
  injection Hm as Hs7eq; subst s7'.
  destruct S as (A & B & C & D).
  set (s7 := mkState (self_box s5) (self_atoms s5)
                     (trace s5 ++ [EvWriteText _ file]) (rng s5)) in *.
  assert (scripts_written (trace s7)
          = (scripts_written (trace s)
             ++ [((structures self ++ "/packmole.inp")%string, file)])%list)
    as Hs7.
  { unfold s7. simpl. rewrite scripts_written_app, C. reflexivity. }
  assert (draws_made (trace s7) = draws_made (trace s)) as Hd7.
  { unfold s7. simpl. rewrite draws_made_app, D. apply app_nil_r. }
  assert (self_box s7 = self_box s3) as Hb7 by (unfold s7; simpl; congruence).
  assert (self_atoms s7 = self_atoms s) as Ha7 by exact A.
  assert (rng s7 = rng s) as Hr7 by exact B.
  assert (branch_outcome self (self_box s7) v br) as Hbr7
    by (rewrite Hb7, <- B4; exact Hbr).
  clearbody s7. clear A B C D Hbr.
  (* the solver *)
  assert (forall st : State R,
            calm s7 st ->
            rng st = rng s
            /\ draws_made (trace st) = draws_made (trace s)
            /\ match density self with
               | Some d =>
                   get_box_from_density env (data self) (count self) d
                   = Ok (self_box st)
               | None => self_box st = self_box s
               end
            /\ branch_outcome self (self_box st) v br
            /\ scripts_written (trace st)
               = (scripts_written (trace s)
                  ++ [((structures self ++ "/packmole.inp")%string, file)])%list
            /\ self_atoms st = self_atoms s) as Hkeep.
  { intros st (A & B & C & D & E).
    rewrite A, B, C, D, E, Hb7.
    repeat split; try assumption; try congruence. }
  apply bind_inv in H as [(e & Hm & ->) | (? & s8 & Hm & H)].
  { destruct (Hkeep _ (Calm_check_call _ _ _ _ _ _ Hm))
      as (K1 & K2 & K3 & K4 & K5 & K6).
    split; [exact K1|]. split; [exact K2|].
    right. exists v, br, file. repeat split; try assumption.
    left. eauto. }
  pose proof (Calm_check_call _ _ _ _ _ _ Hm) as C8. clear Hm.
  (* the result *)
  apply bind_inv in H as [(e & Hm & ->) | (a & s9 & Hm & H)].
  { destruct (Hkeep _ (calm_trans _ _ _ C8
                         (Calm_load_result _ _ _ _ _ _ Hm)))
      as (K1 & K2 & K3 & K4 & K5 & K6).
    split; [exact K1|]. split; [exact K2|].
    right. exists v, br, file. repeat split; try assumption.
    left. eauto. }
  pose proof (Calm_load_result _ _ _ _ _ _ Hm) as C9.
  destruct (Hkeep _ (calm_trans _ _ _ C8 C9))
    as (K1 & K2 & K3 & K4 & K5 & K6).
  destruct (load_result_ok _ _ _ _ _ _ Hm) as (a0 & ->).
  injection H as <- <-. cbn [self_box rng trace self_atoms].
  split; [exact K1|]. split; [exact K2|].
  right. exists v, br, file. repeat split; try assumption.
  right. split; [reflexivity|]. exists a0.
  destruct C9 as [-> _]. reflexivity.
Qed.

(** ** Steps of a multi-configuration run *)

Lemma random_choice_inv np a size (s s' : State (rng_state np)) r :
  random_choice np a size s = (r, s') ->
  self_box s' = self_box s
  /\ self_atoms s' = self_atoms s
  /\ scripts_written (trace s') = scripts_written (trace s)
  /\ ((exists e, r = Raise e
                 /\ draws_made (trace s') = draws_made (trace s))
      \/ (exists out,
            r = Ok out
            /\ np_choice np (rng s) a size true None = (Ok out, rng s')
            /\ draws_made (trace s')
               = (draws_made (trace s)
                  ++ [mkDraw a size true None out])%list)).
Proof.
  unfold random_choice.
  destruct (np_choice np (rng s) a size true None) as [[out | e] g] eqn:E;
    intros H; injection H as <- <-; simpl; repeat split.
  - rewrite scripts_written_app. apply app_nil_r.
  - right. exists out. repeat split. now rewrite draws_made_app.
  - left. eauto.
Qed.

Lemma py_index_nonneg {A} (l : list A) (j : Z) x :
  0 <= j -> py_index l j = Ok x -> nth_error l (Z.to_nat j) = Some x.
Proof.
  intros Hj. unfold py_index.
  assert ((j <? 0) = false) as -> by now apply Z.ltb_ge.
  destruct ((0 <=? j) && (j <? Z.of_nat (List.length l)))%bool;
    [|discriminate].
  destruct (nth_error l (Z.to_nat j)); [|discriminate].
  now intros H; injection H as <-.
Qed.

Lemma skipn_nth_error {A} (l : list A) : forall n x,
  nth_error l n = Some x -> skipn n l = x :: skipn (S n) l.
Proof.
  induction l as [|y l IH]; intros [|n] x H; try discriminate.
  - now injection H as <-.
  - simpl in H. rewrite (skipn_cons n y l). now apply IH.
Qed.

Lemma combine_nil_r {A B} (l : list A) : combine l (@nil B) = [].
Proof. now destruct l. Qed.

Lemma species_loop_inv np self sb counts : forall jdx file s r s',
  0 <= jdx ->
  species_loop np self jdx counts sb file s = (r, s') ->
  self_box s' = self_box s
  /\ self_atoms s' = self_atoms s
  /\ scripts_written (trace s') = scripts_written (trace s)
  /\ exists ds,
       draws_made (trace s') = (draws_made (trace s) ++ ds)%list
       /\ forall out,
            r = Ok out ->
            let pcs := combine (skipn (Z.to_nat jdx) (pool_sizes self))
                               counts in
            draw_species np (rng s) pcs = (ds, Some (rng s'))
            /\ map draw_request ds = pcs
            /\ List.length ds = List.length counts
            /\ exists bounds,
                 (Forall (fun d => draw_out d = []) ds
                  \/ box_fields sb = Ok bounds)
                 /\ directives out
                    = (directives file
                       ++ placement_lines bounds (enumerate_from jdx ds))%list.
Proof.
  induction counts as [|c counts IH]; intros jdx file s r s' Hj H;
    cbn [species_loop] in H.
  - injection H as <- <-. repeat split. exists []. split.
    + now rewrite app_nil_r.
    + intros out Hout. injection Hout as <-.
      rewrite combine_nil_r. repeat split.
      exists []. split; [now left|]. simpl. now rewrite app_nil_r.
  - apply bind_inv in H as [(e & Hm & ->) | (pool & s1 & Hm & H)].
    { injection Hm as _ <-. repeat split. exists []. split.
      - now rewrite app_nil_r.
      - intros out Hout. discriminate. }
    injection Hm as Hpool <-.
    apply bind_inv in H as [(e & Hm & ->) | (choices & s2 & Hm & H)].
    { destruct (random_choice_inv _ _ _ _ _ _ Hm)
        as (A & B & C & [(e' & _ & D) | (out & Hout & _)]);
        [|discriminate].
      repeat split; auto. exists []. split.
      - now rewrite app_nil_r.
      - intros out Hout. discriminate. }
    destruct (random_choice_inv _ _ _ _ _ _ Hm)
      as (A & B & C & [(e' & He & _) | (out & Hout & Hch & D)]);
      [discriminate|].
    injection Hout as <-. clear Hm.
    apply bind_inv in H as [(e & Hm & ->) | (file' & s3 & Hm & H)].
    { injection Hm as _ <-. repeat split; auto.
      exists [mkDraw (Z.of_nat (List.length pool)) c true None choices].
      split; [exact D|]. intros out Hout. discriminate. }
    injection Hm as Hfile <-.
    assert (0 <= jdx + 1) as Hj' by lia.
    destruct (IH _ _ _ _ _ Hj' H) as (A' & B' & C' & ds & D' & Hok).
    repeat split; try congruence.
    exists (mkDraw (Z.of_nat (List.length pool)) c true None choices :: ds).
    split.
    { rewrite D', D, <- app_assoc. reflexivity. }
    intros out Hout.
    destruct (Hok _ Hout) as (E1 & E2 & E3 & bounds2 & Hb2 & Hd2).
    assert (skipn (Z.to_nat jdx) (pool_sizes self)
            = Z.of_nat (List.length pool)
                :: skipn (Z.to_nat (jdx + 1)) (pool_sizes self)) as Hskip.
    { replace (Z.to_nat (jdx + 1)) with (S (Z.to_nat jdx)) by lia.
      apply skipn_nth_error. unfold pool_sizes.
      apply (map_nth_error
               (fun pool : list Atoms => Z.of_nat (List.length pool))).
      now apply py_index_nonneg. }
    cbv zeta. rewrite Hskip. cbn [combine draw_species].
    rewrite Hch, E1. cbn [map]. rewrite E2.
    repeat split; [simpl; now rewrite E3|].
    destruct (placement_blocks_directives _ _ _ _ _ Hfile)
      as (bounds1 & Hb1 & Hd1).
    rewrite Hd2, Hd1.
    destruct Hb1 as [-> | Hb1].
    + (* this species drew nothing *)
      exists bounds2. split.
      * destruct Hb2 as [Hb2 | Hb2]; [left | now right].
        constructor; [reflexivity | exact Hb2].
      * simpl. now rewrite app_nil_r.
    + exists bounds1. split; [now right|].
      rewrite <- app_assoc. f_equal.
      cbn [enumerate_from]. rewrite placement_lines_cons. f_equal.
      destruct Hb2 as [Hb2 | Hb2].
      * rewrite !placement_lines_empty by exact Hb2. reflexivity.
      * rewrite Hb1 in Hb2. now injection Hb2 as <-.
Qed.

Lemma emit_script_inv {R} (p c : string) (s s' : State R) r :
  emit (EvWriteText p c) s = (r, s') ->
  r = Ok tt
  /\ self_box s' = self_box s
  /\ self_atoms s' = self_atoms s
  /\ rng s' = rng s
  /\ scripts_written (trace s') = (scripts_written (trace s) ++ [(p, c)])%list
  /\ draws_made (trace s') = draws_made (trace s).
Proof.
  intros H. injection H as <- <-. simpl. repeat split.
  - now rewrite scripts_written_app.
  - rewrite draws_made_app. apply app_nil_r.
Qed.

(** Lines 258-285 for one configuration. *)
Lemma configuration_inv np env self br idx
    (s s' : State (rng_state np)) r :
  configuration np env self (multi_file_head self ++ fst br) (snd br) idx s
  = (r, s') ->
  self_box s' = self_box s
  /\ exists ds,
       draws_made (trace s') = (draws_made (trace s) ++ ds)%list
       /\ ((exists e, r = Raise e
                      /\ scripts_written (trace s')
                         = scripts_written (trace s)
                      /\ self_atoms s' = self_atoms s)
           \/ exists file,
                draw_species np (rng s)
                             (combine (pool_sizes self) (count self))
                = (ds, Some (rng s'))
                /\ scripts_written (trace s')
                   = (scripts_written (trace s)
                      ++ [(script_path self idx, file)])%list
                /\ config_script self br idx ds file
                /\ ((exists e, r = Raise e /\ self_atoms s' = self_atoms s)
                    \/ (r = Ok tt
                        /\ exists a0,
                             self_atoms s'
                             = (self_atoms s
                                ++ [stamped self (self_box s) a0])%list))).
Proof.
  unfold configuration. intros H.
  apply bind_inv in H as [(e & Hm & ->) | (file & s1 & Hm & H)].
  { destruct (species_loop_inv _ _ _ _ _ _ _ _ _ (Z.le_refl 0) Hm)
      as (A & B & C & ds & D & _).
    split; [exact A|]. exists ds. split; [exact D|]. left. eauto. }
  destruct (species_loop_inv _ _ _ _ _ _ _ _ _ (Z.le_refl 0) Hm)
    as (A & B & C & ds & D & Hok).
  destruct (Hok _ eq_refl) as (E1 & E2 & E3 & bounds & Hb & Hd).
  cbv zeta in E1, E2. change (skipn (Z.to_nat 0) ?l) with l in E1, E2.
  clear Hm Hok.
  assert (config_script self br idx ds file) as Hcfg.
  { split; [exact E2|]. split; [exact E3|]. exists bounds.
    split; [exact Hb|]. rewrite Hd, output_text_directives.
    now rewrite <- app_assoc. }
  clear Hd Hb.
  apply bind_inv in H as [(e & Hm & ->) | ([] & s2 & Hm & H)].
  { apply emit_script_inv in Hm as [Hm _]. discriminate. }
  apply emit_script_inv in Hm as (_ & A2 & B2 & C2 & D2 & F2).
  assert (forall st : State (rng_state np),
            calm s2 st ->
            self_box st = self_box s
            /\ draws_made (trace st) = (draws_made (trace s) ++ ds)%list
            /\ draw_species np (rng s)
                            (combine (pool_sizes self) (count self))
               = (ds, Some (rng st))
            /\ scripts_written (trace st)
               = (scripts_written (trace s)
                  ++ [(script_path self idx, file)])%list
            /\ self_atoms st = self_atoms s) as Hkeep.
  { intros st (K1 & K2 & K3 & K4 & K5).
    rewrite K1, K2, K3, K4, K5, A2, B2, C2, D2, F2, A, B, C, D.
    repeat split. exact E1. }
  apply bind_inv in H as [(e & Hm & ->) | ([] & s3 & Hm & H)].
  { destruct (Hkeep _ (Calm_check_call _ _ _ _ _ _ Hm))
      as (K1 & K2 & K3 & K4 & K5).
    split; [exact K1|]. exists ds. split; [exact K2|].
    right. exists file. split; [exact K3|]. split; [exact K4|].
    split; [exact Hcfg|]. left. eauto. }
  pose proof (Calm_check_call _ _ _ _ _ _ Hm) as C3. clear Hm.
  apply bind_inv in H as [(e & Hm & ->) | (a & s4 & Hm & H)].
  { destruct (Hkeep _ (calm_trans _ _ _ C3
                         (Calm_load_result _ _ _ _ _ _ Hm)))
      as (K1 & K2 & K3 & K4 & K5).
    split; [exact K1|]. exists ds. split; [exact K2|].
    right. exists file. split; [exact K3|]. split; [exact K4|].
    split; [exact Hcfg|]. left. eauto. }
  pose proof (Calm_load_result _ _ _ _ _ _ Hm) as C4.
  destruct (Hkeep _ (calm_trans _ _ _ C3 C4)) as (K1 & K2 & K3 & K4 & K5).
  destruct (load_result_ok _ _ _ _ _ _ Hm) as (a0 & ->).
  injection H as <- <-. cbn [self_box rng trace self_atoms].
  split; [exact K1|]. exists ds. split; [exact K2|].
  right. exists file. split; [exact K3|]. split; [exact K4|].
  split; [exact Hcfg|].
  right. split; [reflexivity|]. exists a0.
  rewrite K5. destruct C3 as [-> _]. rewrite A2, A. reflexivity.
Qed.

(** Lines 257-285: the loop over the configurations.  [done] lists, for
    every script written, its index, the draws made for it and its
    text; [anew] lists what the reader returned for each result. *)
Lemma configurations_inv np env self br : forall idxs s r s',
  for_each idxs
    (configuration np env self (multi_file_head self ++ fst br) (snd br)) s
  = (r, s') ->
  let pcs := combine (pool_sizes self) (count self) in
  self_box s' = self_box s
  /\ exists (done : list (Z * list draw * string)) (anew : list Atoms)
            (tail : list draw),
       scripts_written (trace s')
       = (scripts_written (trace s)
          ++ map (fun d => (script_path self (fst (fst d)), snd d)) done)%list
       /\ Forall (fun d =>
                    config_script self br (fst (fst d)) (snd (fst d)) (snd d)
                    /\ exists g g',
                         draw_species np g pcs = (snd (fst d), Some g'))
                 done
       /\ self_atoms s'
          = (self_atoms s ++ map (stamped self (self_box s)) anew)%list
       /\ draws_made (trace s')
          = (draws_made (trace s)
             ++ List.concat (map (fun d => snd (fst d)) done) ++ tail)%list
       /\ (r = Ok tt ->
           map (fun d => fst (fst d)) done = idxs
           /\ List.length anew = List.length idxs
           /\ tail = []
           /\ draws_made (trace s')
              = (draws_made (trace s)
                 ++ draw_configurations np (rng s) (List.length idxs) pcs)%list).
Proof.
  induction idxs as [|idx idxs IH]; intros s r s' H pcs; cbn [for_each] in H.
  - injection H as <- <-. split; [reflexivity|]. exists [], [], [].
    simpl. rewrite !app_nil_r. repeat split. constructor.
  - apply bind_inv in H as [(e & Hm & ->) | ([] & s1 & Hm & H)].
    + destruct (configuration_inv _ _ _ _ _ _ _ _ Hm)
        as (A & ds & D & [(e' & _ & C & B) | (file & E & C & Hcfg & Hat)]).
      * split; [exact A|]. exists [], [], ds. simpl. rewrite !app_nil_r.
        repeat split; try assumption; try discriminate. constructor.
      * split; [exact A|]. exists [(idx, ds, file)], [], []. simpl.
        rewrite !app_nil_r.
        destruct Hat as [(e' & _ & B) | (He & _)]; [|discriminate].
        repeat split; try assumption; try discriminate.
        constructor; [|constructor]. split; [exact Hcfg|]. eauto.
    + destruct (configuration_inv _ _ _ _ _ _ _ _ Hm)
        as (A & ds & D & [(e' & He & _) | (file & E & C & Hcfg & Hat)]);
        [discriminate|].
      destruct Hat as [(e' & He & _) | (_ & a0 & B)]; [discriminate|].
      destruct (IH _ _ _ H)
        as (A' & done & anew & tail & C' & Hd & B' & D' & Hok).
      split; [congruence|].
      exists ((idx, ds, file) :: done), (a0 :: anew), tail.
      split; [|split; [|split; [|split]]].
      * rewrite C', C, <- app_assoc. reflexivity.
      * constructor; [|exact Hd]. split; [exact Hcfg|]. eauto.
      * rewrite B', B, A, <- app_assoc. reflexivity.
      * rewrite D', D. cbn [map List.concat fst snd].
        now rewrite <- !app_assoc.
      * intros Hr. destruct (Hok Hr) as (O1 & O2 & O3 & O4).
        split; [simpl; now rewrite O1|].
        split; [simpl; now rewrite O2|].
        split; [exact O3|].
        rewrite O4, D, <- app_assoc. f_equal.
        cbn [List.length draw_configurations]. fold pcs.
        unfold pcs at 2. rewrite E. reflexivity.
Qed.

Lemma seed_rng_inv np sd (s s' : State (rng_state np)) r :
  seed_rng np sd s = (r, s') ->
  self_box s' = self_box s
  /\ self_atoms s' = self_atoms s
  /\ scripts_written (trace s') = scripts_written (trace s)
  /\ draws_made (trace s') = draws_made (trace s)
  /\ ((exists e, r = Raise e)
      \/ (r = Ok tt /\ np_seed np sd = Ok (rng s'))).
Proof.
  unfold seed_rng. destruct (np_seed np sd) as [g | e];
    intros H; injection H as <- <-; simpl; repeat split.
  - rewrite scripts_written_app. apply app_nil_r.
  - rewrite draws_made_app. apply app_nil_r.
  - now right.
  - left. eauto.
Qed.

Lemma py_range_length n : List.length (py_range n) = Z.to_nat n.
Proof. unfold py_range. now rewrite length_map, length_seq. Qed.

(** What a run of the multi-configuration node leaves behind. *)
Lemma multi_run_inv np env m (s s' : State (rng_state np)) r :
  multi_run np env m s = (r, s') ->
  let self := base m in
  let pcs := combine (pool_sizes self) (count self) in
  (exists e, r = Raise e
             /\ scripts_written (trace s') = scripts_written (trace s)
             /\ draws_made (trace s') = draws_made (trace s)
             /\ (self_atoms s' = self_atoms s \/ self_atoms s' = []))
  \/ exists g0 v br (done : list (Z * list draw * string))
            (anew : list Atoms) (tail : list draw),
       np_seed np (seed m) = Ok g0
       /\ match density self with
          | Some d =>
              get_box_from_density env (data self) (count self) d
              = Ok (self_box s')
          | None => self_box s' = self_box s
          end
       /\ probed_version env = Ok v
       /\ branch_outcome self (self_box s') v br
       /\ scripts_written (trace s')
          = (scripts_written (trace s)
             ++ map (fun d => (script_path self (fst (fst d)), snd d)) done)%list
       /\ Forall (fun d =>
                    config_script self br (fst (fst d)) (snd (fst d)) (snd d)
                    /\ exists g g',
                         draw_species np g pcs = (snd (fst d), Some g'))
                 done
       /\ self_atoms s' = map (stamped self (self_box s')) anew
       /\ draws_made (trace s')
          = (draws_made (trace s)
             ++ List.concat (map (fun d => snd (fst d)) done) ++ tail)%list
       /\ (r = Ok tt ->
           map (fun d => fst (fst d)) done = py_range (n_configurations m)
           /\ List.length anew = Z.to_nat (n_configurations m)
           /\ tail = []
           /\ draws_made (trace s')
              = (draws_made (trace s)
                 ++ draw_configurations np g0
                      (Z.to_nat (n_configurations m)) pcs)%list).
Proof.
  intros H self pcs. unfold multi_run in H. fold self in H.
  (* the seed *)
  apply bind_inv in H as [(e & Hm & ->) | ([] & s1 & Hm & H)].
  { destruct (seed_rng_inv _ _ _ _ _ Hm) as (A & B & C & D & _).
    left. exists e. auto. }
  destruct (seed_rng_inv _ _ _ _ _ Hm)
    as (A1 & B1 & C1 & D1 & [(e & He) | (_ & Hseed)]); [discriminate|].
  clear Hm.
  (* self.atoms = [] *)
  apply bind_inv in H as [(e & Hm & ->) | ([] & s2 & Hm & H)];
    [discriminate|].
  injection Hm as Hs2.
  assert (self_box s2 = self_box s /\ self_atoms s2 = []
          /\ scripts_written (trace s2) = scripts_written (trace s)
          /\ draws_made (trace s2) = draws_made (trace s)
          /\ rng s2 = rng s1) as (A2 & B2 & C2 & D2 & G2).
  { subst s2. simpl. auto. }
  clear Hs2 A1 B1 C1 D1.
  (* the box *)
  apply bind_inv in H as [(e & Hm & ->) | ([] & s3 & Hm & H)].
  { destruct (get_box_from_molar_volume_inv _ _ _ _ _ Hm)
      as [(A & B & C & D) _].
    left. exists e. repeat split; try congruence. right. congruence. }
  destruct (get_box_from_molar_volume_inv _ _ _ _ _ Hm)
    as [(B3 & G3 & C3 & D3) [(e & He & _) | (_ & Hbox)]]; [discriminate|].
  assert (match density self with
          | Some d =>
              get_box_from_density env (data self) (count self) d
              = Ok (self_box s3)
          | None => self_box s3 = self_box s
          end) as Hbox3.
  { destruct (density self); [exact Hbox | congruence]. }
  clear Hm Hbox.
  assert (forall st : State (rng_state np),
            calm s3 st ->
            self_box st = self_box s3 /\ self_atoms st = []
            /\ scripts_written (trace st) = scripts_written (trace s)
            /\ draws_made (trace st) = draws_made (trace s)
            /\ rng st = rng s1) as Hkeep.
  { intros st (K1 & K2 & K3 & K4 & K5). repeat split; congruence. }
  (* the version *)
  apply bind_inv in H as [(e & Hm & ->) | (v & s4 & Hm & H)].
  { destruct (Hkeep _ (Calm_probe_version _ _ _ _ Hm))
      as (K1 & K2 & K3 & K4 & K5).
    left. exists e. auto. }
  pose proof (Calm_probe_version _ _ _ _ Hm) as C4.
  pose proof (probe_version_ok _ _ _ _ Hm) as Hv. clear Hm.
  (* the branch *)
  apply bind_inv in H as [(e & Hm & ->) | (br & s5 & Hm & H)].
  { destruct (Hkeep _ (calm_trans _ _ _ C4 (Calm_pbc_branch _ _ _ _ _ Hm)))
      as (K1 & K2 & K3 & K4 & K5).
    left. exists e. auto. }
  pose proof (calm_trans _ _ _ C4 (Calm_pbc_branch _ _ _ _ _ Hm)) as C5.
  pose proof (pbc_branch_ok _ _ _ _ _ Hm) as Hbr.
  destruct C4 as [B4 _]. rewrite B4 in Hbr. clear Hm B4.
  (* mkdir *)
  apply bind_inv in H as [(e & Hm & ->) | ([] & s6 & Hm & H)];
    [discriminate|].
  pose proof (calm_trans _ _ _ C5
                (Calm_emit (EvMkdir (structures self)) eq_refl _ _ _ Hm))
    as C6.
  clear Hm C5.
  (* the conformers *)
  apply bind_inv in H as [(e & Hm & ->) | ([] & s7 & Hm & H)].
  { destruct (Hkeep _ (calm_trans _ _ _ C6 (Calm_write_conformers _ _ _ _ Hm)))
      as (K1 & K2 & K3 & K4 & K5).
    left. exists e. auto. }
  destruct (Hkeep _ (calm_trans _ _ _ C6 (Calm_write_conformers _ _ _ _ Hm)))
    as (K1 & K2 & K3 & K4 & K5).
  clear Hm C6 Hkeep.
  (* the configurations *)
  destruct (configurations_inv _ _ _ _ _ _ _ _ H)
    as (A & done & anew & tail & C & Hd & B & D & Hok).
  right. exists (rng s1), v, br, done, anew, tail.
  split; [exact Hseed|].
  split; [now rewrite A, K1|].
  split; [exact Hv|].
  split; [now rewrite A, K1|].
  split; [now rewrite C, K3|].
  split; [exact Hd|].
  split; [now rewrite B, K2, A|].
  split; [now rewrite D, K4|].
  intros Hr. destruct (Hok Hr) as (O1 & O2 & O3 & O4).
  rewrite py_range_length in O2, O4.
  split; [exact O1|]. split; [exact O2|]. split; [exact O3|].
  now rewrite O4, K4, K5.
Qed.

(** ** Scripts of a run, read back *)

Lemma iter_box_inv b l : iter_box b = Ok l -> b = BoxList l.
Proof.
  destruct b as [| [z | f] | l0]; simpl; intros H; try discriminate.
  now injection H as <-.
Qed.

Lemma box_fields_inv b bounds :
  box_fields b = Ok bounds ->
  exists l,
    b = BoxList l
    /\ Forall2 (fun x s => fmt4 x = Ok s) l bounds
    /\ Forall token bounds.
Proof.
  unfold box_fields. destruct (iter_box b) as [l|] eqn:E; simpl;
    [|discriminate].
  intros H. exists l. split; [now apply iter_box_inv|].
  split; [now apply rmap_Forall2 | eapply rmap_fmt4_tokens; eauto].
Qed.

Lemma shrink_box_inv b tol sb :
  shrink_box b tol = Ok sb ->
  exists l scaled,
    b = BoxList l /\ sb = BoxList scaled
    /\ Forall2 (fun x y => shrink_axis tol x = Ok y) l scaled.
Proof.
  unfold shrink_box. destruct (iter_box b) as [l|] eqn:E; simpl;
    [|discriminate].
  destruct (rmap (shrink_axis tol) l) as [scaled|] eqn:Es; simpl;
    [|discriminate].
  intros H. injection H as <-. exists l, scaled.
  split; [now apply iter_box_inv|]. split; [reflexivity|].
  now apply rmap_Forall2.
Qed.

(** The branch taken by a solver too old for [pbc]. *)
Lemma branch_old self b v br :
  branch_outcome self b v br -> pbc self = true -> v < 20150 ->
  fst br = EmptyString
  /\ exists l scaled,
       b = BoxList l /\ snd br = BoxList scaled
       /\ Forall2 (fun x y => shrink_axis (tolerance self) x = Ok y) l scaled.
Proof.
  intros [(_ & Hv & _) | [(_ & _ & Hs & Hf) | (Hp & _)]] Hpbc Hlt;
    [lia | | congruence].
  split; [exact Hf|]. now apply shrink_box_inv.
Qed.

(** The branch taken by a solver that knows [pbc]. *)
Lemma branch_new self b v br :
  branch_outcome self b v br -> pbc self = true -> 20150 <= v ->
  snd br = b
  /\ exists l bounds,
       b = BoxList l
       /\ box_fields b = Ok bounds
       /\ Forall2 (fun x s => fmt4 x = Ok s) l bounds
       /\ forall head,
            directives (head ++ fst br)
            = (directives head ++ [ "pbc" :: bounds ])%list.
Proof.
  intros [(_ & _ & Hs & bounds & Hb & Hf) | [(_ & Hv & _) | (Hp & _)]]
    Hpbc Hle; [| lia | congruence].
  split; [exact Hs|].
  destruct (box_fields_inv _ _ Hb) as (l & -> & Hfmt & Htok).
  exists l, bounds. repeat split; auto.
  intros head. rewrite Hf. now apply pbc_text_directives.
Qed.

Lemma resolved_box_run env self (b0 b : box_value) :
  b0 = box self ->
  match density self with
  | Some d => get_box_from_density env (data self) (count self) d = Ok b
  | None => b = b0
  end ->
  resolved_box env self = Ok b.
Proof.
  intros -> H. unfold resolved_box.
  destruct (density self); [exact H | now subst].
Qed.

(** The script of a single-configuration run, line by line. *)
Lemma single_script_lines {R} env self (g : R) r st' p file :
  run env self (init_state self g) = (r, st') ->
  In (p, file) (scripts_written (trace st')) ->
  resolved_box env self = Ok (self_box st')
  /\ exists v br bounds,
       probed_version env = Ok v
       /\ branch_outcome self (self_box st') v br
       /\ (count self = [] \/ box_fields (snd br) = Ok bounds)
       /\ directives file
          = (directives (file_header self ++ fst br)
             ++ flat_map (fun ic => block_lines
                                      (str_Z (fst ic) ++ ".xyz")%string
                                      (str_Z (snd ic)) bounds)
                         (enumerate_from 0 (count self)))%list.
Proof.
  intros Hrun Hin.
  destruct (run_inv _ _ _ _ _ Hrun)
    as (_ & _ & [(e & _ & _ & Hs) | (v & br & f & Hbox & Hv & Hbr & Hf & Hs & _)]).
  - rewrite Hs in Hin. contradiction.
  - rewrite Hs in Hin. simpl in Hin. destruct Hin as [Hin | []].
    injection Hin as _ ->.
    split; [now apply (resolved_box_run env self (box self))|].
    destruct (species_blocks_directives _ _ _ _ _ Hf) as (bounds & Hb & Hd).
    exists v, br, bounds. auto.
Qed.

(** A script of a multi-configuration run, line by line. *)
Lemma multi_script_lines np env m g r st' p file :
  multi_run np env m (init_state (base m) g) = (r, st') ->
  In (p, file) (scripts_written (trace st')) ->
  resolved_box env (base m) = Ok (self_box st')
  /\ exists v br idx ds,
       probed_version env = Ok v
       /\ branch_outcome (base m) (self_box st') v br
       /\ p = script_path (base m) idx
       /\ config_script (base m) br idx ds file
       /\ (forall d, In d ds -> In d (draws_made (trace st')))
       /\ exists g1 g2,
            draw_species np g1 (combine (pool_sizes (base m))
                                        (count (base m)))
            = (ds, Some g2).
Proof.
  intros Hrun Hin.
  destruct (multi_run_inv _ _ _ _ _ _ Hrun)
    as [(e & _ & Hs & _)
       | (g0 & v & br & done & anew & tail & _ & Hbox & Hv & Hbr & Hs & Hd
          & _ & Hdr & _)].
  - rewrite Hs in Hin. contradiction.
  - rewrite Hs in Hin. simpl in Hin.
    apply in_map_iff in Hin as ([[idx ds] f] & Heq & Hin).
    injection Heq as <- <-.
    split; [now apply (resolved_box_run env (base m) (box (base m)))|].
    rewrite Forall_forall in Hd. destruct (Hd _ Hin) as [Hcfg Hdraw].
    exists v, br, idx, ds. repeat (split; [assumption || reflexivity|]).
    split; [|exact Hdraw].
    intros d Hd'. rewrite Hdr. simpl. apply in_or_app. left.
    apply in_concat. exists ds. split; [|exact Hd'].
    apply in_map_iff. exists (idx, ds, f). auto.
Qed.

Lemma structure_blocks_skip (d : list string) (rest : list (list string)) :
  String.eqb (hd EmptyString d) "structure" = false ->
  structure_blocks (d :: rest) None = structure_blocks rest None.
Proof. intros H. simpl. now rewrite H. Qed.

(** Whatever the branch, the text it adds holds no structure block. *)
Lemma branch_head self b v br :
  branch_outcome self b v br ->
  exists extra,
    (forall head,
       directives (head ++ fst br) = (directives head ++ extra)%list)
    /\ (extra = [] \/ exists bounds, extra = [ "pbc" :: bounds ]).
Proof.
  intros [(_ & _ & _ & bounds & Hb & Hf) | [(_ & _ & _ & Hf) | (_ & _ & Hf)]].
  - exists [ "pbc" :: bounds ]. split; [|right; eauto].
    intros head. rewrite Hf.
    destruct (box_fields_inv _ _ Hb) as (l & _ & _ & Htok).
    now apply pbc_text_directives.
  - exists []. split; [|now left].
    intros head. now rewrite Hf, append_empty_r, app_nil_r.
  - exists []. split; [|now left].
    intros head. now rewrite Hf, append_empty_r, app_nil_r.
Qed.

Lemma enumerate_from_length {A} (l : list A) : forall i,
  List.length (enumerate_from i l) = List.length l.
Proof. induction l as [|x l IH]; intros i; simpl; auto. Qed.

(** The blocks and the [pbc] lines of a single-configuration script. *)
Lemma single_script_read {R} env self (g : R) r st' p file :
  run env self (init_state self g) = (r, st') ->
  In (p, file) (scripts_written (trace st')) ->
  resolved_box env self = Ok (self_box st')
  /\ exists v br bounds,
       probed_version env = Ok v
       /\ branch_outcome self (self_box st') v br
       /\ (count self = [] \/ box_fields (snd br) = Ok bounds)
       /\ blocks_of file
          = map (fun ic => mkBlock (str_Z (fst ic) ++ ".xyz") (str_Z (snd ic))
                                   ("0" :: "0" :: "0" :: bounds))
                (enumerate_from 0 (count self))
       /\ lines_with "pbc" file
          = lines_with "pbc" (file_header self ++ fst br)
       /\ lines_with "tolerance" file
          = [ ["tolerance"; py_str (tolerance self)] ].
Proof.
  intros Hrun Hin.
  destruct (single_script_lines _ _ _ _ _ _ _ Hrun Hin)
    as (Hres & v & br & bounds & Hv & Hbr & Hb & Hd).
  split; [exact Hres|]. exists v, br, bounds.
  repeat (split; [assumption|]).
  destruct (branch_head _ _ _ _ Hbr) as (extra & Hex & Hshape).
  set (fn := fun ic : Z * Z => str_Z (fst ic) ++ ".xyz") in *.
  set (fc := fun ic : Z * Z => str_Z (snd ic)) in *.
  rewrite Hex, file_header_directives in Hd.
  split; [|split].
  - unfold blocks_of. rewrite Hd.
    rewrite <- (app_nil_r (flat_map _ _)).
    destruct Hshape as [-> | (pb & ->)]; cbn [app];
      rewrite !structure_blocks_skip by reflexivity;
      rewrite (structure_blocks_flat fn fc); cbn [structure_blocks];
      now rewrite app_nil_r.
  - unfold lines_with. rewrite Hd, Hex, file_header_directives.
    rewrite !filter_app, (no_kw_in_blocks "pbc" fn fc) by reflexivity.
    now rewrite app_nil_r.
  - unfold lines_with. rewrite Hd, !filter_app.
    rewrite (no_kw_in_blocks "tolerance" fn fc) by reflexivity.
    destruct Hshape as [-> | (pb & ->)]; reflexivity.
Qed.

(** The blocks and the [pbc] lines of a multi-configuration script. *)
Lemma multi_script_read np env m g r st' p file :
  multi_run np env m (init_state (base m) g) = (r, st') ->
  In (p, file) (scripts_written (trace st')) ->
  resolved_box env (base m) = Ok (self_box st')
  /\ exists v br bounds ds,
       probed_version env = Ok v
       /\ branch_outcome (base m) (self_box st') v br
       /\ (Forall (fun d => draw_out d = []) ds
           \/ box_fields (snd br) = Ok bounds)
       /\ map draw_request ds
          = combine (pool_sizes (base m)) (count (base m))
       /\ List.length ds = List.length (count (base m))
       /\ (forall d, In d ds -> In d (draws_made (trace st')))
       /\ (exists g1 g2,
             draw_species np g1 (combine (pool_sizes (base m))
                                         (count (base m)))
             = (ds, Some g2))
       /\ blocks_of file = placed_blocks bounds (enumerate_from 0 ds)
       /\ lines_with "pbc" file
          = lines_with "pbc" (multi_file_head (base m) ++ fst br)
       /\ lines_with "tolerance" file
          = [ ["tolerance"; py_str (tolerance (base m))] ].
Proof.
  intros Hrun Hin.
  destruct (multi_script_lines _ _ _ _ _ _ _ _ Hrun Hin)
    as (Hres & v & br & idx & ds & Hv & Hbr & _ & Hcfg & Hmade & Hdraw).
  destruct Hcfg as (Hreq & Hlen & bounds & Hb & Hd).
  split; [exact Hres|]. exists v, br, bounds, ds.
  repeat (split; [assumption|]).
  destruct (branch_head _ _ _ _ Hbr) as (extra & Hex & Hshape).
  rewrite Hex, multi_file_head_directives in Hd.
  split; [|split].
  - unfold blocks_of. rewrite Hd.
    rewrite <- (app_nil_r (placement_lines _ _)).
    destruct Hshape as [-> | (pb & ->)]; cbn [app];
      rewrite !structure_blocks_skip by reflexivity;
      rewrite structure_blocks_placement; cbn [structure_blocks];
      now rewrite app_nil_r.
  - unfold lines_with. rewrite Hd, Hex, multi_file_head_directives.
    rewrite !filter_app, no_kw_in_placements by reflexivity.
    cbn [filter hd String.eqb Ascii.eqb Bool.eqb]. now rewrite !app_nil_r.
  - unfold lines_with. rewrite Hd, !filter_app.
    rewrite no_kw_in_placements by reflexivity.
    destruct Hshape as [-> | (pb & ->)]; reflexivity.
Qed.

(* ================================================================== *)
(** * The claims *)
(* ================================================================== *)

Lemma placed_blocks_in bounds (jds : list (Z * draw)) blk :
  In blk (placed_blocks bounds jds) ->
  blk_inside blk = "0" :: "0" :: "0" :: bounds
  /\ blk_number blk = "1"
  /\ exists jd, In jd jds /\ draw_out (snd jd) <> [].
Proof.
  unfold placed_blocks. intros H.
  apply in_flat_map in H as (jd & Hjd & H).
  apply in_map_iff in H as (k & <- & Hk).
  repeat split. exists jd. split; [exact Hjd|].
  intros E. rewrite E in Hk. contradiction.
Qed.

Lemma enumerate_from_in {A} (l : list A) : forall i j x,
  In (j, x) (enumerate_from i l) -> In x l.
Proof.
  induction l as [|y l IH]; intros i j x H; [contradiction|].
  destruct H as [H | H]; [injection H as _ <-; now left|].
  right. eapply IH; eauto.
Qed.


(** C2.  With [pbc] requested and a probed version of at least 20150, a
    script written by a run has exactly one [pbc] line, carrying the
    requested box unscaled and rendered with four decimals, and the bound
    of every structure block is that same unscaled box; for the
    single-configuration run and for every script of the
    multi-configuration run. *)
Theorem new_solver_requests_pbc (env : Env) (v : Z) :
  probed_version env = Ok v -> 20150 <= v ->
  (forall (self : Packmol) r st' p file,
      pbc self = true ->
      run env self (init_state self tt) = (r, st') ->
      In (p, file) (scripts_written (trace st')) ->
      resolved_box env self = Ok (self_box st')
      /\ (exists line, lines_with "pbc" file = [line]
                       /\ pbc_line_unscaled (self_box st') line)
      /\ Forall (inside_unscaled (self_box st')) (blocks_of file)
      /\ List.length (blocks_of file) = List.length (count self))
  /\ (forall np (m : MultiPackmol) g r st' p file,
      pbc (base m) = true ->
      multi_run np env m (init_state (base m) g) = (r, st') ->
      In (p, file) (scripts_written (trace st')) ->
      resolved_box env (base m) = Ok (self_box st')
      /\ (exists line, lines_with "pbc" file = [line]
                       /\ pbc_line_unscaled (self_box st') line)
      /\ Forall (inside_unscaled (self_box st')) (blocks_of file)).
Proof.
  intros Hv Hle. split.
  - intros self r st' p file Hpbc Hrun Hin.
    destruct (single_script_read _ _ _ _ _ _ _ Hrun Hin)
      as (Hres & v' & br & bounds & Hv' & Hbr & Hb & Hblk & Hpl & _).
    rewrite Hv in Hv'. injection Hv' as <-.
    destruct (branch_new _ _ _ _ Hbr Hpbc Hle)
      as (Hs & l & bounds0 & Hl & Hbf & Hfmt & Hd).
    split; [exact Hres|]. split; [|split].
    + exists ("pbc" :: bounds0). split.
      * rewrite Hpl. unfold lines_with.
        now rewrite Hd, file_header_directives.
      * exists l, bounds0. auto.
    + rewrite Hblk. apply Forall_forall. intros blk Hin'.
      apply in_map_iff in Hin' as ([i c] & <- & Hic).
      destruct Hb as [Hb | Hb].
      * rewrite Hb in Hic. contradiction.
      * rewrite Hs, Hbf in Hb. injection Hb as <-.
        exists l, bounds0. auto.
    + now rewrite Hblk, length_map, enumerate_from_length.
  - intros np m g r st' p file Hpbc Hrun Hin.
    destruct (multi_script_read _ _ _ _ _ _ _ _ Hrun Hin)
      as (Hres & v' & br & bounds & ds & Hv' & Hbr & Hb & _ & _ & _ & _
          & Hblk & Hpl & _).
    rewrite Hv in Hv'. injection Hv' as <-.
    destruct (branch_new _ _ _ _ Hbr Hpbc Hle)
      as (Hs & l & bounds0 & Hl & Hbf & Hfmt & Hd).
    split; [exact Hres|]. split.
    + exists ("pbc" :: bounds0). split.
      * rewrite Hpl. unfold lines_with.
        now rewrite Hd, multi_file_head_directives.
      * exists l, bounds0. auto.
    + rewrite Hblk. apply Forall_forall. intros blk Hin'.
      destruct (placed_blocks_in _ _ _ Hin') as (Hi & _ & [j d] & Hjd & Hne).
      destruct Hb as [Hb | Hb].
      * exfalso. apply Hne. rewrite Forall_forall in Hb. apply Hb.
        eapply enumerate_from_in; eauto.
      * rewrite Hs, Hbf in Hb. injection Hb as <-.
        exists l, bounds0. auto.
Qed.


Lemma new_solver_requests_pbc_witness :
  (probed_version env_v20 = Ok 20151 /\ 20150 <= 20151 /\ pbc cube10 = true)
  /\ (resolved_box env_v20 cube10 = Ok (self_box (snd cube10_v20))
      /\ (exists line,
            lines_with "pbc" (script_no 0 cube10_v20) = [line]
            /\ pbc_line_unscaled (self_box (snd cube10_v20)) line)
      /\ Forall (inside_unscaled (self_box (snd cube10_v20)))
                (blocks_of (script_no 0 cube10_v20))
      /\ List.length (blocks_of (script_no 0 cube10_v20))
         = List.length (count cube10))
  /\ (resolved_box env_v20 cube10 = Ok (self_box (snd cube10_multi_v20))
      /\ (exists line,
            lines_with "pbc" (script_no 1 cube10_multi_v20) = [line]
            /\ pbc_line_unscaled (self_box (snd cube10_multi_v20)) line)
      /\ Forall (inside_unscaled (self_box (snd cube10_multi_v20)))
                (blocks_of (script_no 1 cube10_multi_v20)))
  /\ lines_with "pbc" (script_no 0 cube10_v20)
     = [ ["pbc"; "10.0000"; "10.0000"; "10.0000"] ]
  /\ map blk_inside (blocks_of (script_no 0 cube10_v20))
     = [ ["0"; "0"; "0"; "10.0000"; "10.0000"; "10.0000"];
         ["0"; "0"; "0"; "10.0000"; "10.0000"; "10.0000"] ].
Proof.
  assert (probed_version env_v20 = Ok 20151) as Hv
    by (vm_compute; reflexivity).
  assert (20150 <= 20151) as Hle by discriminate.
  destruct (new_solver_requests_pbc env_v20 20151 Hv Hle)
    as [Hsingle Hmulti].
  split; [repeat split; assumption|].
  split; [|split; [|split]].
  - apply (Hsingle cube10 (fst cube10_v20) (snd cube10_v20)
                   "nodes/packmol/packmole.inp" (script_no 0 cube10_v20)
                   eq_refl (surjective_pairing _)).
    vm_compute. left. reflexivity.
  - apply (Hmulti counter_rng cube10_multi 0
                  (fst cube10_multi_v20) (snd cube10_multi_v20)
                  "nodes/packmol/packmole_1.inp"
                  (script_no 1 cube10_multi_v20)
                  eq_refl (surjective_pairing _)).
    vm_compute. right. left. reflexivity.
  - vm_compute. reflexivity.
  - vm_compute. reflexivity.
Defined.

Lemma stamped_pbc self b a :
  pbc self = true ->
  atoms_cell (stamped self b a) = b
  /\ atoms_pbc (stamped self b a) = (true, true, true).
Proof. unfold stamped. intros ->. split; reflexivity. Qed.

(** C3.  With [pbc] requested, every structure the node returns has the
    requested box, as given, for its cell and all three axes periodic,
    whatever the probed version; a run that completes returns one
    structure (single mode) or one per configuration (multi mode). *)
Theorem pbc_result_has_requested_cell (env : Env) :
  (forall (self : Packmol) r st',
      pbc self = true ->
      run env self (init_state self tt) = (r, st') ->
      Forall (fun a => atoms_cell a = self_box st'
                       /\ atoms_pbc a = (true, true, true))
             (self_atoms st')
      /\ (r = Ok tt ->
          List.length (self_atoms st') = 1%nat
          /\ resolved_box env self = Ok (self_box st')))
  /\ (forall np (m : MultiPackmol) g r st',
      pbc (base m) = true ->
      multi_run np env m (init_state (base m) g) = (r, st') ->
      Forall (fun a => atoms_cell a = self_box st'
                       /\ atoms_pbc a = (true, true, true))
             (self_atoms st')
      /\ (r = Ok tt ->
          List.length (self_atoms st') = Z.to_nat (n_configurations m)
          /\ resolved_box env (base m) = Ok (self_box st'))).
Proof.
  split.
  - intros self r st' Hpbc Hrun.
    destruct (run_inv _ _ _ _ _ Hrun)
      as (_ & _ & [(e & -> & Ha & _)
                  | (v & br & f & Hbox & _ & _ & _ & _ & Hat)]).
    + rewrite Ha. split; [constructor | discriminate].
    + destruct Hat as [(e & -> & Ha) | (-> & a0 & Ha)]; rewrite Ha.
      * split; [constructor | discriminate].
      * split.
        -- constructor; [now apply stamped_pbc | constructor].
        -- intros _. split; [reflexivity|].
           now apply (resolved_box_run env self (box self)).
  - intros np m g r st' Hpbc Hrun.
    destruct (multi_run_inv _ _ _ _ _ _ Hrun)
      as [(e & -> & _ & _ & Ha)
         | (g0 & v & br & done & anew & tail & _ & Hbox & _ & _ & _ & _ & Ha
            & _ & Hok)].
    + split; [|discriminate].
      destruct Ha as [-> | ->]; constructor.
    + rewrite Ha. split.
      * apply Forall_forall. intros a Hin.
        apply in_map_iff in Hin as (a0 & <- & _). now apply stamped_pbc.
      * intros Hr. destruct (Hok Hr) as (_ & Hlen & _).
        split; [now rewrite length_map|].
        now apply (resolved_box_run env (base m) (box (base m))).
Qed.

Lemma pbc_result_has_requested_cell_witness :
  (pbc cube10 = true
   /\ fst cube10_v18 = Ok tt
   /\ fst cube10_multi_v20 = Ok tt)
  /\ (Forall (fun a => atoms_cell a = self_box (snd cube10_v18)
                       /\ atoms_pbc a = (true, true, true))
             (self_atoms (snd cube10_v18))
      /\ List.length (self_atoms (snd cube10_v18)) = 1%nat
      /\ resolved_box env_v18 cube10 = Ok (self_box (snd cube10_v18)))
  /\ (Forall (fun a => atoms_cell a = self_box (snd cube10_multi_v20)
                       /\ atoms_pbc a = (true, true, true))
             (self_atoms (snd cube10_multi_v20))
      /\ List.length (self_atoms (snd cube10_multi_v20))
         = Z.to_nat (n_configurations cube10_multi)
      /\ resolved_box env_v20 cube10
         = Ok (self_box (snd cube10_multi_v20)))
  /\ map atoms_cell (self_atoms (snd cube10_v18))
     = [BoxList [PyInt 10; PyInt 10; PyInt 10]].
Proof.
  assert (fst cube10_v18 = Ok tt) as H18 by (vm_compute; reflexivity).
  assert (fst cube10_multi_v20 = Ok tt) as H20 by (vm_compute; reflexivity).
  split; [exact (conj eq_refl (conj H18 H20))|].
  split; [|split].
  - destruct (proj1 (pbc_result_has_requested_cell env_v18)
                    cube10 (fst cube10_v18) (snd cube10_v18) eq_refl
                    (surjective_pairing _))
      as [Hall Hok].
    destruct (Hok H18) as [Hlen Hres].
    exact (conj Hall (conj Hlen Hres)).
  - destruct (proj2 (pbc_result_has_requested_cell env_v20)
                    counter_rng cube10_multi 0 (fst cube10_multi_v20)
                    (snd cube10_multi_v20) eq_refl (surjective_pairing _))
      as [Hall Hok].
    destruct (Hok H20) as [Hlen Hres].
    exact (conj Hall (conj Hlen Hres)).
  - vm_compute. reflexivity.
Defined.

Lemma draw_species_spec np : forall pcs g ds g',
  draw_species np g pcs = (ds, Some g') ->
  map draw_request ds = pcs /\ Forall draw_ok ds.
Proof.
  induction pcs as [|[a size] pcs IH]; intros g ds g' H; cbn [draw_species] in H.
  - injection H as <- _. split; constructor.
  - destruct (np_choice np g a size true None) as [[out | e] g1] eqn:E;
      [|discriminate].
    destruct (draw_species np g1 pcs) as [ds1 og] eqn:E1.
    injection H as <- ->.
    destruct (IH _ _ _ E1) as [Hreq Hok].
    destruct (np_choice_spec np _ _ _ _ _ E) as (Hs & Hl & Hr).
    split.
    + cbn [map]. now rewrite Hreq.
    + constructor; [|exact Hok]. repeat split; assumption.
Qed.

Lemma map_const_repeat {A B} (b : B) (l : list A) :
  map (fun _ => b) l = repeat b (List.length l).
Proof. induction l as [|x l IH]; simpl; [reflexivity | now rewrite IH]. Qed.

(** The draws of a completed multi-configuration run: one draw per
    species per configuration, in order, each asked of its pool size and
    count, and the whole sequence is what the seeded generator gives. *)
Lemma completed_run_draws np env m g st :
  multi_run np env m (init_state (base m) g) = (Ok tt, st) ->
  let pcs := combine (pool_sizes (base m)) (count (base m)) in
  (exists g0,
     np_seed np (seed m) = Ok g0
     /\ draws_made (trace st)
        = draw_configurations np g0 (Z.to_nat (n_configurations m)) pcs)
  /\ map draw_request (draws_made (trace st))
     = List.concat (repeat pcs (Z.to_nat (n_configurations m)))
  /\ Forall draw_ok (draws_made (trace st)).
Proof.
  intros Hrun pcs.
  destruct (multi_run_inv _ _ _ _ _ _ Hrun)
    as [(e & He & _)
       | (g0 & v & br & done & anew & tail & Hseed & _ & _ & _ & _ & Hd & _
          & Hdr & Hok)]; [discriminate|].
  destruct (Hok eq_refl) as (Hidx & _ & -> & Hall).
  simpl in Hdr, Hall. rewrite app_nil_r in Hdr.
  split; [exists g0; auto|].
  assert (List.length done = Z.to_nat (n_configurations m)) as Hlen.
  { rewrite <- (length_map (fun d => fst (fst d)) done), Hidx.
    apply py_range_length. }
  rewrite Hdr. split.
  - rewrite concat_map, map_map, <- Hlen, <- map_const_repeat.
    f_equal. apply map_ext_in. intros d Hin.
    rewrite Forall_forall in Hd.
    destruct (Hd _ Hin) as [_ (g1 & g2 & Hsp)].
    now destruct (draw_species_spec _ _ _ _ _ Hsp).
  - apply Forall_concat, Forall_map, Forall_forall. intros d Hin.
    rewrite Forall_forall in Hd.
    destruct (Hd _ Hin) as [_ (g1 & g2 & Hsp)].
    now destruct (draw_species_spec _ _ _ _ _ Hsp).
Qed.


Lemma completed {R} (x : result unit * State R) :
  fst x = Ok tt -> x = (Ok tt, snd x).
Proof. destruct x as [r s]. simpl. now intros ->. Qed.


Lemma placed_blocks_names bounds (jds : list (Z * draw)) :
  map (fun b => (blk_file b, blk_number b)) (placed_blocks bounds jds)
  = flat_map (fun jd =>
      map (fun kdx =>
             ((str_Z (fst jd) ++ "_" ++ str_Z kdx ++ ".xyz")%string, "1"))
          (draw_out (snd jd)))
      jds.
Proof.
  unfold placed_blocks.
  induction jds as [|jd jds IH]; [reflexivity|].
  cbn [flat_map]. now rewrite map_app, map_map, IH.
Qed.

Lemma requests_counts (ds : list draw) : forall (ps cs : list Z),
  map draw_request ds = combine ps cs ->
  List.length ds = List.length cs ->
  Forall draw_ok ds ->
  Forall2 (fun d c => List.length (draw_out d) = Z.to_nat c
                      /\ Forall (fun k => 0 <= k < draw_a d)
                                (draw_out d))
          ds cs.
Proof.
  induction ds as [|d ds IH]; intros ps cs Hreq Hlen Hok.
  - destruct cs; [constructor | discriminate].
  - destruct cs as [|c cs]; [discriminate|].
    destruct ps as [|q ps]; [discriminate|].
    cbn [map combine] in Hreq. injection Hreq as Hq Hc Hreq.
    inversion Hok as [|? ? (_ & _ & _ & Hl & Hr) Hok']; subst.
    constructor.
    + split; [exact Hl | exact Hr].
    + apply (IH ps cs); auto.
Qed.

(** C5.  A single-configuration script has exactly one structure block
    per species, in order, naming the species' coordinate file and
    carrying its count.  A multi-configuration script has, for every
    species in order, one block per drawn index (as many as the count),
    each with [number 1] and naming the coordinate file of that species
    and that drawn index. *)
Theorem one_block_per_placement (env : Env) :
  (forall (self : Packmol) r st' p file,
      run env self (init_state self tt) = (r, st') ->
      In (p, file) (scripts_written (trace st')) ->
      map (fun b => (blk_file b, blk_number b)) (blocks_of file)
      = map (fun ic => ((str_Z (fst ic) ++ ".xyz")%string, str_Z (snd ic)))
            (enumerate_from 0 (count self)))
  /\ (forall np (m : MultiPackmol) g r st' p file,
      multi_run np env m (init_state (base m) g) = (r, st') ->
      In (p, file) (scripts_written (trace st')) ->
      exists ds : list draw,
        (forall d, In d ds -> In d (draws_made (trace st')))
        /\ map draw_request ds
           = combine (pool_sizes (base m)) (count (base m))
        /\ Forall2 (fun d c =>
                      List.length (draw_out d) = Z.to_nat c
                      /\ Forall (fun k => 0 <= k < draw_a d)
                                (draw_out d))
                   ds (count (base m))
        /\ map (fun b => (blk_file b, blk_number b)) (blocks_of file)
           = flat_map (fun jd =>
               map (fun kdx =>
                      ((str_Z (fst jd) ++ "_" ++ str_Z kdx ++ ".xyz")%string,
                       "1"))
                   (draw_out (snd jd)))
               (enumerate_from 0 ds)).
Proof.
  split.
  - intros self r st' p file Hrun Hin.
    destruct (single_script_read _ _ _ _ _ _ _ Hrun Hin)
      as (_ & v & br & bounds & _ & _ & _ & Hblk & _).
    rewrite Hblk, map_map. reflexivity.
  - intros np m g r st' p file Hrun Hin.
    destruct (multi_script_read _ _ _ _ _ _ _ _ Hrun Hin)
      as (_ & v & br & bounds & ds & _ & _ & _ & Hreq & Hlen & Hmade
          & (g1 & g2 & Hsp) & Hblk & _).
    exists ds. split; [exact Hmade|]. split; [exact Hreq|].
    destruct (draw_species_spec _ _ _ _ _ Hsp) as [_ Hok].
    split; [now apply (requests_counts ds (pool_sizes (base m)))|].
    rewrite Hblk. apply placed_blocks_names.
Qed.

Lemma one_block_per_placement_witness :
  (map (fun b => (blk_file b, blk_number b))
       (blocks_of (script_no 0 cube10_v18))
   = map (fun ic => ((str_Z (fst ic) ++ ".xyz")%string, str_Z (snd ic)))
         (enumerate_from 0 (count cube10)))
  /\ (exists ds : list draw,
        (forall d, In d ds ->
                   In d (draws_made (trace (snd cube10_multi_v18))))
        /\ map draw_request ds
           = combine (pool_sizes cube10) (count cube10)
        /\ Forall2 (fun d c =>
                      List.length (draw_out d) = Z.to_nat c
                      /\ Forall (fun k => 0 <= k < draw_a d)
                                (draw_out d))
                   ds (count cube10)
        /\ map (fun b => (blk_file b, blk_number b))
               (blocks_of (script_no 1 cube10_multi_v18))
           = flat_map (fun jd =>
               map (fun kdx =>
                      ((str_Z (fst jd) ++ "_" ++ str_Z kdx ++ ".xyz")%string,
                       "1"))
                   (draw_out (snd jd)))
               (enumerate_from 0 ds))
  /\ map (fun b => (blk_file b, blk_number b))
         (blocks_of (script_no 0 cube10_v18))
     = [ ("0.xyz", "10"); ("1.xyz", "3") ]
  /\ map (fun b => (blk_file b, blk_number b))
         (blocks_of (script_no 1 cube10_multi_v18))
     = [ ("0_0.xyz", "1"); ("0_0.xyz", "1"); ("0_0.xyz", "1");
         ("0_0.xyz", "1"); ("0_0.xyz", "1"); ("0_0.xyz", "1");
         ("0_0.xyz", "1"); ("0_0.xyz", "1"); ("0_0.xyz", "1");
         ("0_0.xyz", "1");
         ("1_1.xyz", "1"); ("1_0.xyz", "1"); ("1_1.xyz", "1") ].
Proof.
  destruct (one_block_per_placement env_v18) as [Hsingle Hmulti].
  split; [|split; [|split]].
  - apply (Hsingle cube10 (fst cube10_v18) (snd cube10_v18)
                   "nodes/packmol/packmole.inp" (script_no 0 cube10_v18)
                   (surjective_pairing _)).
    vm_compute. left. reflexivity.
  - apply (Hmulti counter_rng cube10_multi 0
                  (fst cube10_multi_v18) (snd cube10_multi_v18)
                  "nodes/packmol/packmole_1.inp"
                  (script_no 1 cube10_multi_v18) (surjective_pairing _)).
    vm_compute. right. left. reflexivity.
  - vm_compute. reflexivity.
  - vm_compute. reflexivity.
Defined.

(** C6.  When the species list and the count list differ in length, or
    fixed instance indices are given with another length than the species
    list, [_post_init_] raises a [ValueError]; the node is not built, so
    nothing is written and no process is started.  The
    multi-configuration node, whose [data_ids] is pinned to [None],
    rejects differing species and count lists the same way. *)
Theorem mismatched_lengths_rejected (env : Env) (params : Packmol) :
  (List.length (data params) <> List.length (count params)
   \/ exists ids, data_ids params = Some ids
                  /\ List.length (data params) <> List.length ids) ->
  (exists msg,
     _post_init_ params = Raise (Exc ValueError msg)
     /\ construct_and_run env params
        = (Raise (Exc ValueError msg), init_state params tt))
  /\ trace (snd (construct_and_run env params)) = []
  /\ (forall np n sd g,
        List.length (data params) <> List.length (count params) ->
        exists msg,
          multi_construct_and_run np env (mkMultiPackmol params n sd) g
          = (Raise (Exc ValueError msg), init_state params g)).
Proof.
  intros Hbad.
  assert (exists msg, _post_init_ params = Raise (Exc ValueError msg))
    as (msg & Hmsg).
  { unfold _post_init_.
    destruct (box_is_none (box params) && is_none (density params))%bool;
      [eauto|].
    destruct (Nat.eqb (List.length (data params)) (List.length (count params)))
      eqn:E1; simpl; [|eauto].
    apply Nat.eqb_eq in E1.
    destruct Hbad as [Hbad | (ids & Hids & Hbad)]; [contradiction|].
    rewrite Hids.
    apply Nat.eqb_neq in Hbad. rewrite Hbad. simpl. eauto. }
  split; [|split].
  - exists msg. split; [exact Hmsg|].
    unfold construct_and_run. now rewrite Hmsg.
  - unfold construct_and_run. now rewrite Hmsg.
  - intros np n sd g Hlen. unfold multi_construct_and_run. cbn [base].
    unfold _post_init_. cbn [box density data count data_ids with_data_ids].
    destruct (box_is_none (box params) && is_none (density params))%bool;
      [eauto|].
    apply Nat.eqb_neq in Hlen. rewrite Hlen. simpl. eauto.
Qed.

Lemma mismatched_lengths_rejected_witness :
  (List.length (data short_count) <> List.length (count short_count)
   /\ data_ids short_ids = Some [0]
   /\ List.length (data short_ids) <> List.length [0])
  /\ ((exists msg,
         _post_init_ short_count = Raise (Exc ValueError msg)
         /\ construct_and_run env_v18 short_count
            = (Raise (Exc ValueError msg), init_state short_count tt))
      /\ trace (snd (construct_and_run env_v18 short_count)) = [])
  /\ ((exists msg,
         _post_init_ short_ids = Raise (Exc ValueError msg)
         /\ construct_and_run env_v18 short_ids
            = (Raise (Exc ValueError msg), init_state short_ids tt))
      /\ trace (snd (construct_and_run env_v18 short_ids)) = [])
  /\ _post_init_ short_count
     = Raise (Exc ValueError "The number of data and count must be the same.")
  /\ _post_init_ short_ids
     = Raise (Exc ValueError
                "The number of data and data_ids must be the same.").
Proof.
  assert (List.length (data short_count) <> List.length (count short_count))
    as H1 by (simpl; lia).
  assert (List.length (data short_ids) <> List.length [0]) as H2
    by (simpl; lia).
  split; [exact (conj H1 (conj eq_refl H2))|].
  split; [|split; [|split]].
  - destruct (mismatched_lengths_rejected env_v18 short_count (or_introl H1))
      as (Ha & Hb & _).
    exact (conj Ha Hb).
  - destruct (mismatched_lengths_rejected env_v18 short_ids
                (or_intror (ex_intro _ [0] (conj eq_refl H2))))
      as (Ha & Hb & _).
    exact (conj Ha Hb).
  - reflexivity.
  - reflexivity.
Defined.

(** C7, as stated, fails: a request that gives both a box and a density
    is built without error, and in the run the box becomes what the
    density helper returns. *)
Lemma box_and_density_accepted :
  box box_and_density = BoxList [PyInt 10; PyInt 10; PyInt 10]
  /\ density box_and_density = Some (PyInt 997)
  /\ _post_init_ box_and_density = Ok box_and_density
  /\ fst (construct_and_run env_v18 box_and_density) = Ok tt
  /\ self_box (snd (construct_and_run env_v18 box_and_density))
     = BoxList [PyFloat 12; PyFloat 12; PyFloat 12].
Proof. vm_compute. repeat split; reflexivity. Qed.

(** C7, amended.  At least one of box and density must be given:
    [_post_init_] raises a [ValueError] when both are missing, and accepts
    a request that gives a box, a density or both (the lengths agreeing).
    In a run of a request with a density, the box is replaced by what the
    density helper returns, whether a box was given or not. *)
Theorem box_or_density_required (self : Packmol) :
  (box self = BoxNone -> density self = None ->
   _post_init_ self
   = Raise (Exc ValueError "Either box or density must be set."))
  /\ (List.length (data self) = List.length (count self) ->
      (forall ids, data_ids self = Some ids ->
                   List.length (data self) = List.length ids) ->
      (box self <> BoxNone \/ density self <> None) ->
      exists built,
        _post_init_ self = Ok built
        /\ density built = density self
        /\ (forall x, box self = BoxScalar x -> box built = BoxList [x; x; x])
        /\ (forall l, box self = BoxList l -> box built = BoxList l)
        /\ (box self = BoxNone -> box built = BoxNone))
  /\ (forall env d (R : Type) (s s' : State R),
        density self = Some d ->
        @_get_box_from_molar_volume R env self s = (Ok tt, s') ->
        get_box_from_density env (data self) (count self) d
        = Ok (self_box s')).
Proof.
  split; [|split].
  - intros Hb Hd. unfold _post_init_. now rewrite Hb, Hd.
  - intros Hlen Hids Hsome. unfold _post_init_.
    assert ((box_is_none (box self) && is_none (density self))%bool = false)
      as ->.
    { destruct Hsome as [H | H].
      - destruct (box self); [contradiction | reflexivity | reflexivity].
      - destruct (density self); [apply andb_false_r | contradiction]. }
    rewrite (proj2 (Nat.eqb_eq _ _) Hlen). cbn [negb].
    assert (match data_ids self with
            | Some ids =>
                negb (Nat.eqb (List.length (data self)) (List.length ids))
            | None => false
            end = false) as ->.
    { destruct (data_ids self) as [ids|]; [|reflexivity].
      now rewrite (Hids ids eq_refl), Nat.eqb_refl. }
    destruct (box self) as [| x | l] eqn:Eb.
    + exists self. repeat split; try discriminate. intros _. exact Eb.
    + exists (with_box self (BoxList [x; x; x])).
      repeat split; try discriminate.
      intros y Hy. now injection Hy as <-.
    + exists self. repeat split; try discriminate.
      intros l' Hl. now rewrite Eb.
  - intros env d R s s' Hd Hrun.
    destruct (get_box_from_molar_volume_inv _ _ _ _ _ Hrun)
      as [_ [(e & He & _) | (_ & Hbox)]]; [discriminate|].
    now rewrite Hd in Hbox.
Qed.

Lemma box_or_density_required_witness :
  (box no_box_no_density = BoxNone /\ density no_box_no_density = None
   /\ density box_and_density = Some (PyInt 997))
  /\ _post_init_ no_box_no_density
     = Raise (Exc ValueError "Either box or density must be set.")
  /\ (exists built,
        _post_init_ box_and_density = Ok built
        /\ density built = density box_and_density
        /\ (forall x, box box_and_density = BoxScalar x ->
                      box built = BoxList [x; x; x])
        /\ (forall l, box box_and_density = BoxList l ->
                      box built = BoxList l)
        /\ (box box_and_density = BoxNone -> box built = BoxNone)).
Proof.
  split; [exact (conj eq_refl (conj eq_refl eq_refl))|].
  split.
  - exact (proj1 (box_or_density_required no_box_no_density)
                 eq_refl eq_refl).
  - apply (proj1 (proj2 (box_or_density_required box_and_density))).
    + reflexivity.
    + intros ids H. discriminate H.
    + left. discriminate.
Defined.

(** ** The pattern [Version (\d+\.\d+\.\d+)] *)

Lemma span_digits_spec (s : string) :
  s = fst (span_digits s) ++ snd (span_digits s)
  /\ all_chars is_digit (fst (span_digits s)) = true.
Proof.
  induction s as [|c s [IH1 IH2]]; [split; reflexivity|].
  cbn [span_digits]. destruct (is_digit c) eqn:E.
  - destruct (span_digits s) as [d r]. simpl in *.
    split; [now rewrite <- IH1 | now rewrite E].
  - split; reflexivity.
Qed.

Lemma span_digits_app (d r : string) :
  all_chars is_digit d = true ->
  span_digits (d ++ r)
  = (d ++ fst (span_digits r), snd (span_digits r)).
Proof.
  induction d as [|c d IH]; intros H.
  - simpl. now destruct (span_digits r).
  - simpl in H. apply andb_true_iff in H as [Hc Hd].
    cbn [append span_digits]. rewrite Hc, (IH Hd). reflexivity.
Qed.

Lemma span_digits_dot (d r : string) :
  all_chars is_digit d = true ->
  span_digits (d ++ String "." r) = (d, String "." r).
Proof.
  intros H. rewrite (span_digits_app _ _ H). simpl.
  now rewrite append_empty_r.
Qed.

Lemma drop_prefix_app (p r : string) : drop_prefix p (p ++ r) = Some r.
Proof.
  induction p as [|c p IH]; [reflexivity|].
  simpl. now rewrite Ascii.eqb_refl.
Qed.

Lemma drop_prefix_spec (p : string) : forall s r,
  drop_prefix p s = Some r -> s = p ++ r.
Proof.
  induction p as [|c p IH]; intros s r H; simpl in H.
  - now injection H as ->.
  - destruct s as [|b s]; [discriminate|].
    destruct (Ascii.eqb c b) eqn:E; [|discriminate].
    apply Ascii.eqb_eq in E. subst b. simpl. f_equal. now apply IH.
Qed.

Lemma match_version_at_complete (X Y Z post : string) :
  digits X -> digits Y -> digits Z ->
  exists v,
    match_version_at ("Version " ++ X ++ "." ++ Y ++ "." ++ Z ++ post)
    = Some v.
Proof.
  intros [Xn Xd] [Yn Yd] [Zn Zd]. unfold match_version_at.
  rewrite drop_prefix_app.
  change (X ++ "." ++ Y ++ "." ++ Z ++ post)
    with (X ++ String "." (Y ++ String "." (Z ++ post))).
  rewrite (span_digits_dot _ _ Xd), (span_digits_dot _ _ Yd).
  rewrite (span_digits_app _ _ Zd).
  rewrite Xn, Yn, is_empty_app, Zn. simpl. eauto.
Qed.

Lemma match_version_at_sound (s v : string) :
  match_version_at s = Some v ->
  dotted_version v /\ exists post, s = "Version " ++ v ++ post.
Proof.
  unfold match_version_at.
  destruct (drop_prefix "Version " s) as [r0|] eqn:E0; [|discriminate].
  apply drop_prefix_spec in E0.
  destruct (span_digits_spec r0) as [H1 D1].
  destruct (span_digits r0) as [d1 r1]. simpl in H1, D1.
  destruct r1 as [|c1 r1']; [discriminate|].
  destruct c1 as [[] [] [] [] [] [] [] []]; try discriminate.
  destruct (span_digits_spec r1') as [H2 D2].
  destruct (span_digits r1') as [d2 r2]. simpl in H2, D2.
  destruct r2 as [|c2 r2']; [discriminate|].
  destruct c2 as [[] [] [] [] [] [] [] []]; try discriminate.
  destruct (span_digits_spec r2') as [H3 D3].
  destruct (span_digits r2') as [d3 r3]. simpl in H3, D3.
  destruct (is_empty d1) eqn:N1; [discriminate|].
  destruct (is_empty d2) eqn:N2; [discriminate|].
  destruct (is_empty d3) eqn:N3; [discriminate|].
  simpl. intros H. injection H as <-. split.
  - exists d1, d2, d3. repeat split; assumption.
  - exists r3. rewrite E0, H1, H2, H3.
    simpl. rewrite !append_assoc. simpl. rewrite !append_assoc. reflexivity.
Qed.

Lemma re_search_version_here (s v : string) :
  match_version_at s = Some v -> re_search_version s = Some v.
Proof. intros H. destruct s; cbn [re_search_version]; now rewrite H. Qed.

Lemma re_search_version_complete (s : string) :
  version_token s -> exists v, re_search_version s = Some v.
Proof.
  intros (pre & X & Y & Z & post & -> & HX & HY & HZ).
  induction pre as [|c pre IH].
  - destruct (match_version_at_complete X Y Z post HX HY HZ) as (v & Hv).
    exists v. now apply re_search_version_here.
  - cbn [append re_search_version].
    destruct (match_version_at (String c _)) as [v|]; eauto.
Qed.

Lemma re_search_version_sound (s : string) : forall v,
  re_search_version s = Some v ->
  dotted_version v /\ exists pre post, s = pre ++ "Version " ++ v ++ post.
Proof.
  induction s as [|c s IH]; intros v H.
  - cbn [re_search_version] in H.
    destruct (match_version_at "") as [w|] eqn:E; [|discriminate].
    injection H as ->.
    destruct (match_version_at_sound _ _ E) as [Hd (post & Hp)].
    split; [exact Hd|]. exists "", post. exact Hp.
  - cbn [re_search_version] in H.
    destruct (match_version_at (String c s)) as [w|] eqn:E.
    + injection H as ->.
      destruct (match_version_at_sound _ _ E) as [Hd (post & Hp)].
      split; [exact Hd|]. exists "", post. exact Hp.
    + destruct (IH _ H) as [Hd (pre & post & Hp)].
      split; [exact Hd|]. exists (String c pre), post.
      simpl. now rewrite Hp.
Qed.

Lemma dotted_version_token (pre v post : string) :
  dotted_version v -> version_token (pre ++ "Version " ++ v ++ post).
Proof.
  intros (X & Y & Z & -> & HX & HY & HZ).
  exists pre, X, Y, Z, post. split; [|auto].
  f_equal. f_equal. now rewrite !append_assoc.
Qed.

Lemma no_token_no_match (s : string) :
  ~ version_token s -> re_search_version s = None.
Proof.
  intros Hno. destruct (re_search_version s) as [v|] eqn:E; [|reflexivity].
  exfalso. apply Hno.
  destruct (re_search_version_sound _ _ E) as [Hd (pre & post & ->)].
  now apply dotted_version_token.
Qed.




(** C10.  The probe never lets an exception out: whatever launching the
    solver does, it returns a string; that string is the version when the
    body of the [try] block returns one, and "An error occurred: "
    followed by the message of the exception when the body raises,
    whether [Popen] raised or no version token was found. *)
Theorem version_probe_never_raises (p : popen_outcome) :
  exists s,
    get_packmol_version p = Ok s
    /\ match probe_body p with
       | Ok v => s = v
       | Raise e =>
           s = "An error occurred: " ++ str_exc e
           /\ String.prefix "An error occurred:" s = true
       end
    /\ match p with
       | PopenRaises e => s = "An error occurred: " ++ str_exc e
       | PopenRuns stdout failure =>
           match re_search_version (py_join "" (read_output stdout failure))
           with
           | Some v => s = v
           | None =>
               s = "An error occurred: "
                   ++ "Could not find version in packmol output: "
                   ++ py_join "" (read_output stdout failure)
           end
       end.
Proof.
  unfold get_packmol_version.
  destruct p as [e | stdout failure]; cbn [probe_body try_except].
  - eexists. repeat split.
  - destruct (re_search_version (py_join "" (read_output stdout failure)));
      cbn [try_except]; eexists; repeat split.
Qed.

Lemma fmt4_fields (l : list pynum) (bounds : list string) :
  Forall2 (fun x s => fmt4 x = Ok s) l bounds -> four_decimal_fields bounds.
Proof.
  intros H. exists l.
  induction H as [|x s l bounds Hx _ IH]; constructor; [|exact IH].
  split; [exact Hx | now apply fmt4_fixed].
Qed.

Lemma box_fields_four_decimals b bounds :
  box_fields b = Ok bounds -> four_decimal_fields bounds.
Proof.
  intros H. destruct (box_fields_inv _ _ H) as (l & _ & Hf & _).
  now apply (fmt4_fields l).
Qed.

Lemma branch_pbc_lines self b v br (head : string) :
  branch_outcome self b v br ->
  lines_with "pbc" head = [] ->
  Forall (fun line => exists bounds,
                        line = "pbc" :: bounds /\ four_decimal_fields bounds)
         (lines_with "pbc" (head ++ fst br)).
Proof.
  intros [(_ & _ & _ & bounds & Hb & Hf) | [(_ & _ & _ & Hf) | (_ & _ & Hf)]]
    Hhead; rewrite Hf.
  - destruct (box_fields_inv _ _ Hb) as (l & _ & Hfmt & Htok).
    unfold lines_with in *.
    rewrite (pbc_text_directives head bounds Htok), filter_app, Hhead.
    constructor; [|constructor].
    exists bounds. split; [reflexivity | now apply (fmt4_fields l)].
  - rewrite append_empty_r, Hhead. constructor.
  - rewrite append_empty_r, Hhead. constructor.
Qed.

(** C9, as stated, fails: the tolerance is written with Python's default
    [str], so a tolerance of 2.0 appears as [2.0], with one decimal. *)
Lemma tolerance_not_four_decimals :
  tolerance cube10 = PyFloat 2
  /\ lines_with "tolerance" (script_no 0 cube10_v18)
     = [ ["tolerance"; "2.0"] ]
  /\ ~ fixed_decimals 4 "2.0".
Proof.
  split; [reflexivity|]. split; [vm_compute; reflexivity|].
  intros (sign & ip & fp & H & Hne & _ & _ & Hlen).
  apply (f_equal String.length) in H.
  rewrite !length_app in H. simpl in H.
  destruct ip as [|c ip]; [discriminate|]. simpl in H.
  destruct sign; simpl in H; lia.
Qed.

(** C9, amended.  Every box value written into a script, that is every
    field of a [pbc] line and every bound of an [inside box] line, is a
    [.4f] rendering and has exactly four decimals when the value is
    finite.  The tolerance of the header is written with Python's default
    [str], not with [.4f]. *)
Theorem box_values_four_decimals (env : Env) :
  (forall (self : Packmol) r st' p file,
      run env self (init_state self tt) = (r, st') ->
      In (p, file) (scripts_written (trace st')) ->
      lines_with "tolerance" file
      = [ ["tolerance"; py_str (tolerance self)] ]
      /\ Forall (fun blk => exists bounds,
                   blk_inside blk = "0" :: "0" :: "0" :: bounds
                   /\ four_decimal_fields bounds)
                (blocks_of file)
      /\ Forall (fun line => exists bounds,
                   line = "pbc" :: bounds /\ four_decimal_fields bounds)
                (lines_with "pbc" file))
  /\ (forall np (m : MultiPackmol) g r st' p file,
      multi_run np env m (init_state (base m) g) = (r, st') ->
      In (p, file) (scripts_written (trace st')) ->
      lines_with "tolerance" file
      = [ ["tolerance"; py_str (tolerance (base m))] ]
      /\ Forall (fun blk => exists bounds,
                   blk_inside blk = "0" :: "0" :: "0" :: bounds
                   /\ four_decimal_fields bounds)
                (blocks_of file)
      /\ Forall (fun line => exists bounds,
                   line = "pbc" :: bounds /\ four_decimal_fields bounds)
                (lines_with "pbc" file)).
Proof.
  split.
  - intros self r st' p file Hrun Hin.
    destruct (single_script_read _ _ _ _ _ _ _ Hrun Hin)
      as (_ & v & br & bounds & _ & Hbr & Hb & Hblk & Hpl & Htol).
    split; [exact Htol|]. split.
    + rewrite Hblk. apply Forall_forall. intros blk Hin'.
      apply in_map_iff in Hin' as ([i c] & <- & Hic).
      destruct Hb as [Hb | Hb]; [rewrite Hb in Hic; contradiction|].
      exists bounds. split; [reflexivity|].
      now apply (box_fields_four_decimals (snd br)).
    + rewrite Hpl. apply (branch_pbc_lines _ _ _ _ _ Hbr).
      unfold lines_with. now rewrite file_header_directives.
  - intros np m g r st' p file Hrun Hin.
    destruct (multi_script_read _ _ _ _ _ _ _ _ Hrun Hin)
      as (_ & v & br & bounds & ds & _ & Hbr & Hb & _ & _ & _ & _
          & Hblk & Hpl & Htol).
    split; [exact Htol|]. split.
    + rewrite Hblk. apply Forall_forall. intros blk Hin'.
      destruct (placed_blocks_in _ _ _ Hin') as (Hi & _ & [j d] & Hjd & Hne).
      destruct Hb as [Hb | Hb].
      * exfalso. apply Hne. rewrite Forall_forall in Hb. apply Hb.
        eapply enumerate_from_in; eauto.
      * exists bounds. split; [exact Hi|].
        now apply (box_fields_four_decimals (snd br)).
    + rewrite Hpl. apply (branch_pbc_lines _ _ _ _ _ Hbr).
      unfold lines_with. now rewrite multi_file_head_directives.
Qed.

Lemma box_values_four_decimals_witness :
  (lines_with "tolerance" (script_no 0 cube10_v20)
   = [ ["tolerance"; py_str (tolerance cube10)] ]
   /\ Forall (fun blk => exists bounds,
                blk_inside blk = "0" :: "0" :: "0" :: bounds
                /\ four_decimal_fields bounds)
             (blocks_of (script_no 0 cube10_v20))
   /\ Forall (fun line => exists bounds,
                line = "pbc" :: bounds /\ four_decimal_fields bounds)
             (lines_with "pbc" (script_no 0 cube10_v20)))
  /\ (lines_with "tolerance" (script_no 1 cube10_multi_v20)
      = [ ["tolerance"; py_str (tolerance cube10)] ]
      /\ Forall (fun blk => exists bounds,
                   blk_inside blk = "0" :: "0" :: "0" :: bounds
                   /\ four_decimal_fields bounds)
                (blocks_of (script_no 1 cube10_multi_v20))
      /\ Forall (fun line => exists bounds,
                   line = "pbc" :: bounds /\ four_decimal_fields bounds)
                (lines_with "pbc" (script_no 1 cube10_multi_v20)))
  /\ directives (script_no 0 cube10_v20)
     = [ ["tolerance"; "2.0"]; ["filetype"; "xyz"];
         ["output"; "mixture.xyz"];
         ["pbc"; "10.0000"; "10.0000"; "10.0000"];
         ["structure"; "0.xyz"]; ["number"; "10"];
         ["inside"; "box"; "0"; "0"; "0"; "10.0000"; "10.0000"; "10.0000"];
         ["end"; "structure"];
         ["structure"; "1.xyz"]; ["number"; "3"];
         ["inside"; "box"; "0"; "0"; "0"; "10.0000"; "10.0000"; "10.0000"];
         ["end"; "structure"] ].
Proof.
  destruct (box_values_four_decimals env_v20) as [Hsingle Hmulti].
  split; [|split].
  - apply (Hsingle cube10 (fst cube10_v20) (snd cube10_v20)
                   "nodes/packmol/packmole.inp" (script_no 0 cube10_v20)
                   (surjective_pairing _)).
    vm_compute. left. reflexivity.
  - apply (Hmulti counter_rng cube10_multi 0
                  (fst cube10_multi_v20) (snd cube10_multi_v20)
                  "nodes/packmol/packmole_1.inp"
                  (script_no 1 cube10_multi_v20) (surjective_pairing _)).
    vm_compute. right. left. reflexivity.
  - vm_compute. reflexivity.
Defined.

(* ================================================================== *)
(** * Further properties of the code *)
(* ================================================================== *)

(** ** The version as a number *)

Lemma remove_char_app c (a b : string) :
  remove_char c (a ++ b) = remove_char c a ++ remove_char c b.
Proof.
  induction a as [|x a IH]; [reflexivity|].
  simpl. destruct (Ascii.eqb x c); simpl; now rewrite IH.
Qed.

Lemma digit_not_dot c : is_digit c = true -> Ascii.eqb c "." = false.
Proof.
  intros H. destruct (Ascii.eqb_spec c "."); [subst; discriminate | reflexivity].
Qed.

Lemma remove_dot_digits (s : string) :
  all_chars is_digit s = true -> remove_char "." s = s.
Proof.
  induction s as [|c s IH]; [reflexivity|].
  simpl. intros H. apply andb_true_iff in H as [Hc Hs].
  now rewrite (digit_not_dot _ Hc), IH.
Qed.

Lemma remove_dots_version (X Y Z : string) :
  all_chars is_digit X = true -> all_chars is_digit Y = true ->
  all_chars is_digit Z = true ->
  remove_char "." (X ++ "." ++ Y ++ "." ++ Z) = X ++ Y ++ Z.
Proof.
  intros HX HY HZ.
  rewrite !remove_char_app.
  rewrite (remove_dot_digits X HX), (remove_dot_digits Y HY),
    (remove_dot_digits Z HZ).
  reflexivity.
Qed.

Lemma digit_not_space c : is_digit c = true -> is_space c = false.
Proof.
  unfold is_digit, is_space. intros H.
  apply andb_true_iff in H as [H1 H2].
  apply Nat.leb_le in H1, H2.
  apply orb_false_iff. split; apply andb_false_iff.
  - right. apply Nat.leb_gt. lia.
  - right. apply Nat.leb_gt. lia.
Qed.

Lemma rstrip_no_space (s : string) :
  all_chars (fun c => negb (is_space c)) s = true -> rstrip s = s.
Proof.
  induction s as [|c s IH]; [reflexivity|].
  simpl. intros H. apply andb_true_iff in H as [Hc Hs].
  rewrite (IH Hs). apply negb_true_iff in Hc. rewrite Hc.
  now destruct s.
Qed.

Lemma digits_no_space (s : string) :
  all_chars is_digit s = true ->
  all_chars (fun c => negb (is_space c)) s = true.
Proof.
  apply all_chars_weaken. intros c H. now rewrite (digit_not_space _ H).
Qed.

Lemma digit_val_range c : is_digit c = true -> 0 <= digit_val c <= 9.
Proof.
  unfold is_digit, digit_val. intros H.
  apply andb_true_iff in H as [H1 H2].
  apply Nat.leb_le in H1, H2. lia.
Qed.

Lemma parse_digits_value (s : string) : forall b acc,
  all_chars is_digit s = true ->
  (b = true \/ is_empty s = false) ->
  parse_digits s b acc = Some (dec_value s acc).
Proof.
  induction s as [|c s IH]; intros b acc Hd Hb.
  - destruct Hb as [-> | Hb]; [reflexivity | discriminate].
  - simpl in *. apply andb_true_iff in Hd as [Hc Hs].
    rewrite Hc. apply IH; auto.
Qed.

Lemma dec_value_bounds (s : string) : forall acc,
  all_chars is_digit s = true -> 0 <= acc ->
  acc * 10 ^ Z.of_nat (String.length s) <= dec_value s acc
  /\ dec_value s acc < (acc + 1) * 10 ^ Z.of_nat (String.length s).
Proof.
  induction s as [|c s IH]; intros acc Hd Hacc.
  - simpl. lia.
  - simpl in Hd. apply andb_true_iff in Hd as [Hc Hs].
    pose proof (digit_val_range _ Hc) as Hv.
    cbn [dec_value String.length].
    destruct (IH (10 * acc + digit_val c) Hs ltac:(lia)) as [Hlo Hhi].
    rewrite Nat2Z.inj_succ, Z.pow_succ_r by lia.
    pose proof (Z.pow_pos_nonneg 10 (Z.of_nat (String.length s))
                  ltac:(lia) ltac:(lia)) as Hp.
    split; nia.
Qed.

(** [int(s)] on text that starts with neither blank nor sign and ends
    with no blank. *)
Lemma py_int_unsigned c (s : string) :
  Ascii.eqb c "-" = false -> Ascii.eqb c "+" = false ->
  rstrip (lstrip (String c s)) = String c s ->
  py_int (String c s)
  = match parse_digits (String c s) false 0 with
    | Some v => Ok v
    | None => Raise (invalid_literal (String c s))
    end.
Proof.
  intros Hm Hp Hs. unfold py_int. rewrite Hs.
  destruct c as [[] [] [] [] [] [] [] []]; try reflexivity;
    cbv in Hm, Hp; discriminate.
Qed.

(** [int(s)] on a run of digits. *)
Lemma py_int_digits (s : string) :
  digits s -> py_int s = Ok (dec_value s 0).
Proof.
  intros [Hne Hd]. destruct s as [|c s]; [discriminate|].
  pose proof Hd as Hd'. simpl in Hd'.
  apply andb_true_iff in Hd' as [Hc Hs].
  rewrite py_int_unsigned.
  - now rewrite (parse_digits_value (String c s) false 0 Hd
                   (or_intror eq_refl)).
  - destruct (Ascii.eqb_spec c "-"); [subst; discriminate | reflexivity].
  - destruct (Ascii.eqb_spec c "+"); [subst; discriminate | reflexivity].
  - assert (lstrip (String c s) = String c s) as ->
      by (simpl; now rewrite (digit_not_space _ Hc)).
    apply rstrip_no_space, digits_no_space, Hd.
Qed.



(** ** The reader of the probe *)

Lemma read_output_stops (line : string) (post : list string) failure :
  contains "Version" line = true ->
  forall pre,
    read_output (pre ++ line :: post) failure = read_output (pre ++ [line]) None.
Proof.
  intros Hline pre. induction pre as [|l pre IH].
  - cbn [app read_output]. now rewrite Hline.
  - cbn [app read_output]. destruct (contains "Version" l); [reflexivity|].
    now rewrite IH.
Qed.

Lemma read_output_prefix (line : string) (pre : list string) :
  contains "Version" line = true ->
  Forall (fun l => contains "Version" l = false) pre ->
  read_output (pre ++ [line]) None = (pre ++ [line])%list.
Proof.
  intros Hline Hpre. induction Hpre as [|l pre Hl _ IH].
  - cbn [app read_output]. now rewrite Hline.
  - cbn [app read_output]. now rewrite Hl, IH.
Qed.

(** X2.  The probe reads the solver's output up to the first line that
    mentions "Version" and no further: what the solver prints after
    that line, and a failure of the pipe after it, change nothing. *)
Theorem probe_stops_at_first_version_line
    (pre : list string) (line : string) (post : list string)
    (failure : option exc) :
  contains "Version" line = true ->
  Forall (fun l => contains "Version" l = false) pre ->
  read_output (pre ++ line :: post) failure = (pre ++ [line])%list
  /\ get_packmol_version (PopenRuns (pre ++ line :: post) failure)
     = get_packmol_version (PopenRuns (pre ++ [line])%list None)
  /\ (re_search_version (py_join "" (pre ++ [line])%list) = None ->
      get_packmol_version (PopenRuns (pre ++ line :: post) failure)
      = Ok (probe_error_text
              (Exc ValueError ("Could not find version in packmol output: "
                                 ++ py_join "" (pre ++ [line])%list)))).
Proof.
  intros Hline Hpre.
  pose proof (read_output_stops line post failure Hline pre) as Hstop.
  pose proof (read_output_prefix line pre Hline Hpre) as Hpref.
  split; [congruence|]. split.
  - unfold get_packmol_version, probe_body. now rewrite Hstop.
  - intros Hnone. unfold get_packmol_version, probe_body.
    rewrite Hstop, Hpref, Hnone. reflexivity.
Qed.

Lemma probe_stops_at_first_version_line_witness :
  (contains "Version" line_unknown = true
   /\ Forall (fun l => contains "Version" l = false) lines_before)
  /\ read_output (lines_before ++ line_unknown :: lines_after)%list None
     = (lines_before ++ [line_unknown])%list
  /\ get_packmol_version
       (PopenRuns (lines_before ++ line_unknown :: lines_after)%list None)
     = get_packmol_version
         (PopenRuns (lines_before ++ [line_unknown])%list None)
  /\ (re_search_version
        (py_join "" (lines_before ++ [line_unknown])%list) = None ->
      get_packmol_version
        (PopenRuns (lines_before ++ line_unknown :: lines_after)%list None)
      = Ok (probe_error_text
              (Exc ValueError
                 ("Could not find version in packmol output: "
                    ++ py_join "" (lines_before ++ [line_unknown])%list)))).
Proof.
  assert (contains "Version" line_unknown = true
          /\ Forall (fun l => contains "Version" l = false) lines_before)
    as H by (split; [reflexivity | repeat constructor]).
  split; [exact H|].
  exact (probe_stops_at_first_version_line
           lines_before line_unknown lines_after None (proj1 H) (proj2 H)).
Defined.

(** ** Steps that record no event of a kind, and steps that fail *)

Lemma filter_snoc {A} (p : A -> bool) (l : list A) (x : A) :
  p x = false -> filter p (l ++ [x]) = filter p l.
Proof. intros H. rewrite filter_app. simpl. rewrite H. apply app_nil_r. Qed.

Lemma Quiet_ret {R A} p (a : A) : Quiet p (@ret R A a).
Proof. intros s r s' H. now injection H as <- <-. Qed.

Lemma Quiet_lift {R A} p (x : result A) : Quiet p (@lift R A x).
Proof. intros s r s' H. now injection H as <- <-. Qed.

Lemma Quiet_raise {R A} p (e : exc) : Quiet p (@raise R A e).
Proof. intros s r s' H. now injection H as <- <-. Qed.

Lemma Quiet_get_box {R} p : Quiet p (@get_box R).
Proof. intros s r s' H. now injection H as <- <-. Qed.

Lemma Quiet_get_trace {R} p : Quiet p (@get_trace R).
Proof. intros s r s' H. now injection H as <- <-. Qed.

Lemma Quiet_set_box {R} p b : Quiet p (@set_box R b).
Proof. intros s r s' H. now injection H as <- <-. Qed.

Lemma Quiet_set_atoms {R} p l : Quiet p (@set_atoms R l).
Proof. intros s r s' H. now injection H as <- <-. Qed.

Lemma Quiet_append_atoms {R} p a : Quiet p (@append_atoms R a).
Proof. intros s r s' H. now injection H as <- <-. Qed.

Lemma Quiet_emit {R} p (ev : event) : p ev = false -> Quiet p (@emit R ev).
Proof.
  intros Hp s r s' H. injection H as <- <-. simpl. now apply filter_snoc.
Qed.

Lemma Quiet_bind {R A B} p (m : M R A) (k : A -> M R B) :
  Quiet p m -> (forall a, Quiet p (k a)) -> Quiet p (bind m k).
Proof.
  intros Hm Hk s r s' H.
  apply bind_inv in H as [(e & H & _) | (a & s1 & H1 & H2)].
  - eapply Hm; eauto.
  - rewrite (Hk _ _ _ _ H2). eapply Hm; eauto.
Qed.

(** What follows a step that fails is never run. *)
Lemma Quiet_bind_fails {R A B} p (m : M R A) (k : A -> M R B) :
  Quiet p m -> Fails m -> Quiet p (bind m k).
Proof.
  intros Hm Hf s r s' H.
  apply bind_inv in H as [(e & H & _) | (a & s1 & H1 & H2)].
  - eapply Hm; eauto.
  - destruct (Hf _ _ _ H1) as (e & He). discriminate.
Qed.

Lemma Fails_bind_l {R A B} (m : M R A) (k : A -> M R B) :
  Fails m -> Fails (bind m k).
Proof.
  intros Hf s r s' H.
  apply bind_inv in H as [(e & H & ->) | (a & s1 & H1 & H2)]; [eauto|].
  destruct (Hf _ _ _ H1) as (e & He). discriminate.
Qed.

Lemma Fails_bind_r {R A B} (m : M R A) (k : A -> M R B) :
  (forall a, Fails (k a)) -> Fails (bind m k).
Proof.
  intros Hf s r s' H.
  apply bind_inv in H as [(e & H & ->) | (a & s1 & H1 & H2)]; [eauto|].
  eapply Hf; eauto.
Qed.

Lemma Quiet_for_enumerate {R A} p (body : Z -> A -> M R unit) (l : list A) :
  (forall i x, Quiet p (body i x)) -> forall i, Quiet p (for_enumerate i l body).
Proof.
  intros Hb. induction l as [|x l IH]; intros i; simpl.
  - apply Quiet_ret.
  - apply Quiet_bind; auto.
Qed.

Lemma Quiet_for_each {R A} p (body : A -> M R unit) (l : list A) :
  (forall x, Quiet p (body x)) -> Quiet p (for_each l body).
Proof.
  intros Hb. induction l as [|x l IH]; simpl.
  - apply Quiet_ret.
  - apply Quiet_bind; auto.
Qed.

Lemma Quiet_seed_rng np p sd :
  p (EvSeed sd) = false -> Quiet p (seed_rng np sd).
Proof.
  intros Hp s r s' H. unfold seed_rng in H.
  destruct (np_seed np sd); injection H as <- <-; [|reflexivity].
  simpl. now apply filter_snoc.
Qed.

Lemma Quiet_random_choice np p a size :
  (forall d, p (EvChoice d) = false) -> Quiet p (random_choice np a size).
Proof.
  intros Hp s r s' H. unfold random_choice in H.
  destruct (np_choice np (rng s) a size true None) as [[out | e] g];
    injection H as <- <-; [|reflexivity].
  simpl. now apply filter_snoc.
Qed.

Create HintDb quiet.
#[local] Hint Resolve Quiet_ret Quiet_lift Quiet_raise Quiet_get_box
  Quiet_get_trace Quiet_set_box Quiet_set_atoms Quiet_append_atoms : quiet.
#[local] Hint Extern 1 (Quiet _ (emit _)) =>
  apply Quiet_emit; reflexivity : quiet.
#[local] Hint Extern 1 (Quiet _ (seed_rng _ _)) =>
  apply Quiet_seed_rng; reflexivity : quiet.
#[local] Hint Extern 1 (Quiet _ (random_choice _ _ _)) =>
  apply Quiet_random_choice; reflexivity : quiet.

(** Take a step apart along its binds, loops and branches; the leaves
    are closed from the hint database, and what cannot be closed is
    left. *)
Ltac quiet_steps :=
  repeat first
    [ solve [auto with quiet]
    | match goal with
      | |- Quiet _ (let _ := _ in _) => cbv zeta
      end
    | apply Quiet_bind; [|intros ?]
    | apply Quiet_for_enumerate; intros ? ?
    | apply Quiet_for_each; intros ?
    | match goal with
      | |- Quiet _ (if ?c then _ else _) => destruct c
      | |- Quiet _ (match ?x with _ => _ end) => destruct x
      end ];
  auto with quiet.

Lemma Quiet_write_inputs {R} p self :
  (forall path a, p (EvWriteXYZ path a) = false) ->
  Quiet p (@write_inputs R self).
Proof.
  intros Hp. unfold write_inputs. quiet_steps; apply Quiet_emit, Hp.
Qed.

Lemma Quiet_write_conformers {R} p self :
  (forall path a, p (EvWriteXYZ path a) = false) ->
  Quiet p (@write_conformers R self).
Proof.
  intros Hp. unfold write_conformers. quiet_steps; apply Quiet_emit, Hp.
Qed.

Lemma Quiet_molar_volume {R} p env self :
  (forall l m, p (EvLog l m) = false) ->
  Quiet p (@_get_box_from_molar_volume R env self).
Proof.
  intros Hp. unfold _get_box_from_molar_volume. quiet_steps;
    apply Quiet_emit, Hp.
Qed.

Lemma Quiet_probe_version {R} p env :
  (forall l m, p (EvLog l m) = false) ->
  (forall argv, p (EvPopen argv) = false) ->
  Quiet p (@probe_version R env).
Proof.
  intros Hl Hp. unfold probe_version. quiet_steps; apply Quiet_emit; auto.
Qed.

Lemma Quiet_pbc_branch {R} p self v :
  (forall l m, p (EvLog l m) = false) ->
  Quiet p (@pbc_branch R self v).
Proof.
  intros Hp. unfold pbc_branch. quiet_steps; apply Quiet_emit, Hp.
Qed.

Lemma Quiet_check_call {R} p env cmd cwd :
  p (EvCheckCall cmd cwd) = false -> Quiet p (@check_call R env cmd cwd).
Proof.
  intros Hp. unfold check_call. quiet_steps; now apply Quiet_emit.
Qed.

Lemma Quiet_load_result {R} p env self path :
  p (EvRead path) = false -> Quiet p (@load_result R env self path).
Proof.
  intros Hp. unfold load_result. quiet_steps; now apply Quiet_emit.
Qed.

Lemma Quiet_species_loop np p self sb counts :
  (forall d, p (EvChoice d) = false) ->
  forall jdx file, Quiet p (species_loop np self jdx counts sb file).
Proof.
  intros Hp. induction counts as [|c counts IH]; intros jdx file; simpl.
  - apply Quiet_ret.
  - quiet_steps. now apply Quiet_random_choice.
Qed.

#[local] Hint Extern 2 (Quiet _ (write_inputs _)) =>
  apply Quiet_write_inputs; reflexivity : quiet.
#[local] Hint Extern 2 (Quiet _ (write_conformers _)) =>
  apply Quiet_write_conformers; reflexivity : quiet.
#[local] Hint Extern 2 (Quiet _ (_get_box_from_molar_volume _ _)) =>
  apply Quiet_molar_volume; reflexivity : quiet.
#[local] Hint Extern 2 (Quiet _ (probe_version _)) =>
  apply Quiet_probe_version; reflexivity : quiet.
#[local] Hint Extern 2 (Quiet _ (pbc_branch _ _)) =>
  apply Quiet_pbc_branch; reflexivity : quiet.
#[local] Hint Extern 2 (Quiet _ (check_call _ _ _)) =>
  apply Quiet_check_call; reflexivity : quiet.
#[local] Hint Extern 2 (Quiet _ (load_result _ _ _)) =>
  apply Quiet_load_result; reflexivity : quiet.
#[local] Hint Extern 2 (Quiet _ (species_loop _ _ _ _ _ _)) =>
  apply Quiet_species_loop; reflexivity : quiet.

Lemma scripts_written_filter (t : list event) :
  scripts_written (filter is_write_text t) = scripts_written t.
Proof.
  induction t as [|ev t IH]; [reflexivity|].
  destruct ev; simpl; now rewrite ?IH.
Qed.

Lemma xyz_written_filter (t : list event) :
  xyz_written (filter is_write_xyz t) = xyz_written t.
Proof.
  induction t as [|ev t IH]; [reflexivity|].
  destruct ev; simpl; now rewrite ?IH.
Qed.

Lemma xyz_written_app (a b : list event) :
  xyz_written (a ++ b) = (xyz_written a ++ xyz_written b)%list.
Proof.
  induction a as [|ev a IH]; [reflexivity|].
  destruct ev; simpl; rewrite IH; reflexivity.
Qed.

(** ** A probe that fails *)

Lemma rstrip_keeps_head (c : ascii) (rest : string) :
  is_space c = false -> exists r, rstrip (String c rest) = String c r.
Proof.
  intros H. cbn [rstrip]. destruct (rstrip rest); rewrite ?H; eauto.
Qed.

(** The error text of the probe is no number. *)
Lemma py_int_error_text (msg : string) :
  py_int (remove_char "." ("An error occurred: " ++ msg))
  = Raise (invalid_literal (remove_char "." ("An error occurred: " ++ msg))).
Proof.
  change (remove_char "." ("An error occurred: " ++ msg))
    with (String "A" ("n error occurred: " ++ remove_char "." msg)).
  set (s := "n error occurred: " ++ remove_char "." msg).
  unfold py_int.
  change (lstrip (String "A" s)) with (String "A" s).
  destruct (rstrip_keeps_head "A" s eq_refl) as (r & ->).
  reflexivity.
Qed.

Lemma probe_version_fails {R} (env : Env) (e : exc) (s : State R) :
  probe_body (banner env) = Raise e ->
  probe_version env s
  = (Raise (invalid_literal (remove_char "." (probe_error_text e))),
     logged s (probe_log (probe_error_text e))).
Proof.
  intros Hbody. unfold probe_version, bind, emit, lift, get_packmol_version.
  rewrite Hbody. cbn [try_except self_box self_atoms trace rng].
  unfold probe_error_text. rewrite py_int_error_text.
  unfold logged, probe_log. now rewrite <- app_assoc.
Qed.

Lemma Fails_probe_version {R} (env : Env) (e : exc) :
  probe_body (banner env) = Raise e -> Fails (@probe_version R env).
Proof.
  intros Hbody s r s' H. rewrite (probe_version_fails env e s Hbody) in H.
  injection H as <- _. eauto.
Qed.

Lemma run_stops_at_probe {R} p (env : Env) (e : exc) (self : Packmol) :
  probe_body (banner env) = Raise e ->
  p (EvMkdir (structures self)) = false ->
  (forall path a, p (EvWriteXYZ path a) = false) ->
  (forall l m, p (EvLog l m) = false) ->
  (forall argv, p (EvPopen argv) = false) ->
  Fails (@run R env self) /\ Quiet p (@run R env self).
Proof.
  intros Hbody Hmk Hxyz Hlog Hpop.
  pose proof (@Fails_probe_version R env e Hbody) as Hf.
  unfold run. split.
  - do 3 (apply Fails_bind_r; intros ?). now apply Fails_bind_l.
  - apply Quiet_bind; [now apply Quiet_emit | intros ?].
    apply Quiet_bind; [now apply Quiet_write_inputs | intros ?].
    apply Quiet_bind; [now apply Quiet_molar_volume | intros ?].
    apply Quiet_bind_fails; [now apply Quiet_probe_version | exact Hf].
Qed.

Lemma multi_run_stops_at_probe np p (env : Env) (e : exc) (m : MultiPackmol) :
  probe_body (banner env) = Raise e ->
  p (EvSeed (seed m)) = false ->
  (forall l msg, p (EvLog l msg) = false) ->
  (forall argv, p (EvPopen argv) = false) ->
  Fails (multi_run np env m) /\ Quiet p (multi_run np env m).
Proof.
  intros Hbody Hseed Hlog Hpop.
  pose proof (@Fails_probe_version (rng_state np) env e Hbody) as Hf.
  unfold multi_run. cbv zeta. split.
  - do 3 (apply Fails_bind_r; intros ?). now apply Fails_bind_l.
  - apply Quiet_bind; [now apply Quiet_seed_rng | intros ?].
    apply Quiet_bind; [apply Quiet_set_atoms | intros ?].
    apply Quiet_bind; [now apply Quiet_molar_volume | intros ?].
    apply Quiet_bind_fails; [now apply Quiet_probe_version | exact Hf].
Qed.

(** X3.  When the body of the probe raises (no solver on the path, or no
    version in its output), the text the probe returns is no number:
    [int(...)] raises a [ValueError] right after the text has been
    logged, and the run ends there.  No script is written, the solver is
    never called and no structure is returned; the multi-configuration
    run has not yet written a coordinate file either. *)
Theorem failed_probe_stops_run (env : Env) (e : exc) :
  probe_body (banner env) = Raise e ->
  (forall (R : Type) (s : State R),
      exists msg,
        probe_version env s
        = (Raise (Exc ValueError msg),
           logged s (probe_log (probe_error_text e))))
  /\ (forall (self : Packmol) r st',
        run env self (init_state self tt) = (r, st') ->
        (exists e', r = Raise e')
        /\ scripts_written (trace st') = []
        /\ filter is_check_call (trace st') = []
        /\ self_atoms st' = [])
  /\ (forall np (m : MultiPackmol) g r st',
        multi_run np env m (init_state (base m) g) = (r, st') ->
        (exists e', r = Raise e')
        /\ scripts_written (trace st') = []
        /\ filter is_check_call (trace st') = []
        /\ xyz_written (trace st') = []
        /\ self_atoms st' = []).
Proof.
  intros Hbody. split; [|split].
  - intros R s. eexists. now apply probe_version_fails.
  - intros self r st' Hrun.
    destruct (@run_stops_at_probe unit is_check_call env e self Hbody
                eq_refl (fun _ _ => eq_refl) (fun _ _ => eq_refl)
                (fun _ => eq_refl)) as [Hf Hq].
    destruct (Hf _ _ _ Hrun) as (e' & ->).
    split; [eauto|].
    destruct (run_inv _ _ _ _ _ Hrun)
      as (_ & _ & [(e1 & _ & Ha & Hs)
                  | (v & br & f & _ & _ & _ & _ & Hs
                     & [(e1 & _ & Ha) | (? & _)])]); try discriminate.
    + split; [exact Hs|]. split; [exact (Hq _ _ _ Hrun) | exact Ha].
    + exfalso.
      destruct (@run_stops_at_probe unit is_write_text env e self Hbody
                  eq_refl (fun _ _ => eq_refl) (fun _ _ => eq_refl)
                  (fun _ => eq_refl)) as [_ Hq'].
      pose proof (f_equal scripts_written (Hq' _ _ _ Hrun)) as Hno.
      rewrite !scripts_written_filter, Hs in Hno. simpl in Hno.
      discriminate.
  - intros np m g r st' Hrun.
    destruct (multi_run_stops_at_probe np is_check_call env e m Hbody
                eq_refl (fun _ _ => eq_refl) (fun _ => eq_refl)) as [Hf Hq].
    destruct (multi_run_stops_at_probe np is_write_text env e m Hbody
                eq_refl (fun _ _ => eq_refl) (fun _ => eq_refl)) as [_ Hq1].
    destruct (multi_run_stops_at_probe np is_write_xyz env e m Hbody
                eq_refl (fun _ _ => eq_refl) (fun _ => eq_refl)) as [_ Hq2].
    destruct (Hf _ _ _ Hrun) as (e' & ->).
    split; [eauto|].
    pose proof (f_equal scripts_written (Hq1 _ _ _ Hrun)) as Hs.
    rewrite !scripts_written_filter in Hs.
    pose proof (f_equal xyz_written (Hq2 _ _ _ Hrun)) as Hx.
    rewrite !xyz_written_filter in Hx.
    split; [exact Hs|]. split; [exact (Hq _ _ _ Hrun)|].
    split; [exact Hx|].
    destruct (multi_run_inv _ _ _ _ _ _ Hrun)
      as [(e1 & _ & _ & _ & [Ha | Ha])
         | (g0 & v & br & done & anew & tail & _ & _ & Hv & _)];
      [exact Ha | exact Ha |].
    exfalso. unfold probed_version, get_packmol_version in Hv.
    rewrite Hbody in Hv. cbn [try_except rbind] in Hv.
    change ("An error occurred: " ++ str_exc e) with (probe_error_text e) in Hv.
    unfold probe_error_text in Hv. rewrite py_int_error_text in Hv.
    discriminate.
Qed.

Lemma failed_probe_stops_run_witness :
  probe_body (banner env_no_solver)
  = Raise (Exc OSError "[Errno 2] No such file or directory: 'packmol'")
  /\ get_packmol_version (banner env_no_solver)
     = Ok "An error occurred: [Errno 2] No such file or directory: 'packmol'"
  /\ (exists e', fst (run env_no_solver cube10 (init_state cube10 tt))
                 = Raise e')
  /\ scripts_written
       (trace (snd (run env_no_solver cube10 (init_state cube10 tt)))) = []
  /\ filter is_check_call
       (trace (snd (run env_no_solver cube10 (init_state cube10 tt)))) = []
  /\ self_atoms (snd (run env_no_solver cube10 (init_state cube10 tt))) = [].
Proof.
  split; [reflexivity|]. split; [reflexivity|].
  exact (proj1 (proj2 (failed_probe_stops_run env_no_solver
                         (Exc OSError
                            "[Errno 2] No such file or directory: 'packmol'")
                         eq_refl))
           cube10 _ _ (surjective_pairing _)).
Defined.

(** ** The effects of each step *)

Lemma bind_ok {R A B} (m : M R A) (k : A -> M R B) s b s' :
  bind m k s = (Ok b, s') ->
  exists a s1, m s = (Ok a, s1) /\ k a s1 = (Ok b, s').
Proof.
  intros H. apply bind_inv in H as [(e & _ & He) | H]; [discriminate | exact H].
Qed.

Lemma logged_nil {R} (s : State R) : logged s [] = s.
Proof. destruct s. unfold logged. simpl. now rewrite app_nil_r. Qed.

Lemma logged_logged {R} (s : State R) (a b : list event) :
  logged (logged s a) b = logged s (a ++ b).
Proof. unfold logged. simpl. now rewrite app_assoc. Qed.

Lemma py_index_spec {A} (l : list A) (i : Z) :
  match py_index l i with
  | Ok x => at_index l i x
  | Raise e =>
      e = Exc IndexError "list index out of range"
      /\ (i < - Z.of_nat (List.length l) \/ Z.of_nat (List.length l) <= i)
  end.
Proof.
  unfold py_index, at_index.
  destruct (i <? 0) eqn:Ei.
  - apply Z.ltb_lt in Ei.
    destruct (0 <=? i + Z.of_nat (List.length l)) eqn:E1; simpl.
    + apply Z.leb_le in E1.
      assert ((i + Z.of_nat (List.length l) <? Z.of_nat (List.length l)) = true)
        as -> by (apply Z.ltb_lt; lia).
      destruct (nth_error l (Z.to_nat (i + Z.of_nat (List.length l))))
        as [x|] eqn:En.
      * right. split; [exact Ei|]. rewrite nth_error_rev.
        assert ((Z.to_nat (- i - 1) <? List.length l)%nat = true) as ->
          by (apply Nat.ltb_lt; lia).
        rewrite <- En. f_equal. lia.
      * apply nth_error_None in En. lia.
    + apply Z.leb_gt in E1. split; [reflexivity | lia].
  - apply Z.ltb_ge in Ei.
    assert ((0 <=? i) = true) as -> by now apply Z.leb_le.
    destruct (i <? Z.of_nat (List.length l)) eqn:E2; simpl.
    + apply Z.ltb_lt in E2.
      destruct (nth_error l (Z.to_nat i)) as [x|] eqn:En.
      * left. split; [exact Ei | reflexivity].
      * apply nth_error_None in En. lia.
    + apply Z.ltb_ge in E2. split; [reflexivity | lia].
Qed.

Lemma py_index_at {A} (l : list A) (i : Z) x :
  py_index l i = Ok x -> at_index l i x.
Proof. intros H. pose proof (py_index_spec l i) as S. now rewrite H in S. Qed.

Lemma py_index_raises {A} (l : list A) (i : Z) e :
  py_index l i = Raise e -> e = Exc IndexError "list index out of range".
Proof. intros H. pose proof (py_index_spec l i) as S. rewrite H in S. apply S. Qed.

Lemma selected_chosen self idx pool a :
  selected self idx pool = Ok a -> chosen self idx pool a.
Proof.
  unfold selected, chosen. destruct (data_ids self) as [ids|].
  - destruct (py_index ids idx) as [i|e] eqn:Ei; [|discriminate].
    cbn [rbind]. intros H. exists i. split; now apply py_index_at.
  - apply py_index_at.
Qed.

Lemma selected_raises self idx pool e :
  selected self idx pool = Raise e ->
  e = Exc IndexError "list index out of range".
Proof.
  unfold selected. destruct (data_ids self) as [ids|].
  - destruct (py_index ids idx) as [i|e'] eqn:Ei; cbn [rbind].
    + apply py_index_raises.
    + intros H. injection H as <-. now apply py_index_raises in Ei.
  - apply py_index_raises.
Qed.

(** Lines 116-118, from species [i] on: the files written, and where the
    loop stopped. *)
Lemma write_inputs_from {R} (self : Packmol) (l : list (list Atoms)) :
  forall i (s s' : State R) r,
    for_enumerate i l (fun idx atoms =>
      bind (lift (selected self idx atoms))
           (fun a => emit (EvWriteXYZ (species_path self idx) a))) s
    = (r, s') ->
    exists files,
      s' = logged s (xyz_events files)
      /\ Forall2 (fun ip pa => fst pa = species_path self (fst ip)
                               /\ selected self (fst ip) (snd ip)
                                  = Ok (snd pa))
                 (firstn (List.length files) (enumerate_from i l)) files
      /\ match r with
         | Ok _ => List.length files = List.length l
         | Raise e =>
             exists idx pool,
               nth_error (enumerate_from i l) (List.length files)
               = Some (idx, pool)
               /\ selected self idx pool = Raise e
         end.
Proof.
  induction l as [|pool l IH]; intros i s s' r H.
  - injection H as <- <-. exists []. rewrite logged_nil.
    repeat split. constructor.
  - cbn [for_enumerate] in H.
    apply bind_inv in H as [(e & Hm & ->) | ([] & s1 & Hm & H)].
    + unfold bind, lift in Hm.
      destruct (selected self i pool) as [a|e'] eqn:Es; [discriminate|].
      injection Hm as <- <-. exists []. rewrite logged_nil.
      split; [reflexivity|]. split; [constructor|].
      exists i, pool. split; [reflexivity | exact Es].
    + unfold bind, lift in Hm.
      destruct (selected self i pool) as [a|e'] eqn:Es; [|discriminate].
      injection Hm as <-.
      destruct (IH _ _ _ _ H) as (files & -> & HF & Hr).
      exists ((species_path self i, a) :: files).
      split; [|split].
      * unfold emit. fold (logged s [EvWriteXYZ (species_path self i) a]).
        now rewrite logged_logged.
      * cbn [List.length firstn enumerate_from]. constructor; [|exact HF].
        split; [reflexivity | exact Es].
      * destruct r as [u|e]; cbn [List.length]; [now rewrite Hr|].
        exact Hr.
Qed.

Lemma write_inputs_inv {R} (self : Packmol) (s s' : State R) r :
  write_inputs self s = (r, s') ->
  exists files,
    s' = logged s (xyz_events files)
    /\ Forall2 (fun ip pa => fst pa = species_path self (fst ip)
                             /\ selected self (fst ip) (snd ip) = Ok (snd pa))
               (firstn (List.length files) (enumerate_from 0 (data self)))
               files
    /\ match r with
       | Ok _ => List.length files = List.length (data self)
       | Raise e =>
           exists idx pool,
             nth_error (enumerate_from 0 (data self)) (List.length files)
             = Some (idx, pool)
             /\ selected self idx pool = Raise e
       end.
Proof. apply write_inputs_from. Qed.

Lemma molar_volume_inv {R} env self (s s' : State R) r :
  _get_box_from_molar_volume env self s = (r, s') ->
  match density self with
  | None => r = Ok tt /\ s' = s
  | Some d =>
      match get_box_from_density env (data self) (count self) d with
      | Ok b =>
          r = Ok tt
          /\ s' = mkState b (self_atoms s)
                          (trace s ++ [EvLog "info" ("estimated box size: "
                                                       ++ box_repr b)])
                          (rng s)
      | Raise e => r = Raise e /\ s' = s
      end
  end.
Proof.
  unfold _get_box_from_molar_volume. destruct (density self) as [d|].
  - unfold bind, lift, set_box, emit.
    destruct (get_box_from_density env (data self) (count self) d);
      intros H; injection H as <- <-; split; reflexivity.
  - intros H. injection H as <- <-. split; reflexivity.
Qed.

Lemma probe_version_inv {R} env (s s' : State R) r :
  probe_version env s = (r, s') ->
  exists text,
    get_packmol_version (banner env) = Ok text
    /\ s' = logged s (probe_log text)
    /\ r = py_int (remove_char "." text).
Proof.
  unfold probe_version, bind, emit, lift.
  assert (exists text, get_packmol_version (banner env) = Ok text)
    as (text & Ht).
  { unfold get_packmol_version.
    destruct (probe_body (banner env)); cbn [try_except]; eauto. }
  rewrite Ht. cbn [self_box self_atoms trace rng].
  intros H. exists text. split; [reflexivity|].
  unfold logged, probe_log.
  destruct (py_int (remove_char "." text)); injection H as <- <-;
    rewrite <- app_assoc; split; reflexivity.
Qed.

Lemma pbc_branch_trace {R} self v (s s' : State R) r :
  pbc_branch self v s = (r, s') ->
  match r with
  | Ok _ => s' = logged s (old_warning self v)
  | Raise _ => s' = s
  end.
Proof.
  unfold pbc_branch, old_warning, bind, get_box, lift, emit, ret.
  destruct (pbc self); cbn [andb].
  - destruct (20150 <=? v) eqn:Ev.
    + assert ((v <? 20150) = false) as -> by (apply Z.leb_le in Ev; lia).
      destruct (box_str (self_box s)); intros H; injection H as <- <-;
        [now rewrite logged_nil | reflexivity].
    + assert ((v <? 20150) = true) as -> by (apply Z.leb_gt in Ev; lia).
      destruct (shrink_box (self_box s) (tolerance self));
        intros H; injection H as <- <-; reflexivity.
  - intros H. injection H as <- <-. now rewrite logged_nil.
Qed.

Lemma check_call_inv {R} env cmd cwd (s s' : State R) r :
  check_call env cmd cwd s = (r, s') ->
  s' = logged s [EvCheckCall cmd cwd]
  /\ r = (if solver_exit env (trace s) =? 0 then Ok tt
          else Raise (called_process_error cmd (solver_exit env (trace s)))).
Proof.
  unfold check_call, bind, get_trace, emit, ret, raise.
  destruct (solver_exit env (trace s) =? 0); intros H;
    injection H as <- <-; split; reflexivity.
Qed.

Lemma load_result_inv {R} env self path (s s' : State R) r :
  load_result env self path s = (r, s') ->
  s' = logged s [EvRead path]
  /\ r = match ase_io_read env (trace s ++ [EvRead path]) path with
         | Ok a0 => Ok (stamped self (self_box s) a0)
         | Raise e => Raise e
         end.
Proof.
  unfold load_result, bind, get_trace, emit, lift, get_box, ret, stamped.
  cbn [self_box self_atoms trace rng].
  destruct (ase_io_read env (trace s ++ [EvRead path]) path);
    [destruct (pbc self)|]; intros H; injection H as <- <-;
    split; reflexivity.
Qed.

Lemma emit_inv {R} (ev : event) (s s' : State R) r :
  emit ev s = (r, s') -> r = Ok tt /\ s' = logged s [ev].
Proof. intros H. injection H as <- <-. split; reflexivity. Qed.

Lemma chosen_files self (l : list (Z * list Atoms)) files :
  Forall2 (fun ip pa => fst pa = species_path self (fst ip)
                        /\ selected self (fst ip) (snd ip) = Ok (snd pa))
          l files ->
  Forall2 (fun ip pa => fst pa = species_path self (fst ip)
                        /\ chosen self (fst ip) (snd ip) (snd pa))
          l files.
Proof.
  induction 1 as [|ip pa l files [Hp Hs] _ IH]; constructor; [|exact IH].
  split; [exact Hp | now apply selected_chosen].
Qed.

(** Bring nested appends to one shape. *)
Ltac flat_lists :=
  repeat (progress (rewrite <- ?app_assoc; cbn [app])).
Ltac flat_lists_in H :=
  repeat (progress (rewrite <- ?app_assoc in H; cbn [app] in H)).

(** ** A run that completes *)

(** What a single-configuration run that completes has done. *)
Lemma run_completed {R} (env : Env) (self : Packmol) (g : R)
    (st' : State R) :
  run env self (init_state self g) = (Ok tt, st') ->
  exists files text v file a0 before,
    Forall2 (fun ip pa => fst pa = species_path self (fst ip)
                          /\ chosen self (fst ip) (snd ip) (snd pa))
            (enumerate_from 0 (data self)) files
    /\ resolved_box env self = Ok (self_box st')
    /\ get_packmol_version (banner env) = Ok text
    /\ py_int (remove_char "." text) = Ok v
    /\ before
       = (EvMkdir (structures self) :: xyz_events files
          ++ est_log self (self_box st')
          ++ probe_log text
          ++ old_warning self v
          ++ [EvWriteText (structures self ++ "/packmole.inp") file])%list
    /\ trace st'
       = (before
          ++ [EvCheckCall "packmol < packmole.inp" (structures self);
              EvRead (structures self ++ "/mixture.xyz")])%list
    /\ solver_exit env before = 0
    /\ ase_io_read env (trace st') (structures self ++ "/mixture.xyz")
       = Ok a0
    /\ self_atoms st' = [stamped self (self_box st') a0]
    /\ rng st' = g.
Proof.
  unfold run. intros H.
  apply bind_ok in H as ([] & s1 & H1 & H).
  apply emit_inv in H1 as [_ ->].
  apply bind_ok in H as ([] & s2 & H2 & H).
  apply write_inputs_inv in H2 as (files & -> & HF & Hlen).
  rewrite Hlen, <- (enumerate_from_length (data self) 0), firstn_all in HF.
  apply chosen_files in HF.
  apply bind_ok in H as ([] & s3 & H3 & H).
  apply molar_volume_inv in H3.
  apply bind_ok in H as (v & s4 & H4 & H).
  apply probe_version_inv in H4 as (text & Ht & -> & Hv).
  apply bind_ok in H as (br & s5 & H5 & H).
  apply pbc_branch_trace in H5. subst s5.
  apply bind_ok in H as (file & s6 & H6 & H).
  injection H6 as _ <-.
  apply bind_ok in H as ([] & s7 & H7 & H).
  apply emit_inv in H7 as [_ ->].
  apply bind_ok in H as ([] & s8 & H8 & H).
  apply check_call_inv in H8 as [-> Hexit].
  apply bind_ok in H as (atoms & s9 & H9 & H).
  apply load_result_inv in H9 as [-> Hread].
  injection H as <-.
  cbn [trace self_box self_atoms rng logged] in *.
  destruct (ase_io_read env _ _) as [a0|] eqn:Ea; [|discriminate].
  injection Hread as ->.
  destruct (solver_exit env _ =? 0) eqn:Ex; [|discriminate].
  apply Z.eqb_eq in Ex.
  unfold resolved_box, est_log.
  destruct (density self) as [d|].
  - destruct (get_box_from_density env (data self) (count self) d) as [b|];
      destruct H3 as [H3 ->]; [|discriminate].
    cbn [trace self_box self_atoms rng init_state] in *.
    flat_lists_in Ex. flat_lists_in Ea.
    exists files, text, v, file, a0. eexists.
    split; [exact HF|].
    split; [reflexivity|]. split; [exact Ht|]. split; [now rewrite Hv|].
    split; [reflexivity|].
    split; [|split; [|split; [|split; reflexivity]]]; flat_lists;
      [reflexivity | exact Ex | reflexivity].
  - destruct H3 as [_ ->].
    cbn [trace self_box self_atoms rng init_state] in *.
    flat_lists_in Ex. flat_lists_in Ea.
    exists files, text, v, file, a0. eexists.
    split; [exact HF|].
    split; [reflexivity|]. split; [exact Ht|]. split; [now rewrite Hv|].
    split; [reflexivity|].
    split; [|split; [|split; [|split; reflexivity]]]; flat_lists;
      [reflexivity | exact Ex | reflexivity].
Qed.



(** ** The steps of the multi-configuration run *)

Lemma seed_rng_eq np sd (s s' : State (rng_state np)) r :
  seed_rng np sd s = (r, s') ->
  match np_seed np sd with
  | Ok g => r = Ok tt
            /\ s' = mkState (self_box s) (self_atoms s)
                            (trace s ++ [EvSeed sd]) g
  | Raise e => r = Raise e /\ s' = s
  end.
Proof.
  unfold seed_rng. destruct (np_seed np sd); intros H;
    injection H as <- <-; split; reflexivity.
Qed.

Lemma write_pool_eq {R} (self : Packmol) (idx : Z) (pool : list Atoms) :
  forall j (s : State R),
    for_enumerate j pool (fun jdx atoms =>
      emit (EvWriteXYZ (conformer_path self idx jdx) atoms)) s
    = (Ok tt,
       logged s (xyz_events
                   (map (fun ja => (conformer_path self idx (fst ja), snd ja))
                        (enumerate_from j pool)))).
Proof.
  induction pool as [|a pool IH]; intros j s.
  - simpl. unfold ret. now rewrite logged_nil.
  - cbn [for_enumerate enumerate_from map xyz_events].
    unfold bind at 1. unfold emit at 1. rewrite IH.
    fold (logged s [EvWriteXYZ (conformer_path self idx j) a]).
    now rewrite logged_logged.
Qed.

Lemma xyz_events_app (a b : list (string * Atoms)) :
  xyz_events (a ++ b) = (xyz_events a ++ xyz_events b)%list.
Proof. apply map_app. Qed.

Lemma write_species_eq {R} (self : Packmol) (l : list (list Atoms)) :
  forall i (s : State R),
    for_enumerate i l (fun idx atoms_list =>
      for_enumerate 0 atoms_list (fun jdx atoms =>
        emit (EvWriteXYZ (conformer_path self idx jdx) atoms))) s
    = (Ok tt,
       logged s (xyz_events
                   (flat_map (fun ip =>
                      map (fun ja => (conformer_path self (fst ip) (fst ja),
                                      snd ja))
                          (enumerate_from 0 (snd ip)))
                      (enumerate_from i l)))).
Proof.
  induction l as [|pool l IH]; intros i s.
  - simpl. unfold ret. now rewrite logged_nil.
  - cbn [for_enumerate enumerate_from flat_map].
    unfold bind at 1. rewrite write_pool_eq, IH.
    now rewrite logged_logged, xyz_events_app.
Qed.

Lemma write_conformers_eq {R} (self : Packmol) (s : State R) :
  write_conformers self s
  = (Ok tt, logged s (xyz_events (conformer_files self))).
Proof. apply write_species_eq. Qed.

Lemma random_choice_eq np a size (s s' : State (rng_state np)) r :
  random_choice np a size s = (r, s') ->
  self_box s' = self_box s /\ self_atoms s' = self_atoms s
  /\ match r with
     | Ok out => trace s' = (trace s ++ [EvChoice (mkDraw a size true None out)])%list
     | Raise _ => trace s' = trace s
     end.
Proof.
  unfold random_choice.
  destruct (np_choice np (rng s) a size true None) as [[out | e] g];
    intros H; injection H as <- <-; repeat split.
Qed.

(** Lines 264-272 record the draws and nothing else. *)
Lemma species_loop_trace np self sb counts : forall jdx file s r s',
  species_loop np self jdx counts sb file s = (r, s') ->
  self_box s' = self_box s /\ self_atoms s' = self_atoms s
  /\ exists ds, trace s' = (trace s ++ map EvChoice ds)%list.
Proof.
  induction counts as [|c counts IH]; intros jdx file s r s' H.
  - injection H as <- <-. repeat split. exists []. now rewrite app_nil_r.
  - cbn [species_loop] in H.
    apply bind_inv in H as [(e & Hm & ->) | (pool & s1 & Hm & H)].
    { injection Hm as _ <-. repeat split. exists []. now rewrite app_nil_r. }
    injection Hm as _ <-.
    apply bind_inv in H as [(e & Hm & ->) | (choices & s2 & Hm & H)].
    { apply random_choice_eq in Hm as (A & B & C).
      repeat split; auto. exists []. now rewrite app_nil_r. }
    apply random_choice_eq in Hm as (A & B & C).
    apply bind_inv in H as [(e & Hm & ->) | (file' & s3 & Hm & H)].
    { injection Hm as _ <-. repeat split; auto. eexists [_]. exact C. }
    injection Hm as _ <-.
    destruct (IH _ _ _ _ _ H) as (A' & B' & ds & C').
    repeat split; try congruence.
    eexists (_ :: ds). rewrite C', C, <- app_assoc. reflexivity.
Qed.

Lemma draws_made_choices (ds : list draw) : draws_made (map EvChoice ds) = ds.
Proof. induction ds; simpl; congruence. Qed.

Lemma append_atoms_inv {R} (a : Atoms) (s s' : State R) r :
  append_atoms a s = (r, s') ->
  r = Ok tt
  /\ s' = mkState (self_box s) (self_atoms s ++ [a]) (trace s) (rng s).
Proof. intros H. injection H as <- <-. split; reflexivity. Qed.

(** Every way one configuration can end. *)
Lemma configuration_exits np env self file_head sb idx
    (s s' : State (rng_state np)) r :
  configuration np env self file_head sb idx s = (r, s') ->
  self_box s' = self_box s
  /\ exists ds,
       (exists e, r = Raise e /\ self_atoms s' = self_atoms s
                  /\ trace s' = (trace s ++ map EvChoice ds)%list)
       \/ exists file,
            let before := (trace s ++ map EvChoice ds
                           ++ [EvWriteText (script_path self idx) file])%list in
            (r = Raise (called_process_error (solver_command idx)
                                             (solver_exit env before))
             /\ solver_exit env before <> 0
             /\ self_atoms s' = self_atoms s
             /\ trace s'
                = (before ++ [EvCheckCall (solver_command idx)
                                          (structures self)])%list)
            \/ (solver_exit env before = 0
                /\ trace s'
                   = (before ++ [EvCheckCall (solver_command idx)
                                             (structures self);
                                 EvRead (mixture_path self idx)])%list
                /\ ((exists e, r = Raise e /\ self_atoms s' = self_atoms s
                               /\ ase_io_read env (trace s')
                                              (mixture_path self idx)
                                  = Raise e)
                    \/ exists a0,
                         r = Ok tt
                         /\ ase_io_read env (trace s') (mixture_path self idx)
                            = Ok a0
                         /\ self_atoms s'
                            = (self_atoms s
                               ++ [stamped self (self_box s) a0])%list)).
Proof.
  unfold configuration, script_path, solver_command, mixture_path.
  intros H.
  apply bind_inv in H as [(e & Hm & ->) | (file & s1 & Hm & H)].
  { destruct (species_loop_trace _ _ _ _ _ _ _ _ _ Hm) as (A & B & ds & C).
    split; [exact A|]. exists ds. left. eauto. }
  destruct (species_loop_trace _ _ _ _ _ _ _ _ _ Hm) as (A & B & ds & C).
  clear Hm.
  apply bind_inv in H as [(e & Hm & ->) | ([] & s2 & Hm & H)];
    [discriminate|].
  apply emit_inv in Hm as [_ ->].
  apply bind_inv in H as [(e & Hm & ->) | ([] & s3 & Hm & H)].
  { apply check_call_inv in Hm as [-> Hr].
    cbn [logged trace self_box self_atoms] in *.
    split; [exact A|]. exists ds. right. exists file. cbv zeta. left.
    rewrite C, <- app_assoc in Hr.
    destruct (solver_exit env _ =? 0) eqn:Ex; [discriminate|].
    apply Z.eqb_neq in Ex. injection Hr as ->.
    repeat split; auto. now rewrite C, <- !app_assoc. }
  apply check_call_inv in Hm as [-> Hr].
  cbn [logged trace self_box self_atoms] in Hr.
  rewrite C, <- app_assoc in Hr.
  destruct (solver_exit env _ =? 0) eqn:Ex; [|discriminate].
  apply Z.eqb_eq in Ex. clear Hr.
  split.
  { apply bind_inv in H as [(e & Hm & ->) | (a & s4 & Hm & H)].
    - apply load_result_inv in Hm as [-> _]. exact A.
    - apply load_result_inv in Hm as [-> _].
      apply append_atoms_inv in H as [_ ->]. exact A. }
  exists ds. right. exists file. cbv zeta. right.
  split; [exact Ex|].
  apply bind_inv in H as [(e & Hm & ->) | (a & s4 & Hm & H)].
  - apply load_result_inv in Hm as [-> Hr].
    cbn [logged trace self_box self_atoms] in *.
    assert (((trace s1 ++ [EvWriteText (script_path self idx) file])
               ++ [EvCheckCall (solver_command idx) (structures self)])
              ++ [EvRead (mixture_path self idx)]
            = (trace s ++ map EvChoice ds
                 ++ [EvWriteText (script_path self idx) file])
                ++ [EvCheckCall (solver_command idx) (structures self);
                    EvRead (mixture_path self idx)])%list as Et
      by (rewrite C, <- !app_assoc; reflexivity).
    unfold script_path, solver_command, mixture_path in Et.
    rewrite Et in *. split; [reflexivity|]. left. exists e.
    destruct (ase_io_read env _ _) as [a0|e0]; [discriminate|].
    injection Hr as ->. auto.
  - apply load_result_inv in Hm as [-> Hr].
    apply append_atoms_inv in H as [-> ->].
    cbn [logged trace self_box self_atoms] in *.
    assert (((trace s1 ++ [EvWriteText (script_path self idx) file])
               ++ [EvCheckCall (solver_command idx) (structures self)])
              ++ [EvRead (mixture_path self idx)]
            = (trace s ++ map EvChoice ds
                 ++ [EvWriteText (script_path self idx) file])
                ++ [EvCheckCall (solver_command idx) (structures self);
                    EvRead (mixture_path self idx)])%list as Et
      by (rewrite C, <- !app_assoc; reflexivity).
    unfold script_path, solver_command, mixture_path in Et.
    rewrite Et in *. split; [reflexivity|]. right.
    destruct (ase_io_read env _ _) as [a0|e0]; [|discriminate].
    injection Hr as ->. exists a0. rewrite A, B. auto.
Qed.

Lemma molar_volume_ok {R} env self (s s' : State R) :
  _get_box_from_molar_volume env self s = (Ok tt, s') ->
  s' = mkState (self_box s') (self_atoms s)
               (trace s ++ est_log self (self_box s')) (rng s)
  /\ match density self with
     | Some d =>
         get_box_from_density env (data self) (count self) d
         = Ok (self_box s')
     | None => self_box s' = self_box s
     end.
Proof.
  intros H. apply molar_volume_inv in H. unfold est_log.
  destruct (density self) as [d|].
  - destruct (get_box_from_density env (data self) (count self) d) as [b|e];
      destruct H as [H ->]; [|discriminate]. split; reflexivity.
  - destruct H as [_ ->]. destruct s. simpl. now rewrite app_nil_r.
Qed.

Lemma molar_volume_raise {R} env self (s s' : State R) e :
  _get_box_from_molar_volume env self s = (Raise e, s') -> s' = s.
Proof.
  intros H. apply molar_volume_inv in H.
  destruct (density self) as [d|].
  - destruct (get_box_from_density env (data self) (count self) d);
      destruct H as [H ->]; [discriminate | reflexivity].
  - now destruct H as [_ ->].
Qed.

Lemma set_atoms_inv {R} (l : list Atoms) (s s' : State R) r :
  set_atoms l s = (r, s') ->
  r = Ok tt /\ s' = mkState (self_box s) l (trace s) (rng s).
Proof. intros H. injection H as <- <-. split; reflexivity. Qed.

Lemma prelude_est_log self b :
  Forall (fun ev => prelude_event ev = true) (est_log self b).
Proof. unfold est_log. destruct (density self); repeat constructor. Qed.

Lemma prelude_probe_log text :
  Forall (fun ev => prelude_event ev = true) (probe_log text).
Proof. repeat constructor. Qed.

Lemma prelude_old_warning self v :
  Forall (fun ev => prelude_event ev = true) (old_warning self v).
Proof. unfold old_warning. destruct (_ && _)%bool; repeat constructor. Qed.

(** The multi-configuration run up to its loop: either it ends in an
    exception, having recorded nothing but the seed, log lines and the
    probe, or it enters the loop with the directory made and every
    conformer written. *)
Lemma multi_run_prelude np env m (s s' : State (rng_state np)) r :
  multi_run np env m s = (r, s') ->
  (exists e t,
     r = Raise e
     /\ trace s' = (trace s ++ t)%list
     /\ Forall (fun ev => prelude_event ev = true) t
     /\ (self_atoms s' = self_atoms s \/ self_atoms s' = []))
  \/ exists g0 text v br s1,
       np_seed np (seed m) = Ok g0
       /\ get_packmol_version (banner env) = Ok text
       /\ py_int (remove_char "." text) = Ok v
       /\ match density (base m) with
          | Some d =>
              get_box_from_density env (data (base m)) (count (base m)) d
              = Ok (self_box s1)
          | None => self_box s1 = self_box s
          end
       /\ branch_outcome (base m) (self_box s1) v br
       /\ self_atoms s1 = []
       /\ rng s1 = g0
       /\ trace s1
          = (trace s
             ++ EvSeed (seed m) :: est_log (base m) (self_box s1)
             ++ probe_log text
             ++ old_warning (base m) v
             ++ EvMkdir (structures (base m))
                :: xyz_events (conformer_files (base m)))%list
       /\ for_each (py_range (n_configurations m))
                   (configuration np env (base m)
                      (multi_file_head (base m) ++ fst br) (snd br)) s1
          = (r, s').
Proof.
  unfold multi_run. cbv zeta. intros H.
  (* the seed *)
  apply bind_inv in H as [(e & Hm & ->) | ([] & s1 & Hm & H)].
  { apply seed_rng_eq in Hm. destruct (np_seed np (seed m)) as [g0|e0];
      destruct Hm as [Hm ->]; [discriminate|].
    left. exists e, []. rewrite app_nil_r. auto. }
  apply seed_rng_eq in Hm. destruct (np_seed np (seed m)) as [g0|e0] eqn:Eg;
    destruct Hm as [Hm ->]; [clear Hm | discriminate].
  (* self.atoms = [] *)
  apply bind_inv in H as [(e & Hm & ->) | ([] & s2 & Hm & H)];
    [discriminate|].
  apply set_atoms_inv in Hm as [_ ->].
  cbn [self_box self_atoms trace rng] in H.
  (* the density *)
  apply bind_inv in H as [(e & Hm & ->) | ([] & s3 & Hm & H)].
  { apply molar_volume_raise in Hm as ->. left. exists e, [EvSeed (seed m)].
    cbn [trace self_atoms]. repeat split; auto; repeat constructor. }
  apply molar_volume_ok in Hm as [Hs3 Hbox].
  cbn [self_box self_atoms trace rng] in Hs3.
  (* the probe *)
  apply bind_inv in H as [(e & Hm & ->) | (v & s4 & Hm & H)].
  { apply probe_version_inv in Hm as (text & Ht & -> & Hv).
    left. exists e, (EvSeed (seed m) :: est_log (base m) (self_box s3)
                       ++ probe_log text)%list.
    rewrite Hs3. cbn [logged trace self_atoms]. split; [reflexivity|].
    split; [now rewrite <- !app_assoc|]. split; [|now right].
    constructor; [reflexivity|].
    apply Forall_app. split; [apply prelude_est_log | apply prelude_probe_log]. }
  apply probe_version_inv in Hm as (text & Ht & -> & Hv).
  (* the branch *)
  apply bind_inv in H as [(e & Hm & ->) | (br & s5 & Hm & H)].
  { apply pbc_branch_trace in Hm. subst s'.
    left. exists e, (EvSeed (seed m) :: est_log (base m) (self_box s3)
                       ++ probe_log text)%list.
    rewrite Hs3. cbn [logged trace self_atoms]. split; [reflexivity|].
    split; [now rewrite <- !app_assoc|]. split; [|now right].
    constructor; [reflexivity|].
    apply Forall_app. split; [apply prelude_est_log | apply prelude_probe_log]. }
  pose proof (pbc_branch_ok _ _ _ _ _ Hm) as Hbr.
  apply pbc_branch_trace in Hm. subst s5.
  (* the directory and the conformers *)
  apply bind_inv in H as [(e & Hm & ->) | ([] & s6 & Hm & H)];
    [discriminate|].
  apply emit_inv in Hm as [_ ->].
  apply bind_inv in H as [(e & Hm & ->) | ([] & s7 & Hm & H)];
    rewrite write_conformers_eq in Hm; [discriminate|].
  injection Hm as <-.
  pose proof (f_equal self_atoms Hs3) as Ha.
  pose proof (f_equal trace Hs3) as Htr.
  pose proof (f_equal rng Hs3) as Hg.
  cbn [self_box self_atoms trace rng] in Ha, Htr, Hg.
  right. exists g0, text, v, br.
  exists (logged (logged (logged (logged s3 (probe_log text))
                                 (old_warning (base m) v))
                         [EvMkdir (structures (base m))])
                 (xyz_events (conformer_files (base m)))).
  split; [reflexivity|].
  split; [exact Ht|]. split; [now rewrite Hv|].
  cbn [logged self_box self_atoms trace rng].
  split; [exact Hbox|]. split; [exact Hbr|].
  split; [exact Ha|]. split; [exact Hg|].
  split; [|exact H].
  rewrite Htr. flat_lists. reflexivity.
Qed.

(** ** Kinds of events *)

Lemma filter_none {A} (p : A -> bool) (l : list A) :
  Forall (fun x => p x = false) l -> filter p l = [].
Proof.
  induction 1 as [|x l Hx _ IH]; [reflexivity|]. simpl. now rewrite Hx.
Qed.

Lemma scripts_none (t : list event) :
  Forall (fun ev => is_write_text ev = false) t -> scripts_written t = [].
Proof.
  intros H. rewrite <- scripts_written_filter. now rewrite filter_none.
Qed.

Lemma setup_of_prelude (t : list event) :
  Forall (fun ev => prelude_event ev = true) t ->
  Forall (fun ev => setup_event ev = true) t.
Proof.
  apply Forall_impl. intros ev H. destruct ev; try discriminate; reflexivity.
Qed.

Lemma setup_xyz (files : list (string * Atoms)) :
  Forall (fun ev => setup_event ev = true) (xyz_events files).
Proof.
  apply Forall_forall. intros ev H.
  apply in_map_iff in H as (d & <- & _). reflexivity.
Qed.

Lemma setup_choices_not (p : event -> bool) (t : list event) :
  (forall ev, setup_event ev = true -> p ev = false) ->
  Forall (fun ev => setup_event ev = true) t ->
  Forall (fun ev => p ev = false) t.
Proof. intros Hp. apply Forall_impl. exact Hp. Qed.

Lemma choices_not (p : event -> bool) (ds : list draw) :
  (forall d, p (EvChoice d) = false) ->
  Forall (fun ev => p ev = false) (map EvChoice ds).
Proof.
  intros Hp. apply Forall_forall. intros ev H.
  apply in_map_iff in H as (d & <- & _). apply Hp.
Qed.

(** ** Calls of the solver *)

Lemma calls_nil env : every_call_succeeded env [].
Proof. intros t1 cmd cwd t2 H. destruct t1; discriminate. Qed.

Lemma calls_snoc env t ev :
  every_call_succeeded env t ->
  (is_check_call ev = false \/ solver_exit env t = 0) ->
  every_call_succeeded env (t ++ [ev]).
Proof.
  intros Ht Hev t1 cmd cwd t2 H.
  destruct (exists_last (l := EvCheckCall cmd cwd :: t2) ltac:(discriminate))
    as (t2' & z & E).
  rewrite E, app_assoc in H. apply app_inj_tail in H as [H ->].
  destruct t2' as [|y t2'].
  - injection E as <-. rewrite app_nil_r in H. subst t1.
    destruct Hev as [Hev | Hev]; [discriminate | exact Hev].
  - injection E as <- _. eapply Ht. exact H.
Qed.

Lemma calls_app env t u :
  every_call_succeeded env t ->
  Forall (fun ev => is_check_call ev = false) u ->
  every_call_succeeded env (t ++ u).
Proof.
  intros Ht Hu. revert t Ht.
  induction Hu as [|ev u Hev _ IH]; intros t Ht.
  - now rewrite app_nil_r.
  - change (ev :: u) with ([ev] ++ u)%list. rewrite app_assoc.
    apply IH. apply calls_snoc; auto.
Qed.

Lemma no_call_in_choices (ds : list draw) :
  Forall (fun ev => is_check_call ev = false) (map EvChoice ds).
Proof. apply Forall_forall. intros ev H. apply in_map_iff in H as (d & <- & _). reflexivity. Qed.

Lemma no_call_in_xyz (files : list (string * Atoms)) :
  Forall (fun ev => is_check_call ev = false) (xyz_events files).
Proof. apply Forall_forall. intros ev H. apply in_map_iff in H as (d & <- & _). reflexivity. Qed.

Lemma no_call_in_prelude (t : list event) :
  Forall (fun ev => prelude_event ev = true) t ->
  Forall (fun ev => is_check_call ev = false) t.
Proof.
  apply Forall_impl. intros ev H. destruct ev; try discriminate; reflexivity.
Qed.

(** ** Reads of the result *)

Lemma reads_in_app env (t u : list event) : forall before,
  reads_in env before (t ++ u)
  = (reads_in env before t ++ reads_in env (before ++ t) u)%list.
Proof.
  induction t as [|ev t IH]; intros before.
  - simpl. now rewrite app_nil_r.
  - cbn [app reads_in]. rewrite IH, <- app_assoc.
    destruct ev; reflexivity.
Qed.

Lemma reads_in_none env (t : list event) : forall before,
  Forall (fun ev => is_read ev = false) t -> reads_in env before t = [].
Proof.
  induction t as [|ev t IH]; intros before H; [reflexivity|].
  inversion H as [|? ? Hev Ht]; subst.
  destruct ev; try discriminate; cbn [reads_in]; now apply IH.
Qed.

(** ** The loop over the configurations, when it completes *)

Lemma configurations_ok np env self file_head sb : forall n k s s',
  for_each (map Z.of_nat (seq k n)) (configuration np env self file_head sb) s
  = (Ok tt, s') ->
  self_box s' = self_box s
  /\ (every_call_succeeded env (trace s) ->
      every_call_succeeded env (trace s'))
  /\ exists cfgs,
       List.length cfgs = n
       /\ trace s'
          = (trace s
             ++ List.concat
                  (map (fun ic => config_events self (fst ic) (snd ic))
                       (enumerate_from (Z.of_nat k) cfgs)))%list
       /\ self_atoms s'
          = (self_atoms s
             ++ map (fun c => stamped self (self_box s) (cfg_read c)) cfgs)%list
       /\ reads_in env [] (trace s')
          = (reads_in env [] (trace s)
             ++ map (fun c => Ok (cfg_read c)) cfgs)%list.
Proof.
  induction n as [|n IH]; intros k s s' H.
  - injection H as <-. split; [reflexivity|]. split; [auto|].
    exists []. simpl. now rewrite !app_nil_r.
  - cbn [seq map for_each] in H.
    apply bind_ok in H as ([] & s1 & Hc & H).
    apply configuration_exits in Hc
      as (Hb & ds & [(e & He & _)
                    | (file & [(He & _)
                              | (Hex & Htr & [(e & He & _)
                                             | (a0 & _ & Hread & Hat)])])]);
      try discriminate.
    apply IH in H as (Hb' & Hcalls & cfgs & Hlen & Htr' & Hat' & Hrd').
    split; [congruence|]. split.
    + intros H0. apply Hcalls. rewrite Htr.
      change [EvCheckCall (solver_command (Z.of_nat k)) (structures self);
              EvRead (mixture_path self (Z.of_nat k))]
        with ([EvCheckCall (solver_command (Z.of_nat k)) (structures self)]
                ++ [EvRead (mixture_path self (Z.of_nat k))])%list.
      rewrite app_assoc.
      apply calls_snoc; [|now left].
      apply calls_snoc; [|now right].
      rewrite app_assoc. apply calls_snoc; [|now left].
      apply calls_app; [exact H0 | apply no_call_in_choices].
    + exists (mkConfig ds file a0 :: cfgs).
      split; [simpl; now rewrite Hlen|]. split; [|split].
      * rewrite Htr', Htr. cbn [enumerate_from map List.concat].
        unfold config_events at 2. cbn [cfg_draws cfg_script cfg_read fst snd].
        replace (Z.of_nat (S k)) with (Z.of_nat k + 1) by lia.
        rewrite <- !app_assoc. reflexivity.
      * rewrite Hat', Hat, Hb. cbn [map cfg_read]. rewrite <- app_assoc.
        reflexivity.
      * rewrite Hrd'. cbn [map cfg_read]. rewrite <- Hread, Htr.
        rewrite !reads_in_app. cbn [app reads_in].
        rewrite (reads_in_none env (map EvChoice ds))
          by (apply choices_not; reflexivity).
        rewrite <- !app_assoc. reflexivity.
Qed.

(** What a multi-configuration run that completes has done. *)
Lemma multi_run_completed np (env : Env) (m : MultiPackmol)
    (g : rng_state np) (st' : State (rng_state np)) :
  multi_run np env m (init_state (base m) g) = (Ok tt, st') ->
  exists g0 text v cfgs,
    np_seed np (seed m) = Ok g0
    /\ resolved_box env (base m) = Ok (self_box st')
    /\ get_packmol_version (banner env) = Ok text
    /\ py_int (remove_char "." text) = Ok v
    /\ List.length cfgs = Z.to_nat (n_configurations m)
    /\ trace st'
       = (EvSeed (seed m) :: est_log (base m) (self_box st')
          ++ probe_log text
          ++ old_warning (base m) v
          ++ EvMkdir (structures (base m))
             :: xyz_events (conformer_files (base m))
          ++ List.concat
               (map (fun ic => config_events (base m) (fst ic) (snd ic))
                    (enumerate_from 0 cfgs)))%list
    /\ every_call_succeeded env (trace st')
    /\ reads_in env [] (trace st') = map (fun c => Ok (cfg_read c)) cfgs
    /\ self_atoms st'
       = map (fun c => stamped (base m) (self_box st') (cfg_read c)) cfgs.
Proof.
  intros H.
  apply multi_run_prelude in H
    as [(e & t & He & _)
       | (g0 & text & v & br & s1 & Hseed & Ht & Hv & Hbox & _ & Ha & _
          & Htr & H)]; [discriminate|].
  unfold py_range in H.
  apply configurations_ok in H
    as (Hb & Hcalls & cfgs & Hlen & Htr' & Hat & Hrd).
  exists g0, text, v, cfgs.
  split; [exact Hseed|].
  split.
  { rewrite Hb. apply (resolved_box_run env (base m) (box (base m)));
      [reflexivity | exact Hbox]. }
  split; [exact Ht|]. split; [exact Hv|]. split; [exact Hlen|].
  cbn [init_state trace app] in Htr.
  assert (Forall (fun ev => setup_event ev = true) (trace s1)) as Hsetup.
  { rewrite Htr. constructor; [reflexivity|].
    repeat (apply Forall_app; split);
      try (apply setup_of_prelude;
           first [apply prelude_est_log | apply prelude_probe_log
                 | apply prelude_old_warning]).
    constructor; [reflexivity | apply setup_xyz]. }
  split; [|split; [|split]].
  - rewrite Htr', Htr, Hb. change (Z.of_nat 0) with 0. flat_lists.
    reflexivity.
  - apply Hcalls. rewrite Htr.
    change (EvSeed (seed m)
              :: est_log (base m) (self_box s1) ++ probe_log text
                 ++ old_warning (base m) v
                 ++ EvMkdir (structures (base m))
                    :: xyz_events (conformer_files (base m)))%list
      with ([] ++ EvSeed (seed m)
              :: est_log (base m) (self_box s1) ++ probe_log text
                 ++ old_warning (base m) v
                 ++ EvMkdir (structures (base m))
                    :: xyz_events (conformer_files (base m)))%list.
    apply calls_app; [apply calls_nil|].
    constructor; [reflexivity|].
    repeat (apply Forall_app; split);
      try (apply no_call_in_prelude;
           first [apply prelude_est_log | apply prelude_probe_log
                 | apply prelude_old_warning]).
    constructor; [reflexivity | apply no_call_in_xyz].
  - rewrite Hrd, (reads_in_none env (trace s1)); [reflexivity|].
    revert Hsetup. apply Forall_impl.
    intros ev Hev. destruct ev; try discriminate; reflexivity.
  - rewrite Hat, Ha, Hb. reflexivity.
Qed.



(** ** A solver that fails *)

Lemma Fails_check_call {R} env cmd cwd :
  (forall t, solver_exit env t <> 0) -> Fails (@check_call R env cmd cwd).
Proof.
  intros Hbad s r s' H. apply check_call_inv in H as [_ ->].
  destruct (Z.eqb_spec (solver_exit env (trace s)) 0) as [E|E];
    [now apply Hbad in E | eauto].
Qed.

(** A step that writes a script has not failed before writing it. *)
Lemma bind_unscripted {R A B} (m : M R A) (k : A -> M R B) s r s' :
  Quiet is_write_text m ->
  scripts_written (trace s') <> scripts_written (trace s) ->
  bind m k s = (r, s') ->
  exists a s1,
    m s = (Ok a, s1)
    /\ scripts_written (trace s1) = scripts_written (trace s)
    /\ k a s1 = (r, s').
Proof.
  intros Hq Hne H.
  apply bind_inv in H as [(e & Hm & _) | (a & s1 & Hm & H)].
  - exfalso. apply Hne. apply Hq in Hm.
    rewrite <- (scripts_written_filter (trace s')), Hm.
    apply scripts_written_filter.
  - exists a, s1. split; [exact Hm|]. split; [|exact H].
    apply Hq in Hm.
    rewrite <- (scripts_written_filter (trace s1)), Hm.
    apply scripts_written_filter.
Qed.

Lemma for_each_fails {R A} (body : A -> M R unit) (l : list A) s r s' :
  (forall x, Fails (body x)) ->
  for_each l body s = (r, s') ->
  (l = [] /\ r = Ok tt /\ s' = s)
  \/ exists x rest, l = x :: rest /\ body x s = (r, s').
Proof.
  intros Hf H. destruct l as [|x rest].
  - injection H as <- <-. now left.
  - right. exists x, rest. split; [reflexivity|].
    cbn [for_each] in H.
    apply bind_inv in H as [(e & Hm & ->) | (a & s1 & Hm & H)]; [exact Hm|].
    destruct (Hf _ _ _ _ Hm) as (e & He). discriminate.
Qed.

Lemma run_stops_at_solver {R} p (env : Env) (self : Packmol) :
  (forall t, solver_exit env t <> 0) ->
  p (EvMkdir (structures self)) = false ->
  (forall path a, p (EvWriteXYZ path a) = false) ->
  (forall l m, p (EvLog l m) = false) ->
  (forall argv, p (EvPopen argv) = false) ->
  (forall path c, p (EvWriteText path c) = false) ->
  (forall cmd cwd, p (EvCheckCall cmd cwd) = false) ->
  Fails (@run R env self) /\ Quiet p (@run R env self).
Proof.
  intros Hbad Hmk Hxyz Hlog Hpop Htxt Hcall.
  pose proof (fun cmd cwd => @Fails_check_call R env cmd cwd Hbad) as Hf.
  unfold run. split.
  - do 7 (apply Fails_bind_r; intros ?). apply Fails_bind_l, Hf.
  - apply Quiet_bind; [now apply Quiet_emit | intros ?].
    apply Quiet_bind; [now apply Quiet_write_inputs | intros ?].
    apply Quiet_bind; [now apply Quiet_molar_volume | intros ?].
    apply Quiet_bind; [now apply Quiet_probe_version | intros ?].
    apply Quiet_bind; [now apply Quiet_pbc_branch | intros ?].
    apply Quiet_bind; [apply Quiet_lift | intros ?].
    apply Quiet_bind; [now apply Quiet_emit | intros ?].
    apply Quiet_bind_fails; [now apply Quiet_check_call | apply Hf].
Qed.

Lemma run_script_then_solver {R} env self (s s' : State R) r :
  run env self s = (r, s') ->
  scripts_written (trace s') <> scripts_written (trace s) ->
  exists before,
    (r = Raise (called_process_error "packmol < packmole.inp"
                                     (solver_exit env before))
     /\ solver_exit env before <> 0
     /\ trace s'
        = (before ++ [EvCheckCall "packmol < packmole.inp"
                                  (structures self)])%list)
    \/ (solver_exit env before = 0
        /\ trace s'
           = (before ++ [EvCheckCall "packmol < packmole.inp"
                                     (structures self);
                         EvRead (structures self ++ "/mixture.xyz")])%list).
Proof.
  unfold run. intros H Hne.
  apply bind_unscripted in H as ([] & s1 & _ & E1 & H);
    [|auto with quiet | exact Hne].
  rewrite <- E1 in Hne.
  apply bind_unscripted in H as ([] & s2 & _ & E2 & H);
    [|auto with quiet | exact Hne].
  rewrite <- E2 in Hne.
  apply bind_unscripted in H as ([] & s3 & _ & E3 & H);
    [|auto with quiet | exact Hne].
  rewrite <- E3 in Hne.
  apply bind_unscripted in H as (v & s4 & _ & E4 & H);
    [|auto with quiet | exact Hne].
  rewrite <- E4 in Hne.
  apply bind_unscripted in H as (br & s5 & _ & E5 & H);
    [|auto with quiet | exact Hne].
  rewrite <- E5 in Hne.
  apply bind_unscripted in H as (file & s6 & _ & E6 & H);
    [|auto with quiet | exact Hne].
  apply bind_inv in H as [(e & Hm & ->) | ([] & s7 & Hm & H)];
    [discriminate|].
  apply emit_inv in Hm as [_ ->].
  exists (trace (logged s6 [EvWriteText (structures self ++ "/packmole.inp")
                                        file])).
  apply bind_inv in H as [(e & Hm & ->) | ([] & s8 & Hm & H)].
  - left. apply check_call_inv in Hm as [-> Hr].
    destruct (Z.eqb_spec (solver_exit env (trace (logged s6
                [EvWriteText (structures self ++ "/packmole.inp") file]))) 0)
      as [E|E]; [discriminate|].
    injection Hr as ->. repeat split. exact E.
  - right. apply check_call_inv in Hm as [-> Hr].
    destruct (Z.eqb_spec (solver_exit env (trace (logged s6
                [EvWriteText (structures self ++ "/packmole.inp") file]))) 0)
      as [E|E]; [|discriminate].
    split; [exact E|].
    apply bind_inv in H as [(e & Hm & ->) | (a & s9 & Hm & H)];
      apply load_result_inv in Hm as [-> _].
    + cbn [logged trace]. now rewrite <- !app_assoc.
    + apply set_atoms_inv in H as [_ ->].
      cbn [logged trace]. now rewrite <- !app_assoc.
Qed.

(** The events recorded when the loop of the multi-configuration run is
    entered. *)
Lemma multi_run_setup np env m g (r : result unit) st' :
  multi_run np env m (init_state (base m) g) = (r, st') ->
  (exists e t,
     r = Raise e /\ trace st' = t /\ self_atoms st' = []
     /\ Forall (fun ev => prelude_event ev = true) t)
  \/ exists br s1,
       self_atoms s1 = []
       /\ Forall (fun ev => setup_event ev = true) (trace s1)
       /\ xyz_written (trace s1) = conformer_files (base m)
       /\ for_each (py_range (n_configurations m))
                   (configuration np env (base m)
                      (multi_file_head (base m) ++ fst br) (snd br)) s1
          = (r, st').
Proof.
  intros H.
  apply multi_run_prelude in H
    as [(e & t & -> & Ht & Hp & Ha)
       | (g0 & text & v & br & s1 & _ & _ & _ & _ & _ & Ha & _ & Htr & H)].
  - left. exists e, t. cbn [init_state trace self_atoms app] in *.
    repeat split; auto. now destruct Ha.
  - right. exists br, s1. cbn [init_state trace app] in Htr.
    split; [exact Ha|]. split; [|split; [|exact H]].
    + rewrite Htr. constructor; [reflexivity|].
      repeat (apply Forall_app; split);
        try (apply setup_of_prelude;
             first [apply prelude_est_log | apply prelude_probe_log
                   | apply prelude_old_warning]).
      constructor; [reflexivity | apply setup_xyz].
    + rewrite Htr.
      change (EvSeed (seed m)
                :: est_log (base m) (self_box s1) ++ probe_log text
                   ++ old_warning (base m) v
                   ++ EvMkdir (structures (base m))
                      :: xyz_events (conformer_files (base m)))%list
        with ([EvSeed (seed m)]
                ++ est_log (base m) (self_box s1) ++ probe_log text
                ++ old_warning (base m) v
                ++ [EvMkdir (structures (base m))]
                ++ xyz_events (conformer_files (base m)))%list.
      rewrite !xyz_written_app.
      assert (forall t, Forall (fun ev => prelude_event ev = true) t ->
                        xyz_written t = []) as Hnone.
      { intros t Ht. rewrite <- xyz_written_filter.
        rewrite filter_none; [reflexivity|].
        revert Ht. apply Forall_impl.
        intros ev Hev. destruct ev; try discriminate; reflexivity. }
      rewrite (Hnone _ (prelude_est_log (base m) (self_box s1))),
        (Hnone _ (prelude_probe_log text)),
        (Hnone _ (prelude_old_warning (base m) v)).
      cbn [xyz_written app].
      unfold xyz_events. generalize (conformer_files (base m)).
      intros l. induction l as [|[p a] l IH]; simpl; congruence.
Qed.

Lemma Fails_configuration np env self file_head sb idx :
  (forall t, solver_exit env t <> 0) ->
  Fails (configuration np env self file_head sb idx).
Proof.
  intros Hbad. unfold configuration.
  do 2 (apply Fails_bind_r; intros ?).
  apply Fails_bind_l, Fails_check_call, Hbad.
Qed.

Lemma py_range_pos n :
  0 < n -> exists rest, py_range n = 0 :: rest.
Proof.
  intros H. unfold py_range.
  destruct (Z.to_nat n) as [|k] eqn:E; [lia|].
  simpl. eauto.
Qed.

Lemma py_range_head n x rest : py_range n = x :: rest -> x = 0.
Proof.
  unfold py_range. destruct (Z.to_nat n); [discriminate|].
  simpl. now intros H; injection H as <- _.
Qed.



(** ** A species without a usable structure *)

Lemma enumerate_from_nth {A} (l : list A) : forall i k x,
  nth_error l k = Some x ->
  nth_error (enumerate_from i l) k = Some (i + Z.of_nat k, x).
Proof.
  induction l as [|y l IH]; intros i k x H; destruct k as [|k];
    try discriminate.
  - injection H as ->. simpl. now rewrite Z.add_0_r.
  - cbn [enumerate_from nth_error]. rewrite (IH (i + 1) k x H).
    do 2 f_equal. lia.
Qed.

Lemma py_index_nat {A} (l : list A) (k : nat) x :
  nth_error l k = Some x -> py_index l (Z.of_nat k) = Ok x.
Proof.
  intros H. unfold py_index.
  assert (k < List.length l)%nat by (apply nth_error_Some; congruence).
  assert ((Z.of_nat k <? 0) = false) as -> by (apply Z.ltb_ge; lia).
  assert ((0 <=? Z.of_nat k) = true) as -> by (apply Z.leb_le; lia).
  assert ((Z.of_nat k <? Z.of_nat (List.length l)) = true) as ->
    by (apply Z.ltb_lt; lia).
  simpl. now rewrite Nat2Z.id, H.
Qed.

Lemma py_index_out_of_range {A} (l : list A) (i : Z) :
  i < - Z.of_nat (List.length l) \/ Z.of_nat (List.length l) <= i ->
  py_index l i = Raise (Exc IndexError "list index out of range").
Proof.
  intros H. pose proof (py_index_spec l i) as S.
  destruct (py_index l i) as [x|e]; [|now destruct S as [-> _]].
  exfalso. destruct S as [[H0 Hn] | [H0 Hn]].
  - assert (Z.to_nat i < List.length l)%nat
      by (apply nth_error_Some; congruence). lia.
  - assert (Z.to_nat (- i - 1) < List.length (rev l))%nat
      by (apply nth_error_Some; congruence).
    rewrite length_rev in *. lia.
Qed.

Lemma Forall2_in_l {A B} (P : A -> B -> Prop) l l' x :
  Forall2 P l l' -> In x l -> exists y, P x y.
Proof.
  induction 1 as [|a b l l' Hab _ IH]; intros Hin; [contradiction|].
  destruct Hin as [<- | Hin]; eauto.
Qed.

(** X7.  The single-configuration run stops at line 117 with an [IndexError]
    when a species has no structure to take ([data_ids] unset and the
    list of the species empty) or when its [data_ids] entry lies outside
    its list: the coordinate files of the species before it have been
    written, the solver has not been probed and no script is written. *)
Theorem unusable_species_stops_run {R} (env : Env) (self : Packmol) (g : R)
    (r : result unit) (st' : State R) :
  (data_ids self = None /\ In [] (data self))
  \/ (exists ids k pool i,
        data_ids self = Some ids
        /\ nth_error (data self) k = Some pool
        /\ nth_error ids k = Some i
        /\ (i < - Z.of_nat (List.length pool)
            \/ Z.of_nat (List.length pool) <= i)) ->
  run env self (init_state self g) = (r, st') ->
  r = Raise (Exc IndexError "list index out of range")
  /\ exists files,
       trace st' = EvMkdir (structures self) :: xyz_events files
       /\ (List.length files < List.length (data self))%nat
       /\ self_atoms st' = [].
Proof.
  intros Hbad Hrun.
  assert (exists k pool e0,
             nth_error (data self) k = Some pool
             /\ selected self (Z.of_nat k) pool = Raise e0)
    as (k & pool & e0 & Hk & Hsel).
  { destruct Hbad as [[Hnone Hin] | (ids & k & pool & i & Hids & Hk & Hi & Hr)].
    - apply In_nth_error in Hin as (k & Hk).
      exists k, [], (Exc IndexError "list index out of range").
      split; [exact Hk|]. unfold selected. now rewrite Hnone.
    - exists k, pool, (Exc IndexError "list index out of range").
      split; [exact Hk|]. unfold selected. rewrite Hids.
      rewrite (py_index_nat _ _ _ Hi). cbn [rbind].
      now apply py_index_out_of_range. }
  unfold run in Hrun.
  apply bind_inv in Hrun as [(e & Hm & ->) | ([] & s1 & Hm & Hrun)];
    [discriminate|].
  apply emit_inv in Hm as [_ ->].
  apply bind_inv in Hrun as [(e & Hm & ->) | ([] & s2 & Hm & Hrun)].
  - apply write_inputs_inv in Hm as (files & -> & _ & idx & p & Hn & He).
    split; [f_equal; now apply selected_raises in He|].
    exists files. cbn [logged trace self_atoms init_state app].
    split; [reflexivity|]. split; [|reflexivity].
    rewrite <- (enumerate_from_length (data self) 0).
    apply nth_error_Some. congruence.
  - exfalso.
    apply write_inputs_inv in Hm as (files & _ & HF & Hlen).
    rewrite Hlen, <- (enumerate_from_length (data self) 0), firstn_all in HF.
    apply (enumerate_from_nth _ 0) in Hk. apply nth_error_In in Hk.
    destruct (Forall2_in_l _ _ _ _ HF Hk) as (y & _ & Hy).
    cbn [fst snd] in Hy. rewrite Z.add_0_l in Hy. congruence.
Qed.

Lemma unusable_species_stops_run_witness :
  (data_ids no_conformer = None /\ In [] (data no_conformer))
  /\ (exists ids k pool i,
        data_ids bad_data_id = Some ids
        /\ nth_error (data bad_data_id) k = Some pool
        /\ nth_error ids k = Some i
        /\ (i < - Z.of_nat (List.length pool)
            \/ Z.of_nat (List.length pool) <= i))
  /\ (fst (run env_v20 no_conformer (init_state no_conformer tt))
      = Raise (Exc IndexError "list index out of range")
      /\ exists files,
           trace (snd (run env_v20 no_conformer (init_state no_conformer tt)))
           = EvMkdir (structures no_conformer) :: xyz_events files
           /\ (List.length files < List.length (data no_conformer))%nat
           /\ self_atoms
                (snd (run env_v20 no_conformer (init_state no_conformer tt)))
              = [])
  /\ (fst (run env_v20 bad_data_id (init_state bad_data_id tt))
      = Raise (Exc IndexError "list index out of range")
      /\ exists files,
           trace (snd (run env_v20 bad_data_id (init_state bad_data_id tt)))
           = EvMkdir (structures bad_data_id) :: xyz_events files
           /\ (List.length files < List.length (data bad_data_id))%nat
           /\ self_atoms
                (snd (run env_v20 bad_data_id (init_state bad_data_id tt)))
              = []).
Proof.
  assert (data_ids no_conformer = None /\ In [] (data no_conformer)) as H1
    by (split; [reflexivity | right; left; reflexivity]).
  assert (exists ids k pool i,
             data_ids bad_data_id = Some ids
             /\ nth_error (data bad_data_id) k = Some pool
             /\ nth_error ids k = Some i
             /\ (i < - Z.of_nat (List.length pool)
                 \/ Z.of_nat (List.length pool) <= i)) as H2.
  { exists [0; 2], 1%nat, [water; water], 2.
    repeat split; try reflexivity. right. simpl. lia. }
  split; [exact H1|]. split; [exact H2|]. split.
  - exact (unusable_species_stops_run env_v20 no_conformer tt _ _
             (or_introl H1) (surjective_pairing _)).
  - exact (unusable_species_stops_run env_v20 bad_data_id tt _ _
             (or_intror H2) (surjective_pairing _)).
Defined.

(** Nothing can be drawn from an empty pool. *)
Lemma Fails_choice_from_nothing np (c : Z) :
  0 < c -> Fails (random_choice np 0 c).
Proof.
  intros Hc s r s' H. unfold random_choice in H.
  destruct (np_choice np (rng s) 0 c true None) as [[out | e] g] eqn:E.
  - exfalso. apply np_choice_spec in E as (_ & Hlen & Hall).
    destruct out as [|k out]; [simpl in Hlen; lia|].
    inversion Hall; lia.
  - injection H as <- _. eauto.
Qed.

Lemma Fails_species_loop_empty np self sb (c : Z) :
  0 < c ->
  forall counts k jdx file,
    0 <= jdx ->
    nth_error counts k = Some c ->
    nth_error (data self) (Z.to_nat jdx + k) = Some [] ->
    Fails (species_loop np self jdx counts sb file).
Proof.
  intros Hc. induction counts as [|c0 counts IH]; intros k jdx file Hj Hk Hd.
  - destruct k; discriminate.
  - cbn [species_loop]. destruct k as [|k].
    + injection Hk as ->. rewrite Nat.add_0_r in Hd.
      intros s r s' H.
      apply bind_inv in H as [(e & _ & ->) | (pool & s1 & Hm & H)]; [eauto|].
      injection Hm as Hm _.
      rewrite <- (Z2Nat.id jdx Hj), (py_index_nat _ _ _ Hd) in Hm.
      injection Hm as <-.
      revert H. apply Fails_bind_l. now apply Fails_choice_from_nothing.
    + do 3 (apply Fails_bind_r; intros ?).
      apply (IH k); [lia | exact Hk|].
      replace (Z.to_nat (jdx + 1) + k)%nat with (Z.to_nat jdx + S k)%nat by lia.
      exact Hd.
Qed.

(** X8.  When a species with a positive count has no structure, the
    multi-configuration run cannot draw for it: the first configuration
    ends in an exception before its script is written, so no script is
    ever written, the solver is never called and no structure is
    returned. *)
Theorem empty_pool_stops_multi_run np (env : Env) (m : MultiPackmol)
    (g : rng_state np) (r : result unit) (st' : State (rng_state np))
    (j : nat) (c : Z) :
  nth_error (data (base m)) j = Some [] ->
  nth_error (count (base m)) j = Some c ->
  0 < c ->
  multi_run np env m (init_state (base m) g) = (r, st') ->
  scripts_written (trace st') = []
  /\ filter is_check_call (trace st') = []
  /\ self_atoms st' = []
  /\ (0 < n_configurations m -> exists e, r = Raise e).
Proof.
  intros Hd Hc Hpos Hrun.
  assert (forall ev, setup_event ev = true -> is_check_call ev = false) as Sc
    by (intros ev; destruct ev; try discriminate; reflexivity).
  assert (forall ev, setup_event ev = true -> is_write_text ev = false) as Sw
    by (intros ev; destruct ev; try discriminate; reflexivity).
  assert (forall file_head sb idx,
             Fails (configuration np env (base m) file_head sb idx)) as Hf.
  { intros file_head sb idx. unfold configuration.
    apply Fails_bind_l.
    apply (Fails_species_loop_empty np (base m) sb c Hpos (count (base m)) j 0);
      [lia | exact Hc | exact Hd]. }
  apply multi_run_setup in Hrun
    as [(e & t & -> & Ht & Ha & Hs) | (br & s1 & Ha & Hs & _ & H)].
  - apply setup_of_prelude in Hs. rewrite Ht.
    rewrite (filter_none is_check_call t (setup_choices_not _ _ Sc Hs)).
    rewrite (scripts_none t (setup_choices_not _ _ Sw Hs)).
    split; [reflexivity|]. split; [reflexivity|]. split; [exact Ha | eauto].
  - apply for_each_fails in H
        as [(Hl & -> & ->) | (x & rest & Hl & H)]; [| |intros x; apply Hf].
    + rewrite (filter_none is_check_call _ (setup_choices_not _ _ Sc Hs)).
      rewrite (scripts_none _ (setup_choices_not _ _ Sw Hs)).
      split; [reflexivity|]. split; [reflexivity|]. split; [exact Ha|].
      intros Hn. apply py_range_pos in Hn as (rest & Hn).
      rewrite Hn in Hl. discriminate.
    + destruct (Hf _ _ _ _ _ _ H) as (e & ->).
      unfold configuration in H.
      apply bind_inv in H as [(e' & Hm & _) | (file & s2 & Hm & _)].
      * apply species_loop_trace in Hm as (_ & Hat & ds & Htr).
        rewrite Htr, filter_app, scripts_written_app.
        rewrite (filter_none is_check_call _ (setup_choices_not _ _ Sc Hs)).
        rewrite (scripts_none _ (setup_choices_not _ _ Sw Hs)).
        rewrite (filter_none is_check_call _
                   (choices_not is_check_call ds (fun _ => eq_refl))).
        rewrite (scripts_none _
                   (choices_not is_write_text ds (fun _ => eq_refl))).
        split; [reflexivity|]. split; [reflexivity|].
        split; [congruence | eauto].
      * exfalso.
        destruct (Fails_species_loop_empty np (base m) (snd br) c Hpos
                    (count (base m)) j 0 _ ltac:(lia) Hc Hd _ _ _ Hm)
          as (e' & He'). discriminate.
Qed.

Lemma empty_pool_stops_multi_run_witness :
  (nth_error (data (base no_conformer_multi)) 1 = Some []
   /\ nth_error (count (base no_conformer_multi)) 1 = Some 3
   /\ 0 < 3)
  /\ scripts_written
       (trace (snd (multi_run counter_rng env_v20 no_conformer_multi
                              (init_state (base no_conformer_multi) 0)))) = []
  /\ filter is_check_call
       (trace (snd (multi_run counter_rng env_v20 no_conformer_multi
                              (init_state (base no_conformer_multi) 0)))) = []
  /\ self_atoms (snd (multi_run counter_rng env_v20 no_conformer_multi
                                (init_state (base no_conformer_multi) 0))) = []
  /\ (0 < n_configurations no_conformer_multi ->
      exists e,
        fst (multi_run counter_rng env_v20 no_conformer_multi
                       (init_state (base no_conformer_multi) 0)) = Raise e).
Proof.
  split; [repeat split; reflexivity|].
  exact (empty_pool_stops_multi_run counter_rng env_v20 no_conformer_multi 0
           _ _ 1%nat 3 eq_refl eq_refl eq_refl (surjective_pairing _)).
Defined.

(** ** Without periodic boundaries *)

Lemma branch_off self b v br :
  branch_outcome self b v br -> pbc self = false ->
  fst br = EmptyString /\ snd br = b.
Proof.
  intros [(Hp & _) | [(Hp & _) | (_ & Hs & Hf)]] Hpbc; try congruence.
  now split.
Qed.

(** X9.  With [pbc] off the version of the solver plays no part: a script has
    no [pbc] line and the bound of every structure block is the box as
    requested, unscaled; the structures returned are the ones read, with
    the cell and the periodicity the reader gave them. *)
Theorem without_pbc_box_as_given (env : Env) :
  (forall (self : Packmol) r st',
      pbc self = false ->
      run env self (init_state self tt) = (r, st') ->
      (forall p file,
          In (p, file) (scripts_written (trace st')) ->
          lines_with "pbc" file = []
          /\ Forall (inside_unscaled (self_box st')) (blocks_of file))
      /\ (r = Ok tt ->
          exists a0,
            ase_io_read env (trace st') (structures self ++ "/mixture.xyz")
            = Ok a0
            /\ self_atoms st' = [a0]))
  /\ (forall np (m : MultiPackmol) g r st',
        pbc (base m) = false ->
        multi_run np env m (init_state (base m) g) = (r, st') ->
        (forall p file,
            In (p, file) (scripts_written (trace st')) ->
            lines_with "pbc" file = []
            /\ Forall (inside_unscaled (self_box st')) (blocks_of file))
        /\ (r = Ok tt ->
            reads_in env [] (trace st') = map Ok (self_atoms st'))).
Proof.
  split.
  - intros self r st' Hpbc Hrun. split.
    + intros p file Hin.
      destruct (single_script_read _ _ _ _ _ _ _ Hrun Hin)
        as (_ & v & br & bounds & _ & Hbr & Hb & Hblk & Hpl & _).
      destruct (branch_off _ _ _ _ Hbr Hpbc) as [Hf Hs].
      split.
      * rewrite Hpl, Hf, append_empty_r. unfold lines_with.
        now rewrite file_header_directives.
      * rewrite Hblk. apply Forall_forall. intros blk Hin'.
        apply in_map_iff in Hin' as ([i c] & <- & Hic).
        destruct Hb as [Hb | Hb].
        -- rewrite Hb in Hic. contradiction.
        -- rewrite Hs in Hb.
           destruct (box_fields_inv _ _ Hb) as (l & Hl & Hfmt & _).
           exists l, bounds. auto.
    + intros ->.
      destruct (run_completed _ _ _ _ Hrun)
        as (files & text & v & file & a0 & before & _ & _ & _ & _ & _ & _
            & _ & Hread & Hat & _).
      exists a0. split; [exact Hread|].
      rewrite Hat. unfold stamped. now rewrite Hpbc.
  - intros np m g r st' Hpbc Hrun. split.
    + intros p file Hin.
      destruct (multi_script_read _ _ _ _ _ _ _ _ Hrun Hin)
        as (_ & v & br & bounds & ds & _ & Hbr & Hb & _ & _ & _ & _
            & Hblk & Hpl & _).
      destruct (branch_off _ _ _ _ Hbr Hpbc) as [Hf Hs].
      split.
      * rewrite Hpl, Hf, append_empty_r. unfold lines_with.
        now rewrite multi_file_head_directives.
      * rewrite Hblk. apply Forall_forall. intros blk Hin'.
        destruct (placed_blocks_in _ _ _ Hin') as (Hi & _ & [j d] & Hjd & Hne).
        destruct Hb as [Hb | Hb].
        -- exfalso. apply Hne. rewrite Forall_forall in Hb. apply Hb.
           eapply enumerate_from_in; eauto.
        -- rewrite Hs in Hb.
           destruct (box_fields_inv _ _ Hb) as (l & Hl & Hfmt & _).
           exists l, bounds. auto.
    + intros ->.
      destruct (multi_run_completed _ _ _ _ _ Hrun)
        as (g0 & text & v & cfgs & _ & _ & _ & _ & _ & _ & _ & Hrd & Hat).
      rewrite Hrd, Hat, map_map. apply map_ext.
      intros c. unfold stamped. now rewrite Hpbc.
Qed.

Lemma without_pbc_box_as_given_witness :
  (pbc cube10_open = false /\ probed_version env_v18 = Ok 1800
   /\ fst cube10_open_v18 = Ok tt)
  /\ (lines_with "pbc" (script_no 0 cube10_open_v18) = []
      /\ Forall (inside_unscaled (self_box (snd cube10_open_v18)))
                (blocks_of (script_no 0 cube10_open_v18)))
  /\ (exists a0,
        ase_io_read env_v18 (trace (snd cube10_open_v18))
                    (structures cube10_open ++ "/mixture.xyz") = Ok a0
        /\ self_atoms (snd cube10_open_v18) = [a0])
  /\ map blk_inside (blocks_of (script_no 0 cube10_open_v18))
     = [ ["0"; "0"; "0"; "10.0000"; "10.0000"; "10.0000"];
         ["0"; "0"; "0"; "10.0000"; "10.0000"; "10.0000"] ].
Proof.
  assert (fst (run env_v18 cube10_open (init_state cube10_open tt)) = Ok tt)
    as Hok by (vm_compute; reflexivity).
  split; [split; [reflexivity | split; [vm_compute; reflexivity | exact Hok]]|].
  destruct (proj1 (without_pbc_box_as_given env_v18)
              cube10_open (fst cube10_open_v18) (snd cube10_open_v18)
              eq_refl (surjective_pairing _)) as [Hscript Hres].
  split; [|split].
  - apply (Hscript "nodes/packmol/packmole.inp" (script_no 0 cube10_open_v18)).
    vm_compute. left. reflexivity.
  - exact (Hres Hok).
  - vm_compute. reflexivity.
Defined.

(** ** Names of files *)

Lemma dec_value_app (a b : string) : forall x,
  dec_value (a ++ b) x = dec_value b (dec_value a x).
Proof. induction a as [|c a IH]; intros x; simpl; auto. Qed.

Lemma digit_val_char (d : N) : (d < 10)%N -> digit_val (digit_char d) = Z.of_N d.
Proof.
  intros H. unfold digit_val, digit_char, nat_of_ascii.
  rewrite N_ascii_embedding by lia. lia.
Qed.

Lemma dec_digits_value fuel : forall n acc,
  (n < 2 ^ N.of_nat fuel)%N ->
  dec_value (dec_digits fuel n acc) 0 = dec_value acc (Z.of_N n).
Proof.
  induction fuel as [|f IH]; intros n acc Hn.
  - simpl in Hn. assert (n = 0%N) as -> by lia. reflexivity.
  - cbn [dec_digits].
    assert (n mod 10 < 10)%N as Hm by (apply N.mod_lt; lia).
    destruct (n / 10 =? 0)%N eqn:E.
    + apply N.eqb_eq in E. cbn [dec_value].
      rewrite (digit_val_char _ Hm). f_equal.
      pose proof (N.div_mod n 10 ltac:(lia)). lia.
    + rewrite IH.
      * cbn [dec_value]. rewrite (digit_val_char _ Hm). f_equal.
        pose proof (N.div_mod n 10 ltac:(lia)). lia.
      * apply N.Div0.div_lt_upper_bound.
        rewrite Nat2N.inj_succ, N.pow_succ_r' in Hn. lia.
Qed.

(** The digits of a number stand for that number. *)
Lemma str_N_value (n : N) : dec_value (str_N n) 0 = Z.of_N n.
Proof.
  unfold str_N. rewrite dec_digits_value; [reflexivity|].
  rewrite Nat2N.inj_succ, N2Nat.id.
  destruct (N.eq_dec n 0) as [-> | Hn]; [reflexivity|].
  apply N.log2_spec. lia.
Qed.

Lemma str_N_inj (n m : N) : str_N n = str_N m -> n = m.
Proof.
  intros H. apply N2Z.inj. now rewrite <- !str_N_value, H.
Qed.

Lemma str_N_head (n : N) :
  exists c r, str_N n = String c r /\ is_digit c = true.
Proof.
  pose proof (str_N_digits n) as Hd. pose proof (str_N_nonempty n) as Hn.
  destruct (str_N n) as [|c r]; [discriminate|].
  simpl in Hd. apply andb_true_iff in Hd as [Hc _]. eauto.
Qed.

Lemma str_Z_inj (x y : Z) : str_Z x = str_Z y -> x = y.
Proof.
  unfold str_Z.
  destruct (x <? 0) eqn:Ex, (y <? 0) eqn:Ey; intros H.
  - injection H as H. apply str_N_inj in H.
    apply Z.ltb_lt in Ex, Ey. lia.
  - destruct (str_N_head (Z.to_N y)) as (c & r & Hs & Hc).
    rewrite Hs in H. injection H as <- _. discriminate.
  - destruct (str_N_head (Z.to_N x)) as (c & r & Hs & Hc).
    rewrite Hs in H. injection H as -> _. discriminate.
  - apply str_N_inj in H. apply Z.ltb_ge in Ex, Ey. lia.
Qed.

Lemma append_inj_l (a x y : string) : a ++ x = a ++ y -> x = y.
Proof.
  induction a as [|c a IH]; simpl; intros H; [exact H|].
  injection H as H. auto.
Qed.

Lemma append_same_length (a b c d : string) :
  String.length a = String.length b -> a ++ c = b ++ d -> a = b /\ c = d.
Proof.
  revert b. induction a as [|x a IH]; intros [|y b] Hlen H;
    try discriminate.
  - now split.
  - simpl in *. injection H as -> H. injection Hlen as Hlen.
    destruct (IH b Hlen H) as [-> ->]. now split.
Qed.

Lemma append_inj_r (x y c : string) : x ++ c = y ++ c -> x = y.
Proof.
  intros H. apply (append_same_length x y c c); [|exact H].
  apply (f_equal String.length) in H. rewrite !length_app in H. lia.
Qed.

(** Two texts each cut at their first underscore. *)
Lemma split_at_underscore (a b x y : string) :
  all_chars num_char a = true -> all_chars num_char b = true ->
  a ++ String "_" x = b ++ String "_" y -> a = b /\ x = y.
Proof.
  revert b. induction a as [|c a IH]; intros [|d b] Ha Hb H; simpl in *.
  - injection H as ->. now split.
  - injection H as <- _. discriminate.
  - injection H as -> _. discriminate.
  - injection H as -> H.
    apply andb_true_iff in Ha as [_ Ha]. apply andb_true_iff in Hb as [_ Hb].
    destruct (IH b Ha Hb H) as [-> ->]. now split.
Qed.

Lemma species_path_inj self i j :
  species_path self i = species_path self j -> i = j.
Proof.
  unfold species_path. intros H.
  apply append_inj_l, (append_inj_l "/"), append_inj_r in H.
  now apply str_Z_inj.
Qed.

Lemma script_path_inj self i j :
  script_path self i = script_path self j -> i = j.
Proof.
  unfold script_path. intros H.
  apply append_inj_l, (append_inj_l "/packmole_"), append_inj_r in H.
  now apply str_Z_inj.
Qed.

Lemma mixture_path_inj self i j :
  mixture_path self i = mixture_path self j -> i = j.
Proof.
  unfold mixture_path. intros H.
  apply append_inj_l, (append_inj_l "/mixture_"), append_inj_r in H.
  now apply str_Z_inj.
Qed.

Lemma conformer_name_inj i j i' j' :
  str_Z i ++ "_" ++ str_Z j ++ ".xyz" = str_Z i' ++ "_" ++ str_Z j' ++ ".xyz" ->
  i = i' /\ j = j'.
Proof.
  intros H.
  apply split_at_underscore in H as [Hi Hj]; try apply str_Z_num.
  apply append_inj_r in Hj. split; now apply str_Z_inj.
Qed.

Lemma conformer_path_inj self i j i' j' :
  conformer_path self i j = conformer_path self i' j' -> i = i' /\ j = j'.
Proof.
  unfold conformer_path. intros H.
  apply append_inj_l, (append_inj_l "/") in H.
  now apply conformer_name_inj.
Qed.

Lemma enumerate_from_bounds {A} (l : list A) : forall i j x,
  In (j, x) (enumerate_from i l) ->
  i <= j < i + Z.of_nat (List.length l)
  /\ nth_error l (Z.to_nat (j - i)) = Some x.
Proof.
  induction l as [|y l IH]; intros i j x H; [contradiction|].
  destruct H as [H | H].
  - injection H as <- <-. cbn [List.length]. split; [lia|].
    now rewrite Z.sub_diag.
  - apply IH in H as [Hb Hn]. cbn [List.length]. split; [lia|].
    replace (Z.to_nat (j - i)) with (S (Z.to_nat (j - (i + 1)))) by lia.
    exact Hn.
Qed.

Lemma NoDup_enumerate {A} (l : list A) : forall i,
  NoDup (map fst (enumerate_from i l)).
Proof.
  induction l as [|y l IH]; intros i; simpl; constructor; [|apply IH].
  intros H. apply in_map_iff in H as ([j x] & Hj & Hin).
  simpl in Hj. subst j. apply enumerate_from_bounds in Hin. lia.
Qed.

Lemma NoDup_map_inj {A B} (f : A -> B) (l : list A) :
  (forall x y, f x = f y -> x = y) -> NoDup l -> NoDup (map f l).
Proof.
  intros Hinj. induction 1 as [|x l Hx _ IH]; simpl; constructor; [|exact IH].
  intros H. apply in_map_iff in H as (y & Hy & Hin).
  apply Hinj in Hy. now subst y.
Qed.

(** ** The loop over the configurations, however it ends *)

Lemma filter_choices (p : event -> bool) (ds : list draw) :
  (forall d, p (EvChoice d) = false) -> filter p (map EvChoice ds) = [].
Proof. intros H. apply filter_none, choices_not, H. Qed.

Lemma scripts_choices (ds : list draw) : scripts_written (map EvChoice ds) = [].
Proof. apply scripts_none, choices_not. reflexivity. Qed.

(** The scripts written, the solver calls and the reads of the loop:
    configuration [k], [k + 1], ... in order, a call for every script
    and a read for a first part of the calls. *)
Lemma configurations_files np env self file_head sb : forall n k s r s',
  for_each (map Z.of_nat (seq k n)) (configuration np env self file_head sb) s
  = (r, s') ->
  exists (files : list string) (nr : nat),
    (List.length files <= n)%nat
    /\ (nr <= List.length files)%nat
    /\ scripts_written (trace s')
       = (scripts_written (trace s)
          ++ map (fun ic => (script_path self (fst ic), snd ic))
                 (enumerate_from (Z.of_nat k) files))%list
    /\ filter is_check_call (trace s')
       = (filter is_check_call (trace s)
          ++ map (fun i => EvCheckCall (solver_command (Z.of_nat i))
                                       (structures self))
                 (seq k (List.length files)))%list
    /\ filter is_read (trace s')
       = (filter is_read (trace s)
          ++ map (fun i => EvRead (mixture_path self (Z.of_nat i)))
                 (seq k nr))%list
    /\ filter is_write_xyz (trace s') = filter is_write_xyz (trace s)
    /\ (r = Ok tt -> List.length files = n /\ nr = n).
Proof.
  induction n as [|n IH]; intros k s r s' H.
  - injection H as <- <-. exists [], 0%nat. simpl.
    rewrite !app_nil_r. repeat split; auto.
  - cbn [seq map for_each] in H.
    apply bind_inv in H as [(e & Hc & ->) | ([] & s1 & Hc & H)].
    + apply configuration_exits in Hc
        as (_ & ds & [(e' & _ & _ & Htr)
                     | (file & [(_ & _ & _ & Htr)
                               | (_ & Htr & _)])]).
      * exists [], 0%nat. rewrite Htr, !filter_app, scripts_written_app.
        rewrite !filter_choices, scripts_choices by reflexivity.
        simpl. rewrite ?app_nil_r. repeat split; auto; try lia; discriminate.
      * exists [file], 0%nat.
        rewrite Htr, !filter_app, !scripts_written_app.
        rewrite !filter_choices, scripts_choices by reflexivity.
        cbn. rewrite !app_nil_r.
        repeat split; auto; try lia; discriminate.
      * exists [file], 1%nat.
        rewrite Htr, !filter_app, !scripts_written_app.
        rewrite !filter_choices, scripts_choices by reflexivity.
        cbn. rewrite !app_nil_r.
        repeat split; auto; try lia; discriminate.
    + apply configuration_exits in Hc
        as (_ & ds & [(e' & He & _)
                     | (file & [(He & _)
                               | (_ & Htr & _)])]); try discriminate.
      apply IH in H as (files & nr & Hl & Hn & Hs & Hcc & Hrd & Hx & Hok).
      exists (file :: files), (S nr).
      rewrite Hs, Hcc, Hrd, Hx.
      rewrite Htr, !filter_app, !scripts_written_app.
      rewrite !filter_choices, scripts_choices by reflexivity.
      cbn [List.length seq map enumerate_from fst snd app filter
           is_check_call is_read is_write_xyz scripts_written].
      replace (Z.of_nat (S k)) with (Z.of_nat k + 1) by lia.
      rewrite !app_nil_r, <- !app_assoc. cbn [app].
      split; [lia|]. split; [lia|].
      repeat (split; [reflexivity|]).
      intros Hr. destruct (Hok Hr) as [-> ->]. now split.
Qed.

(** ** The files of a run, however it ends *)

Lemma xyz_written_events (files : list (string * Atoms)) :
  xyz_written (xyz_events files) = files.
Proof.
  induction files as [|[p a] l IH]; simpl; congruence.
Qed.

Lemma xyz_none (t : list event) :
  Forall (fun ev => is_write_xyz ev = false) t -> xyz_written t = [].
Proof.
  intros H. rewrite <- xyz_written_filter. now rewrite filter_none.
Qed.

Lemma prelude_not (p : event -> bool) (t : list event) :
  (forall ev, prelude_event ev = true -> p ev = false) ->
  Forall (fun ev => prelude_event ev = true) t ->
  Forall (fun ev => p ev = false) t.
Proof. intros Hp. apply Forall_impl. exact Hp. Qed.

(** The scripts, calls, reads and coordinate files of a
    multi-configuration run. *)
Lemma multi_run_files np env m g (r : result unit) st' :
  multi_run np env m (init_state (base m) g) = (r, st') ->
  exists (files : list string) (nr : nat),
    (List.length files <= Z.to_nat (n_configurations m))%nat
    /\ (nr <= List.length files)%nat
    /\ scripts_written (trace st')
       = map (fun ic => (script_path (base m) (fst ic), snd ic))
             (enumerate_from 0 files)
    /\ filter is_check_call (trace st')
       = map (fun i => EvCheckCall (solver_command (Z.of_nat i))
                                   (structures (base m)))
             (seq 0 (List.length files))
    /\ filter is_read (trace st')
       = map (fun i => EvRead (mixture_path (base m) (Z.of_nat i))) (seq 0 nr)
    /\ (xyz_written (trace st') = conformer_files (base m)
        \/ (xyz_written (trace st') = [] /\ files = []
            /\ exists e, r = Raise e))
    /\ (r = Ok tt ->
        List.length files = Z.to_nat (n_configurations m)
        /\ nr = Z.to_nat (n_configurations m)
        /\ xyz_written (trace st') = conformer_files (base m)).
Proof.
  intros H.
  assert (forall ev, setup_event ev = true -> is_check_call ev = false) as Sc
    by (intros ev; destruct ev; try discriminate; reflexivity).
  assert (forall ev, setup_event ev = true -> is_write_text ev = false) as Sw
    by (intros ev; destruct ev; try discriminate; reflexivity).
  assert (forall ev, setup_event ev = true -> is_read ev = false) as Sr
    by (intros ev; destruct ev; try discriminate; reflexivity).
  apply multi_run_setup in H
    as [(e & t & -> & Ht & Ha & Hs) | (br & s1 & Ha & Hs & Hx & H)].
  - exists [], 0%nat. rewrite Ht.
    assert (xyz_written t = []) as ->.
    { apply xyz_none. revert Hs. apply Forall_impl.
      intros ev Hev. destruct ev; try discriminate; reflexivity. }
    apply setup_of_prelude in Hs.
    rewrite (filter_none is_check_call t (setup_choices_not _ _ Sc Hs)).
    rewrite (filter_none is_read t (setup_choices_not _ _ Sr Hs)).
    rewrite (scripts_none t (setup_choices_not _ _ Sw Hs)).
    simpl. split; [lia|]. split; [lia|].
    repeat (split; [reflexivity|]).
    split; [right; eauto | discriminate].
  - unfold py_range in H.
    apply configurations_files in H
      as (files & nr & Hl & Hn & Hsc & Hcc & Hrd & Hxyz & Hok).
    exists files, nr.
    rewrite (filter_none is_check_call _ (setup_choices_not _ _ Sc Hs)) in Hcc.
    rewrite (filter_none is_read _ (setup_choices_not _ _ Sr Hs)) in Hrd.
    rewrite (scripts_none _ (setup_choices_not _ _ Sw Hs)) in Hsc.
    assert (xyz_written (trace st') = conformer_files (base m)) as Hx'.
    { rewrite <- xyz_written_filter, Hxyz, xyz_written_filter. exact Hx. }
    split; [exact Hl|]. split; [exact Hn|].
    split; [exact Hsc|]. split; [exact Hcc|]. split; [exact Hrd|].
    split; [now left|].
    intros Hr. destruct (Hok Hr) as [-> ->]. auto.
Qed.

(** The coordinate files of a single-configuration run. *)
Lemma run_inputs {R} env self (g : R) (r : result unit) st' :
  run env self (init_state self g) = (r, st') ->
  exists files,
    xyz_written (trace st') = files
    /\ Forall2 (fun ip pa => fst pa = species_path self (fst ip)
                             /\ chosen self (fst ip) (snd ip) (snd pa))
               (firstn (List.length files) (enumerate_from 0 (data self)))
               files
    /\ (scripts_written (trace st') <> [] ->
        List.length files = List.length (data self)).
Proof.
  unfold run. intros H.
  apply bind_inv in H as [(e & Hm & ->) | ([] & s1 & Hm & H)];
    [discriminate|].
  apply emit_inv in Hm as [_ ->].
  apply bind_inv in H as [(e & Hm & ->) | ([] & s2 & Hm & H)].
  - apply write_inputs_inv in Hm as (files & -> & HF & _).
    exists files. cbn [logged trace init_state app xyz_written].
    rewrite xyz_written_events.
    split; [reflexivity|]. split; [now apply chosen_files|].
    intros Hs. exfalso. apply Hs. apply scripts_none.
    constructor; [reflexivity|].
    apply Forall_forall. intros ev Hev.
    apply in_map_iff in Hev as (pa & <- & _). reflexivity.
  - apply write_inputs_inv in Hm as (files & -> & HF & Hlen).
    exists files.
    assert (Quiet is_write_xyz
              (bind (@_get_box_from_molar_volume R env self) (fun _ =>
               bind (probe_version env) (fun packmol_version =>
               bind (pbc_branch self packmol_version) (fun br =>
               bind (lift (species_blocks 0 (count self) (snd br)
                             (file_header self ++ fst br))) (fun file =>
               bind (emit (EvWriteText (structures self ++ "/packmole.inp")
                                       file)) (fun _ =>
               bind (check_call env "packmol < packmole.inp"
                                (structures self)) (fun _ =>
               bind (load_result env self
                                 (structures self ++ "/mixture.xyz"))
                    (fun atoms => set_atoms [atoms]))))))))) as Hq
      by quiet_steps.
    apply Hq in H.
    rewrite <- xyz_written_filter, H, xyz_written_filter.
    cbn [logged trace init_state app xyz_written]. rewrite xyz_written_events.
    split; [reflexivity|]. split; [now apply chosen_files | auto].
Qed.

Lemma bind_early {R A B} p (m : M R A) (k : A -> M R B) s r s' :
  Quiet p m ->
  bind m k s = (r, s') ->
  (exists e, r = Raise e /\ filter p (trace s') = filter p (trace s))
  \/ exists a s1,
       filter p (trace s1) = filter p (trace s) /\ k a s1 = (r, s').
Proof.
  intros Hq H.
  apply bind_inv in H as [(e & Hm & ->) | (a & s1 & Hm & H)].
  - left. exists e. split; [reflexivity | now apply Hq in Hm].
  - right. exists a, s1. split; [now apply Hq in Hm | exact H].
Qed.

Lemma filter_weaken {A} (p q : A -> bool) (l : list A) :
  (forall x, q x = true -> p x = true) -> filter p l = [] -> filter q l = [].
Proof.
  intros Hpq H. apply filter_none. apply Forall_forall. intros x Hx.
  destruct (q x) eqn:E; [|reflexivity].
  assert (In x (filter p l)) as Hin by (apply filter_In; auto).
  rewrite H in Hin. contradiction.
Qed.

Lemma late_parts (t : list event) :
  filter late_event t = [] ->
  scripts_written t = [] /\ filter is_check_call t = []
  /\ filter is_read t = [].
Proof.
  intros H. split; [|split].
  - apply scripts_none. apply Forall_forall. intros ev Hev.
    destruct (is_write_text ev) eqn:E; [|reflexivity].
    assert (In ev (filter late_event t)) as Hin
      by (apply filter_In; split; [exact Hev | unfold late_event; now rewrite E]).
    rewrite H in Hin. contradiction.
  - apply (filter_weaken late_event); [|exact H].
    intros ev E. unfold late_event. rewrite E. now rewrite orb_true_r.
  - apply (filter_weaken late_event); [|exact H].
    intros ev E. unfold late_event. rewrite E. now rewrite orb_true_r.
Qed.

(** The script, the call and the read of a single-configuration run. *)
Lemma run_files {R} env self (g : R) (r : result unit) st' :
  run env self (init_state self g) = (r, st') ->
  (scripts_written (trace st') = []
   /\ filter is_check_call (trace st') = []
   /\ filter is_read (trace st') = []
   /\ exists e, r = Raise e)
  \/ exists file,
       scripts_written (trace st')
       = [((structures self ++ "/packmole.inp")%string, file)]
       /\ filter is_check_call (trace st')
          = [EvCheckCall "packmol < packmole.inp" (structures self)]
       /\ (filter is_read (trace st') = []
           \/ filter is_read (trace st')
              = [EvRead (structures self ++ "/mixture.xyz")])
       /\ (r = Ok tt ->
           filter is_read (trace st')
           = [EvRead (structures self ++ "/mixture.xyz")]).
Proof.
  unfold run. intros H.
  assert (filter late_event (trace (init_state self g)) = []) as H0
    by reflexivity.
  apply (bind_early late_event) in H
    as [(e & -> & E) | ([] & s1 & E & H)]; [| |quiet_steps].
  { rewrite H0 in E. apply late_parts in E as (A & B & C). left. eauto. }
  rewrite H0 in E. clear H0. rename E into H0.
  apply (bind_early late_event) in H
    as [(e & -> & E) | ([] & s2 & E & H)]; [| |quiet_steps].
  { rewrite H0 in E. apply late_parts in E as (A & B & C). left. eauto. }
  rewrite H0 in E. clear H0. rename E into H0.
  apply (bind_early late_event) in H
    as [(e & -> & E) | ([] & s3 & E & H)]; [| |quiet_steps].
  { rewrite H0 in E. apply late_parts in E as (A & B & C). left. eauto. }
  rewrite H0 in E. clear H0. rename E into H0.
  apply (bind_early late_event) in H
    as [(e & -> & E) | (v & s4 & E & H)]; [| |quiet_steps].
  { rewrite H0 in E. apply late_parts in E as (A & B & C). left. eauto. }
  rewrite H0 in E. clear H0. rename E into H0.
  apply (bind_early late_event) in H
    as [(e & -> & E) | (br & s5 & E & H)]; [| |quiet_steps].
  { rewrite H0 in E. apply late_parts in E as (A & B & C). left. eauto. }
  rewrite H0 in E. clear H0. rename E into H0.
  apply (bind_early late_event) in H
    as [(e & -> & E) | (file & s6 & E & H)]; [| |quiet_steps].
  { rewrite H0 in E. apply late_parts in E as (A & B & C). left. eauto. }
  rewrite H0 in E. clear H0.
  apply late_parts in E as (A & B & C).
  right. exists file.
  apply bind_inv in H as [(e & Hm & ->) | ([] & s7 & Hm & H)];
    [discriminate|].
  apply emit_inv in Hm as [_ ->].
  apply bind_inv in H as [(e & Hm & ->) | ([] & s8 & Hm & H)].
  { apply check_call_inv in Hm as [-> _].
    cbn [logged trace]. rewrite !scripts_written_app, !filter_app, A, B, C.
    cbn. split; [reflexivity|]. split; [reflexivity|].
    split; [now left | discriminate]. }
  apply check_call_inv in Hm as [-> _].
  apply bind_inv in H as [(e & Hm & ->) | (a & s9 & Hm & H)];
    apply load_result_inv in Hm as [-> _];
    [|apply set_atoms_inv in H as [_ ->]];
    cbn [logged trace]; rewrite !scripts_written_app, !filter_app, A, B, C;
    cbn; (split; [reflexivity|]); (split; [reflexivity|]);
    (split; [now right|]); reflexivity.
Qed.

(** ** Distinct names *)

Lemma firstn_enumerate {A} (l : list A) : forall k i,
  firstn k (enumerate_from i l) = enumerate_from i (firstn k l).
Proof.
  induction l as [|x l IH]; intros [|k] i; simpl; try reflexivity.
  now rewrite IH.
Qed.

Lemma Forall2_paths {A B} (P : A -> B -> Prop) (f : A -> string)
    (l : list A) (l' : list (string * B)) :
  Forall2 (fun x pa => fst pa = f x /\ P x (snd pa)) l l' ->
  map fst l' = map f l.
Proof.
  induction 1 as [|x pa l l' [Hp _] _ IH]; simpl; congruence.
Qed.

Lemma conformer_files_from self (l : list (list Atoms)) : forall i p,
  In p (map fst
          (flat_map (fun ip =>
                       map (fun ja => (conformer_path self (fst ip) (fst ja),
                                       snd ja))
                           (enumerate_from 0 (snd ip)))
                    (enumerate_from i l))) ->
  exists idx jdx pool,
    p = conformer_path self idx jdx
    /\ i <= idx
    /\ nth_error l (Z.to_nat (idx - i)) = Some pool
    /\ 0 <= jdx < Z.of_nat (List.length pool).
Proof.
  intros i p H. apply in_map_iff in H as ([q a] & <- & H).
  apply in_flat_map in H as ([idx pool] & Hip & H).
  apply in_map_iff in H as ([jdx a'] & Heq & Hja).
  injection Heq as <- <-. cbn [fst snd] in *.
  apply enumerate_from_bounds in Hip as [Hb Hn].
  apply enumerate_from_bounds in Hja as [Hb' _].
  exists idx, jdx, pool. repeat split; auto; lia.
Qed.

Lemma NoDup_conformer_files_from self (l : list (list Atoms)) : forall i,
  NoDup (map fst
           (flat_map (fun ip =>
                        map (fun ja => (conformer_path self (fst ip) (fst ja),
                                        snd ja))
                            (enumerate_from 0 (snd ip)))
                     (enumerate_from i l))).
Proof.
  induction l as [|pool l IH]; intros i; [constructor|].
  cbn [enumerate_from flat_map fst snd]. rewrite map_app. apply NoDup_app.
  - rewrite map_map. cbn [fst].
    rewrite <- (map_map fst (conformer_path self i)).
    apply NoDup_map_inj; [|apply NoDup_enumerate].
    intros x y H. now apply conformer_path_inj in H.
  - apply IH.
  - intros p H1 H2.
    apply in_map_iff in H1 as ([q a] & <- & H1).
    apply in_map_iff in H1 as ([j a'] & Heq & _). injection Heq as <- _.
    apply conformer_files_from in H2 as (idx & jdx & _ & Heq & Hle & _).
    apply conformer_path_inj in Heq as [-> _]. lia.
Qed.

(** X10.  No file of a run overwrites another: the coordinate files written
    by a run have pairwise distinct paths, and so have the scripts of a
    multi-configuration run. *)
Theorem written_files_have_distinct_names (env : Env) :
  (forall (self : Packmol) r st',
      run env self (init_state self tt) = (r, st') ->
      NoDup (map fst (xyz_written (trace st'))))
  /\ (forall np (m : MultiPackmol) g r st',
        multi_run np env m (init_state (base m) g) = (r, st') ->
        NoDup (map fst (xyz_written (trace st')))
        /\ NoDup (map fst (scripts_written (trace st')))).
Proof.
  split.
  - intros self r st' Hrun.
    apply run_inputs in Hrun as (files & -> & HF & _).
    rewrite (Forall2_paths (fun ip a => chosen self (fst ip) (snd ip) a)
               (fun ip => species_path self (fst ip)) _ _ HF).
    rewrite firstn_enumerate, <- (map_map fst (species_path self)).
    apply NoDup_map_inj; [|apply NoDup_enumerate].
    intros x y. apply species_path_inj.
  - intros np m g r st' Hrun.
    apply multi_run_files in Hrun
      as (files & nr & _ & _ & Hs & _ & _ & Hx & _).
    split.
    + destruct Hx as [-> | (-> & _)]; [|constructor].
      apply NoDup_conformer_files_from.
    + rewrite Hs, map_map. cbn [fst].
      rewrite <- (map_map fst (script_path (base m))).
      apply NoDup_map_inj; [|apply NoDup_enumerate].
      intros x y. apply script_path_inj.
Qed.

Lemma written_files_have_distinct_names_witness :
  NoDup (map fst (xyz_written (trace (snd cube10_v18))))
  /\ NoDup (map fst (xyz_written (trace (snd cube10_multi_v18))))
  /\ NoDup (map fst (scripts_written (trace (snd cube10_multi_v18))))
  /\ map fst (xyz_written (trace (snd cube10_multi_v18)))
     = ["nodes/packmol/0_0.xyz"; "nodes/packmol/1_0.xyz";
        "nodes/packmol/1_1.xyz"]
  /\ map fst (scripts_written (trace (snd cube10_multi_v18)))
     = ["nodes/packmol/packmole_0.inp"; "nodes/packmol/packmole_1.inp"].
Proof.
  split; [|split; [|split]].
  - exact (proj1 (written_files_have_distinct_names env_v18)
             cube10 _ _ (surjective_pairing _)).
  - exact (proj1 (proj2 (written_files_have_distinct_names env_v18)
                    counter_rng cube10_multi 0 _ _ (surjective_pairing _))).
  - exact (proj2 (proj2 (written_files_have_distinct_names env_v18)
                    counter_rng cube10_multi 0 _ _ (surjective_pairing _))).
  - split; vm_compute; reflexivity.
Defined.

(** ** Scripts and the files they name *)

Lemma conformer_files_in self (jn kn : nat) (pool : list Atoms) :
  nth_error (data self) jn = Some pool ->
  (kn < List.length pool)%nat ->
  In (conformer_path self (Z.of_nat jn) (Z.of_nat kn))
     (map fst (conformer_files self)).
Proof.
  intros Hj Hk.
  destruct (nth_error pool kn) as [a|] eqn:Ea;
    [|apply nth_error_None in Ea; lia].
  apply in_map_iff. exists (conformer_path self (Z.of_nat jn) (Z.of_nat kn), a).
  split; [reflexivity|].
  unfold conformer_files. apply in_flat_map.
  exists (Z.of_nat jn, pool). split.
  - apply (enumerate_from_nth _ 0) in Hj. apply nth_error_In in Hj. exact Hj.
  - apply in_map_iff. exists (Z.of_nat kn, a). split; [reflexivity|].
    apply (enumerate_from_nth _ 0) in Ea. apply nth_error_In in Ea. exact Ea.
Qed.

Lemma nth_error_combine_l {A B} (l : list A) (l' : list B) : forall n a b,
  nth_error (combine l l') n = Some (a, b) -> nth_error l n = Some a.
Proof.
  revert l'. induction l as [|x l IH]; intros l' n a b H.
  - destruct n; discriminate.
  - destruct l' as [|y l']; [destruct n; discriminate|].
    destruct n as [|n]; simpl in *.
    + now injection H as -> _.
    + eapply IH. exact H.
Qed.

(** X11.  Every coordinate file a script refers to has been written by the
    same run, in the directory the solver is started in: in single mode
    the file of every species (the lists of species and counts having
    the same length, as the constructor checks), in multi mode the file
    of every drawn conformer. *)
Theorem scripts_name_written_files (env : Env) :
  (forall (self : Packmol) r st' p file blk,
      List.length (data self) = List.length (count self) ->
      run env self (init_state self tt) = (r, st') ->
      In (p, file) (scripts_written (trace st')) ->
      In blk (blocks_of file) ->
      In (structures self ++ "/" ++ blk_file blk)
         (map fst (xyz_written (trace st'))))
  /\ (forall np (m : MultiPackmol) g r st' p file blk,
        multi_run np env m (init_state (base m) g) = (r, st') ->
        In (p, file) (scripts_written (trace st')) ->
        In blk (blocks_of file) ->
        In (structures (base m) ++ "/" ++ blk_file blk)
           (map fst (xyz_written (trace st')))).
Proof.
  split.
  - intros self r st' p file blk Hlen Hrun Hin Hblk.
    destruct (single_script_read _ _ _ _ _ _ _ Hrun Hin)
      as (_ & v & br & bounds & _ & _ & _ & Hb & _).
    rewrite Hb in Hblk. apply in_map_iff in Hblk as ([i c] & <- & Hic).
    cbn [blk_file fst snd].
    apply enumerate_from_bounds in Hic as [Hi _].
    apply run_inputs in Hrun as (files & Hx & HF & Hall).
    rewrite Hx.
    rewrite Hall in HF by (intros E; rewrite E in Hin; contradiction).
    rewrite <- (enumerate_from_length (data self) 0), firstn_all in HF.
    rewrite (Forall2_paths (fun ip a => chosen self (fst ip) (snd ip) a)
               (fun ip => species_path self (fst ip)) _ _ HF).
    destruct (nth_error (data self) (Z.to_nat i)) as [pool|] eqn:En;
      [|apply nth_error_None in En; lia].
    apply (enumerate_from_nth _ 0) in En. apply nth_error_In in En.
    apply in_map_iff. exists (i, pool). split; [reflexivity|].
    replace (0 + Z.of_nat (Z.to_nat i)) with i in En by lia. exact En.
  - intros np m g r st' p file blk Hrun Hin Hblk.
    destruct (multi_script_read _ _ _ _ _ _ _ _ Hrun Hin)
      as (_ & v & br & bounds & ds & _ & _ & _ & Hreq & _ & _
          & (g1 & g2 & Hsp) & Hb & _).
    rewrite Hb in Hblk. unfold placed_blocks in Hblk.
    apply in_flat_map in Hblk as ([j d] & Hjd & Hblk).
    apply in_map_iff in Hblk as (k & <- & Hk).
    cbn [blk_file fst snd] in *.
    apply enumerate_from_bounds in Hjd as [Hj Hn].
    rewrite Z.sub_0_r in Hn.
    destruct (draw_species_spec _ _ _ _ _ Hsp) as [_ Hok].
    rewrite Forall_forall in Hok.
    destruct (Hok d (nth_error_In _ _ Hn)) as (_ & _ & _ & _ & Hrange).
    rewrite Forall_forall in Hrange. specialize (Hrange k Hk).
    assert (nth_error (pool_sizes (base m)) (Z.to_nat j) = Some (draw_a d))
      as Hp.
    { apply (nth_error_combine_l _ (count (base m)) _ _ (draw_size d)).
      rewrite <- Hreq. now rewrite nth_error_map, Hn. }
    unfold pool_sizes in Hp. rewrite nth_error_map in Hp.
    destruct (nth_error (data (base m)) (Z.to_nat j)) as [pool|] eqn:Ed;
      [|discriminate].
    injection Hp as Hp.
    apply multi_run_files in Hrun
      as (files & nr & _ & _ & Hs & _ & _ & Hx & _).
    destruct Hx as [-> | (_ & -> & _)];
      [|rewrite Hs in Hin; contradiction].
    pose proof (conformer_files_in (base m) (Z.to_nat j) (Z.to_nat k) pool Ed
                  ltac:(lia)) as Hfile.
    rewrite !Z2Nat.id in Hfile by lia. exact Hfile.
Qed.

Lemma scripts_name_written_files_witness :
  List.length (data cube10) = List.length (count cube10)
  /\ map (fun b => structures cube10 ++ "/" ++ blk_file b)
         (blocks_of (script_no 0 cube10_v18))
     = ["nodes/packmol/0.xyz"; "nodes/packmol/1.xyz"]
  /\ map fst (xyz_written (trace (snd cube10_v18)))
     = ["nodes/packmol/0.xyz"; "nodes/packmol/1.xyz"]
  /\ (forall blk,
        In blk (blocks_of (script_no 0 cube10_v18)) ->
        In (structures cube10 ++ "/" ++ blk_file blk)
           (map fst (xyz_written (trace (snd cube10_v18)))))
  /\ (forall blk,
        In blk (blocks_of (script_no 1 cube10_multi_v18)) ->
        In (structures (base cube10_multi) ++ "/" ++ blk_file blk)
           (map fst (xyz_written (trace (snd cube10_multi_v18))))).
Proof.
  split; [reflexivity|]. split; [vm_compute; reflexivity|].
  split; [vm_compute; reflexivity|].
  destruct (scripts_name_written_files env_v18) as [Hsingle Hmulti].
  split.
  - intros blk.
    apply (Hsingle cube10 (fst cube10_v18) (snd cube10_v18)
                   "nodes/packmol/packmole.inp" (script_no 0 cube10_v18) blk
                   eq_refl (surjective_pairing _)).
    vm_compute. left. reflexivity.
  - intros blk.
    apply (Hmulti counter_rng cube10_multi 0
                  (fst cube10_multi_v18) (snd cube10_multi_v18)
                  "nodes/packmol/packmole_1.inp"
                  (script_no 1 cube10_multi_v18) blk (surjective_pairing _)).
    vm_compute. right. left. reflexivity.
Defined.

(** ** The script, the call and the read *)

Lemma single_head_lines {R} env self (g : R) r st' p file :
  run env self (init_state self g) = (r, st') ->
  In (p, file) (scripts_written (trace st')) ->
  lines_with "filetype" file = [ ["filetype"; "xyz"] ]
  /\ lines_with "output" file = [ ["output"; "mixture.xyz"] ].
Proof.
  intros Hrun Hin.
  destruct (single_script_lines _ _ _ _ _ _ _ Hrun Hin)
    as (_ & v & br & bounds & _ & Hbr & _ & Hd).
  destruct (branch_head _ _ _ _ Hbr) as (extra & Hex & Hshape).
  set (fn := fun ic : Z * Z => str_Z (fst ic) ++ ".xyz") in *.
  set (fc := fun ic : Z * Z => str_Z (snd ic)) in *.
  rewrite Hex, file_header_directives in Hd.
  split; unfold lines_with; rewrite Hd, !filter_app.
  - rewrite (no_kw_in_blocks "filetype" fn fc) by reflexivity.
    destruct Hshape as [-> | (pb & ->)]; reflexivity.
  - rewrite (no_kw_in_blocks "output" fn fc) by reflexivity.
    destruct Hshape as [-> | (pb & ->)]; reflexivity.
Qed.

Lemma multi_head_lines np env m g r st' p file :
  multi_run np env m (init_state (base m) g) = (r, st') ->
  In (p, file) (scripts_written (trace st')) ->
  exists idx,
    p = script_path (base m) idx
    /\ lines_with "filetype" file = [ ["filetype"; "xyz"] ]
    /\ lines_with "output" file
       = [ ["output"; ("mixture_" ++ str_Z idx ++ ".xyz")%string] ].
Proof.
  intros Hrun Hin.
  destruct (multi_script_lines _ _ _ _ _ _ _ _ Hrun Hin)
    as (_ & v & br & idx & ds & _ & Hbr & Hp & Hcfg & _).
  destruct Hcfg as (_ & _ & bounds & _ & Hd).
  destruct (branch_head _ _ _ _ Hbr) as (extra & Hex & Hshape).
  rewrite Hex, multi_file_head_directives in Hd.
  exists idx. split; [exact Hp|].
  split; unfold lines_with; rewrite Hd, !filter_app.
  - rewrite no_kw_in_placements by reflexivity.
    destruct Hshape as [-> | (pb & ->)]; reflexivity.
  - rewrite no_kw_in_placements by reflexivity.
    destruct Hshape as [-> | (pb & ->)]; reflexivity.
Qed.

(** X12.  The script, the call of the solver and the read fit together.  A
    single-configuration run writes at most one script,
    [packmole.inp]; it declares the file type [xyz] and the output
    [mixture.xyz]; the one call of the solver reads that script in the
    run directory, and the one read is of [mixture.xyz] there.  A
    multi-configuration run writes the scripts [packmole_0.inp],
    [packmole_1.inp], ... in order, script [i] declaring the output
    [mixture_i.xyz]; there is one call per script, call [i] on script
    [i], and the reads are of [mixture_0.xyz], [mixture_1.xyz], ... for
    a first part of the calls (all of them when the run completes). *)
Theorem script_call_and_read_agree (env : Env) :
  (forall (self : Packmol) r st',
      run env self (init_state self tt) = (r, st') ->
      (scripts_written (trace st') = []
       /\ filter is_check_call (trace st') = []
       /\ filter is_read (trace st') = []
       /\ exists e, r = Raise e)
      \/ exists file,
           scripts_written (trace st')
           = [((structures self ++ "/packmole.inp")%string, file)]
           /\ lines_with "filetype" file = [ ["filetype"; "xyz"] ]
           /\ lines_with "output" file = [ ["output"; "mixture.xyz"] ]
           /\ filter is_check_call (trace st')
              = [EvCheckCall "packmol < packmole.inp" (structures self)]
           /\ (filter is_read (trace st') = []
               \/ filter is_read (trace st')
                  = [EvRead (structures self ++ "/mixture.xyz")])
           /\ (r = Ok tt ->
               filter is_read (trace st')
               = [EvRead (structures self ++ "/mixture.xyz")]))
  /\ (forall np (m : MultiPackmol) g r st',
        multi_run np env m (init_state (base m) g) = (r, st') ->
        exists (files : list string) (nr : nat),
          (nr <= List.length files <= Z.to_nat (n_configurations m))%nat
          /\ scripts_written (trace st')
             = map (fun ic => (script_path (base m) (fst ic), snd ic))
                   (enumerate_from 0 files)
          /\ Forall (fun ic =>
                       lines_with "filetype" (snd ic) = [ ["filetype"; "xyz"] ]
                       /\ lines_with "output" (snd ic)
                          = [ ["output";
                               ("mixture_" ++ str_Z (fst ic) ++ ".xyz")%string] ])
                    (enumerate_from 0 files)
          /\ filter is_check_call (trace st')
             = map (fun i => EvCheckCall (solver_command (Z.of_nat i))
                                         (structures (base m)))
                   (seq 0 (List.length files))
          /\ filter is_read (trace st')
             = map (fun i => EvRead (mixture_path (base m) (Z.of_nat i)))
                   (seq 0 nr)
          /\ (r = Ok tt ->
              List.length files = Z.to_nat (n_configurations m)
              /\ nr = Z.to_nat (n_configurations m))).
Proof.
  split.
  - intros self r st' Hrun.
    destruct (run_files _ _ _ _ _ Hrun)
      as [H | (file & Hs & Hc & Hr & Hok)]; [now left|].
    right. exists file.
    destruct (single_head_lines env self tt r st'
                (structures self ++ "/packmole.inp") file Hrun)
      as [Hf Ho]; [rewrite Hs; now left|].
    auto 10.
  - intros np m g r st' Hrun.
    destruct (multi_run_files _ _ _ _ _ _ Hrun)
      as (files & nr & Hl & Hn & Hs & Hc & Hr & _ & Hok).
    exists files, nr. split; [lia|]. split; [exact Hs|].
    split; [|split; [exact Hc|split; [exact Hr|]]].
    + apply Forall_forall. intros [i file] Hin. cbn [fst snd].
      destruct (multi_head_lines np env m g r st'
                  (script_path (base m) i) file Hrun)
        as (idx & Hp & Hf & Ho).
      { rewrite Hs. apply in_map_iff. exists (i, file). auto. }
      apply script_path_inj in Hp. subst idx. auto.
    + intros E. destruct (Hok E) as (A & B & _). auto.
Qed.

Lemma script_call_and_read_agree_witness :
  (lines_with "output" (script_no 0 cube10_v18) = [ ["output"; "mixture.xyz"] ]
   /\ filter is_check_call (trace (snd cube10_v18))
      = [EvCheckCall "packmol < packmole.inp" "nodes/packmol"]
   /\ filter is_read (trace (snd cube10_v18))
      = [EvRead "nodes/packmol/mixture.xyz"])
  /\ ((scripts_written (trace (snd cube10_v18)) = []
       /\ filter is_check_call (trace (snd cube10_v18)) = []
       /\ filter is_read (trace (snd cube10_v18)) = []
       /\ exists e, fst cube10_v18 = Raise e)
      \/ exists file,
           scripts_written (trace (snd cube10_v18))
           = [((structures cube10 ++ "/packmole.inp")%string, file)]
           /\ lines_with "filetype" file = [ ["filetype"; "xyz"] ]
           /\ lines_with "output" file = [ ["output"; "mixture.xyz"] ]
           /\ filter is_check_call (trace (snd cube10_v18))
              = [EvCheckCall "packmol < packmole.inp" (structures cube10)]
           /\ (filter is_read (trace (snd cube10_v18)) = []
               \/ filter is_read (trace (snd cube10_v18))
                  = [EvRead (structures cube10 ++ "/mixture.xyz")])
           /\ (fst cube10_v18 = Ok tt ->
               filter is_read (trace (snd cube10_v18))
               = [EvRead (structures cube10 ++ "/mixture.xyz")])).
Proof.
  split; [repeat split; vm_compute; reflexivity|].
  exact (proj1 (script_call_and_read_agree env_v18)
           cube10 _ _ (surjective_pairing _)).
Defined.

(** ** No configuration asked for *)

Lemma draws_none (t : list event) :
  Forall (fun ev => is_choice ev = false) t -> draws_made t = [].
Proof.
  induction 1 as [|ev t Hev _ IH]; [reflexivity|].
  destruct ev; try discriminate; simpl; exact IH.
Qed.



(** ** Results of a run that fails *)

Lemma configurations_results np env self file_head sb : forall n k s r s',
  for_each (map Z.of_nat (seq k n)) (configuration np env self file_head sb) s
  = (r, s') ->
  self_box s' = self_box s
  /\ exists (anew : list Atoms) (ns : nat),
       self_atoms s'
       = (self_atoms s ++ map (stamped self (self_box s)) anew)%list
       /\ List.length (scripts_written (trace s'))
          = (List.length (scripts_written (trace s)) + ns)%nat
       /\ (List.length anew <= ns <= S (List.length anew))%nat
       /\ (r = Ok tt -> List.length anew = n /\ ns = n)
       /\ (forall e, r = Raise e -> (List.length anew < n)%nat).
Proof.
  induction n as [|n IH]; intros k s r s' H.
  - injection H as <- <-. split; [reflexivity|]. exists [], 0%nat. simpl.
    rewrite app_nil_r. repeat split; auto; try lia. discriminate.
  - cbn [seq map for_each] in H.
    apply bind_inv in H as [(e & Hc & ->) | ([] & s1 & Hc & H)].
    + apply configuration_exits in Hc
        as (Hb & ds & [(e' & _ & Ha & Htr)
                      | (file & [(_ & _ & Ha & Htr)
                                | (_ & Htr & [(e' & _ & Ha & _)
                                             | (a0 & He & _)])])]);
        try discriminate; split; try exact Hb.
      * exists [], 0%nat. rewrite Htr, scripts_written_app, scripts_choices.
        simpl. rewrite !app_nil_r.
        repeat split; auto; try lia; discriminate.
      * exists [], 1%nat. rewrite Htr, !scripts_written_app, scripts_choices.
        simpl. rewrite ?app_nil_r, ?List.length_app. simpl.
        repeat split; auto; try lia; discriminate.
      * exists [], 1%nat. rewrite Htr, !scripts_written_app, scripts_choices.
        simpl. rewrite ?app_nil_r, ?List.length_app. simpl.
        repeat split; auto; try lia; discriminate.
    + apply configuration_exits in Hc
        as (Hb & ds & [(e' & He & _)
                      | (file & [(He & _)
                                | (_ & Htr & [(e' & He & _)
                                             | (a0 & _ & _ & Ha)])])]);
        try discriminate.
      apply IH in H as (Hb' & anew & ns & Hat & Hs & Hn & Hok & Hbad).
      split; [congruence|].
      exists (a0 :: anew), (S ns).
      rewrite Hat, Ha, Hb, Hs, Htr, !scripts_written_app, scripts_choices.
      cbn [map List.length scripts_written app].
      rewrite !List.length_app. cbn [List.length].
      rewrite <- app_assoc. cbn [app].
      split; [reflexivity|]. split; [lia|]. split; [lia|]. split.
      * intros E. destruct (Hok E) as [-> ->]. now split.
      * intros e E. specialize (Hbad e E). lia.
Qed.

(** X14.  A multi-configuration run that fails part-way keeps what it has:
    [self.atoms] holds the structures of the configurations completed
    before the failure (each stamped as in a run that completes), one
    per script written or one less, and fewer than were asked for. *)
Theorem failed_multi_run_keeps_results np (env : Env) (m : MultiPackmol)
    (g : rng_state np) (r : result unit) (st' : State (rng_state np)) :
  multi_run np env m (init_state (base m) g) = (r, st') ->
  exists anew : list Atoms,
    self_atoms st' = map (stamped (base m) (self_box st')) anew
    /\ (List.length anew <= List.length (scripts_written (trace st'))
        <= S (List.length anew))%nat
    /\ (r = Ok tt ->
        List.length anew = Z.to_nat (n_configurations m)
        /\ List.length (scripts_written (trace st'))
           = Z.to_nat (n_configurations m))
    /\ (forall e, r = Raise e ->
        0 < n_configurations m ->
        (List.length anew < Z.to_nat (n_configurations m))%nat).
Proof.
  intros H.
  assert (forall ev, setup_event ev = true -> is_write_text ev = false) as Sw
    by (intros ev; destruct ev; try discriminate; reflexivity).
  apply multi_run_setup in H
    as [(e & t & -> & Ht & Ha & Hs) | (br & s1 & Ha & Hs & _ & H)].
  - exists []. rewrite Ha, Ht.
    rewrite (scripts_none t (setup_choices_not _ _ Sw (setup_of_prelude _ Hs))).
    simpl. split; [reflexivity|]. split; [lia|].
    split; [discriminate | intros; lia].
  - unfold py_range in H.
    apply configurations_results in H
      as (Hb & anew & ns & Hat & Hsc & Hn & Hok & Hbad).
    rewrite (scripts_none _ (setup_choices_not _ _ Sw Hs)) in Hsc.
    simpl in Hsc.
    exists anew. rewrite Hat, Ha, Hb, Hsc. cbn [app].
    split; [reflexivity|]. split; [lia|]. split.
    + intros E. destruct (Hok E) as [-> ->]. now split.
    + intros e E _. exact (Hbad e E).
Qed.

Lemma failed_multi_run_keeps_results_witness :
  (exists e, fst cube10_three_run = Raise e)
  /\ List.length (scripts_written (trace (snd cube10_three_run))) = 2%nat
  /\ List.length (self_atoms (snd cube10_three_run)) = 1%nat
  /\ exists anew : list Atoms,
       self_atoms (snd cube10_three_run)
       = map (stamped (base cube10_three) (self_box (snd cube10_three_run)))
             anew
       /\ (List.length anew
           <= List.length (scripts_written (trace (snd cube10_three_run)))
           <= S (List.length anew))%nat
       /\ (fst cube10_three_run = Ok tt ->
           List.length anew = Z.to_nat (n_configurations cube10_three)
           /\ List.length (scripts_written (trace (snd cube10_three_run)))
              = Z.to_nat (n_configurations cube10_three))
       /\ (forall e,
             fst cube10_three_run = Raise e ->
             0 < n_configurations cube10_three ->
             (List.length anew
              < Z.to_nat (n_configurations cube10_three))%nat).
Proof.
  split; [eexists; vm_compute; reflexivity|].
  split; [vm_compute; reflexivity|].
  split; [vm_compute; reflexivity|].
  exact (failed_multi_run_keeps_results counter_rng env_second_unreadable
           cube10_three 0 _ _ (surjective_pairing _)).
Defined.

(** ** What the constructor leaves *)

(** X15.  A request that [_post_init_] accepts is well formed afterwards:
    species and counts have the same length, [data_ids] (when given) too,
    a box or a density is there, and the box is no longer a single
    number: a number [x] has become [[x, x, x]], everything else is
    as it was.  Checking the result again changes nothing. *)
Theorem post_init_normalises (self built : Packmol) :
  _post_init_ self = Ok built ->
  (data built = data self /\ data_ids built = data_ids self
   /\ count built = count self /\ tolerance built = tolerance self
   /\ density built = density self /\ structures built = structures self
   /\ pbc built = pbc self)
  /\ List.length (data built) = List.length (count built)
  /\ (forall ids, data_ids built = Some ids ->
                  List.length (data built) = List.length ids)
  /\ (box built <> BoxNone \/ density built <> None)
  /\ match box self with
     | BoxScalar x => box built = BoxList [x; x; x]
     | b => box built = b
     end
  /\ (forall x, box built <> BoxScalar x)
  /\ _post_init_ built = Ok built.
Proof.
  unfold _post_init_ at 1.
  destruct (box_is_none (box self) && is_none (density self))%bool eqn:E0;
    [discriminate|].
  destruct (Nat.eqb (List.length (data self)) (List.length (count self)))
    eqn:E1; [|discriminate].
  cbn [negb].
  destruct (match data_ids self with
            | Some ids =>
                negb (Nat.eqb (List.length (data self)) (List.length ids))
            | None => false
            end) eqn:E2; [discriminate|].
  intros H.
  assert (data built = data self /\ data_ids built = data_ids self
          /\ count built = count self /\ tolerance built = tolerance self
          /\ density built = density self /\ structures built = structures self
          /\ pbc built = pbc self
          /\ match box self with
             | BoxScalar x => box built = BoxList [x; x; x]
             | b => box built = b
             end) as (A & B & C & D & F & G & P & Hbox).
  { destruct (box self) eqn:Eb; injection H as <-; rewrite ?Eb;
      repeat split; reflexivity. }
  assert (forall x, box built <> BoxScalar x) as Hns.
  { intros x Hx. destruct (box self); rewrite Hbox in Hx; discriminate. }
  assert ((box_is_none (box built) && is_none (density built))%bool = false)
    as E0'.
  { rewrite F. destruct (box self); rewrite Hbox; try exact E0; reflexivity. }
  split; [auto 10|]. split; [|split; [|split; [|split; [|split]]]].
  - rewrite A, C. now apply Nat.eqb_eq.
  - intros ids Hids. rewrite A. rewrite B in Hids. rewrite Hids in E2.
    apply negb_false_iff in E2. now apply Nat.eqb_eq.
  - apply andb_false_iff in E0' as [E | E].
    + left. intros Hb. now rewrite Hb in E.
    + right. intros Hd. now rewrite Hd in E.
  - exact Hbox.
  - exact Hns.
  - unfold _post_init_. rewrite E0', A, B, C, E1, E2. cbn [negb].
    destruct (box built) as [| x |] eqn:Eb; try reflexivity.
    now destruct (Hns x).
Qed.

Lemma post_init_normalises_witness :
  _post_init_ scalar_box
  = Ok (with_box scalar_box (BoxList [PyFloat 10; PyFloat 10; PyFloat 10]))
  /\ box (with_box scalar_box (BoxList [PyFloat 10; PyFloat 10; PyFloat 10]))
     = BoxList [PyFloat 10; PyFloat 10; PyFloat 10]
  /\ _post_init_
       (with_box scalar_box (BoxList [PyFloat 10; PyFloat 10; PyFloat 10]))
     = Ok (with_box scalar_box (BoxList [PyFloat 10; PyFloat 10; PyFloat 10])).
Proof.
  assert (_post_init_ scalar_box
          = Ok (with_box scalar_box
                  (BoxList [PyFloat 10; PyFloat 10; PyFloat 10]))) as H
    by reflexivity.
  split; [exact H|].
  destruct (post_init_normalises _ _ H) as (_ & _ & _ & _ & Hb & _ & Hi).
  split; [exact Hb | exact Hi].
Defined.

(** ** The number of bounds in a block *)

(** X16.  The number of entries of the box is nowhere checked: the
    [inside box] line of every block carries the three zeros and one
    rendered bound per entry of the box, however many there are. *)
Theorem block_bounds_follow_box (env : Env) :
  (forall (self : Packmol) r st' p file blk,
      run env self (init_state self tt) = (r, st') ->
      In (p, file) (scripts_written (trace st')) ->
      In blk (blocks_of file) ->
      exists l bounds,
        self_box st' = BoxList l
        /\ blk_inside blk = "0" :: "0" :: "0" :: bounds
        /\ List.length bounds = List.length l)
  /\ (forall np (m : MultiPackmol) g r st' p file blk,
        multi_run np env m (init_state (base m) g) = (r, st') ->
        In (p, file) (scripts_written (trace st')) ->
        In blk (blocks_of file) ->
        exists l bounds,
          self_box st' = BoxList l
          /\ blk_inside blk = "0" :: "0" :: "0" :: bounds
          /\ List.length bounds = List.length l).
Proof.
  assert (forall self b v br bounds,
             branch_outcome self b v br ->
             box_fields (snd br) = Ok bounds ->
             exists l, b = BoxList l
                       /\ List.length bounds = List.length l) as Hlen.
  { intros self b v br bounds Hbr Hb.
    destruct (box_fields_inv _ _ Hb) as (l' & Hl' & Hfmt & _).
    apply Forall2_length in Hfmt.
    destruct Hbr as [(_ & _ & Hs & _) | [(_ & _ & Hs & _) | (_ & Hs & _)]].
    - exists l'. split; congruence.
    - apply shrink_box_inv in Hs as (l & scaled & -> & Hsc & Hsh).
      apply Forall2_length in Hsh. exists l. split; [reflexivity|].
      rewrite Hl' in Hsc. injection Hsc as <-. congruence.
    - exists l'. split; congruence. }
  split.
  - intros self r st' p file blk Hrun Hin Hblk.
    destruct (single_script_read _ _ _ _ _ _ _ Hrun Hin)
      as (_ & v & br & bounds & _ & Hbr & Hb & Hbl & _).
    rewrite Hbl in Hblk. apply in_map_iff in Hblk as ([i c] & <- & Hic).
    destruct Hb as [Hb | Hb]; [rewrite Hb in Hic; contradiction|].
    destruct (Hlen _ _ _ _ _ Hbr Hb) as (l & Hl & Hn).
    exists l, bounds. auto.
  - intros np m g r st' p file blk Hrun Hin Hblk.
    destruct (multi_script_read _ _ _ _ _ _ _ _ Hrun Hin)
      as (_ & v & br & bounds & ds & _ & Hbr & Hb & _ & _ & _ & _
          & Hbl & _).
    rewrite Hbl in Hblk.
    destruct (placed_blocks_in _ _ _ Hblk) as (Hi & _ & [j d] & Hjd & Hne).
    destruct Hb as [Hb | Hb].
    + exfalso. apply Hne. rewrite Forall_forall in Hb. apply Hb.
      eapply enumerate_from_in; eauto.
    + destruct (Hlen _ _ _ _ _ Hbr Hb) as (l & Hl & Hn).
      exists l, bounds. auto.
Qed.

Lemma block_bounds_follow_box_witness :
  map blk_inside (blocks_of (script_no 0 flat_box_v20))
  = [ ["0"; "0"; "0"; "10.0000"; "10.0000"];
      ["0"; "0"; "0"; "10.0000"; "10.0000"] ]
  /\ forall blk,
       In blk (blocks_of (script_no 0 flat_box_v20)) ->
       exists l bounds,
         self_box (snd flat_box_v20) = BoxList l
         /\ blk_inside blk = "0" :: "0" :: "0" :: bounds
         /\ List.length bounds = List.length l.
Proof.
  split; [vm_compute; reflexivity|].
  intros blk.
  apply (proj1 (block_bounds_follow_box env_v20)
           flat_box (fst flat_box_v20) (snd flat_box_v20)
           "nodes/packmol/packmole.inp" (script_no 0 flat_box_v20) blk
           (surjective_pairing _)).
  vm_compute. left. reflexivity.
Defined.
